(** * The educational-content pipeline (ai-assessment-v2), embedded in Rocq

    A shallow embedding of the Python sources

      - [config.py]                      (module [Config])
      - [Backend/models/schemas.py]      (modules [GeneratorInput] ... [TaggerOutput])
      - [Backend/models/artifacts.py]    (modules [AttemptRecord] ... [RunArtifact])
      - [Backend/agents/base.py]         (module [BaseAgent])
      - [Backend/agents/reviewer.py]     (module [ReviewerAgent])
      - [Backend/agents/generator.py], [refiner.py], [tagger.py]
      - [Backend/agents/orchestrator.py] (module [Orchestrator])
      - [Backend/storage/repository.py]  (module [ArtifactRepository])
      - [app.py]                         (module [App], the handlers)

    followed by the properties proved about them.

    Conventions.  A Python [int] is a [Z]; a [str] is a [string] (one
    character per code point, for code points below 256); a [datetime] is
    a [Z], the number of microseconds since the epoch; a [float] is the
    rational it denotes, and the division of two [int]s rounds to the
    nearest such rational ([true_div]).
    Code that raises is a computation in the state-and-exception monad [M]:
    the state survives an exception, as the fields of a Python object
    mutated before a [raise] do.  The language model and the wall clock are
    oracles indexed by the number of requests made so far; [list.sort] is
    taken from the runtime with its contract on string keys. *)

From Stdlib Require Import ZArith List String Ascii Bool Lia QArith.
From Stdlib Require Import DecimalString DecimalZ DecimalPos Sorted Permutation.
Import ListNotations.
Close Scope Q_scope.
Open Scope string_scope.
Open Scope Z_scope.

(* ================================================================== *)
(** * Part I: the embedding                                            *)
(* ================================================================== *)

(** ** Python built-ins used by the sources *)

(** [str(n)] and [f"{n}"] for an [int]. *)
Definition str_int (z : Z) : string := NilZero.string_of_int (Z.to_int z).

(** [len(s)] for a [str] and [len(l)] for a [list]. *)
Definition len_str (s : string) : Z := Z.of_nat (String.length s).

Definition len {A : Type} (l : list A) : Z := Z.of_nat (List.length l).

(** [sep.join(l)]. *)
Definition join (sep : string) (l : list string) : string := String.concat sep l.

(** [range(n)]. *)
Definition range (n : Z) : list Z := map Z.of_nat (seq 0 (Z.to_nat n)).

(** [x < y] on floats that are exactly the rationals [x] and [y]. *)
Definition Qlt_bool (x y : Q) : bool := negb (Qle_bool y x).

(** [f"{x:.1f}"]: one digit after the point, ties rounded to the even
    digit, for a float that is exactly the rational [x]. *)
Definition format_1f (x : Q) : string :=
  let n := Z.abs (Qnum x) * 10 in
  let d := Z.pos (Qden x) in
  let q := n / d in
  let r := n mod d in
  let t := if 2 * r <? d then q
           else if d <? 2 * r then q + 1
           else if Z.even q then q else q + 1 in
  (if Qnum x <? 0 then "-" else "") ++ str_int (t / 10) ++ "." ++ str_int (t mod 10).

Fixpoint frac_digits (fuel : nat) (r d : Z) : string :=
  match fuel with
  | O => ""
  | S fuel' =>
      let r10 := r * 10 in
      str_int (r10 / d) ++
      (if r10 mod d =? 0 then "" else frac_digits fuel' (r10 mod d) d)
  end.

(** [f"{x}"] ([repr]) for a float that is exactly the rational [x], when
    [x] has a short terminating decimal expansion (as [4.0] has). *)
Definition repr_float (x : Q) : string :=
  let n := Z.abs (Qnum x) in
  let d := Z.pos (Qden x) in
  (if Qnum x <? 0 then "-" else "") ++ str_int (n / d) ++ "." ++ frac_digits 17 (n mod d) d.

(** [n / d] for two [int]s with [0 < d]: a [float], the double nearest to
    the quotient (ties to the even significand), written as the rational
    it is.  [e] is the binary exponent of the quotient, [p] the exponent of
    the last place of its 53-bit significand (of the subnormals' below
    [2 ** -1022]) and [m] the quotient rounded to a multiple of [2 ** p].
    The quotients taken in this program stay far below the largest
    double. *)
Definition true_div (n d : Z) : Q :=
  if n =? 0 then Qmake 0 1
  else
    let a := Z.abs n in
    let e0 := Z.log2 a - Z.log2 d in
    let e := if a * 2 ^ Z.max 0 (- e0) <? d * 2 ^ Z.max 0 e0 then e0 - 1 else e0 in
    let p := Z.max (e - 52) (-1074) in
    let num := a * 2 ^ Z.max 0 (- p) in
    let den := d * 2 ^ Z.max 0 p in
    let q := num / den in
    let r := num mod den in
    let m := if 2 * r <? den then q
             else if den <? 2 * r then q + 1
             else if Z.even q then q else q + 1 in
    Qmake (Z.sgn n * m * 2 ^ Z.max 0 p) (Z.to_pos (2 ^ Z.max 0 (- p))).

(** [delta.total_seconds()] for a [timedelta] of so many microseconds:
    [microseconds / 10**6]. *)
Definition total_seconds (microseconds : Z) : Q := true_div microseconds (10 ^ 6).

(** [c.isspace()], for the code points a [string] holds (those below 256):
    the ASCII separators, U+0085 and U+00A0; and [len(s.strip()) == 0]. *)
Definition is_space (c : ascii) : bool :=
  let n := Z.of_nat (nat_of_ascii c) in
  ((9 <=? n) && (n <=? 13)) || ((28 <=? n) && (n <=? 32)) || (n =? 133) || (n =? 160).

Definition blank (s : string) : bool := forallb is_space (list_ascii_of_string s).

(** JSON-shaped Python values: what [json.loads] returns and what a
    document store keeps.  A [dict] is an association list read by its
    first binding of a key. *)
#[local] Unset Elimination Schemes.
Inductive json :=
| JNull
| JBool (b : bool)
| JInt (z : Z)
| JFloat (q : Q)
| JStr (s : string)
| JList (l : list json)
| JDict (kv : list (string * json)).
#[local] Set Elimination Schemes.

Definition dict := list (string * json).

Fixpoint lookup (k : string) (d : dict) : option json :=
  match d with
  | [] => None
  | (k', v) :: d' => if String.eqb k' k then Some v else lookup k d'
  end.

(** [d[k] = v]: an existing key keeps its place, a new one goes last. *)
Fixpoint set_key (k : string) (v : json) (d : dict) : dict :=
  match d with
  | [] => [(k, v)]
  | (k', v') :: d' => if String.eqb k' k then (k, v) :: d' else (k', v') :: set_key k v d'
  end.

(** [d.update(fields)]. *)
Definition dict_update (d fields : dict) : dict :=
  fold_left (fun acc kv => set_key (fst kv) (snd kv) acc) fields d.

(** ** Exceptions and the monad of effectful code *)

(** The exceptions ([Exception] subclasses) the sources raise or meet.
    [str(e)] of a pydantic [ValidationError] is the text it carries. *)
Inductive exn :=
| AgentError (message agent_name : string) (recoverable : bool)
| ValidationError (msg : string)
| TypeError (msg : string)
| AttributeError (msg : string)
| OtherException (msg : string).

(** [AgentError.__init__] passes [f"[{agent_name}] {message}"] to
    [Exception.__init__]; that is what [str(e)] returns. *)
Definition str_exn (e : exn) : string :=
  match e with
  | AgentError message agent_name _ => "[" ++ agent_name ++ "] " ++ message
  | ValidationError msg => msg
  | TypeError msg => msg
  | AttributeError msg => msg
  | OtherException msg => msg
  end.

Definition is_AgentError (e : exn) : bool :=
  match e with AgentError _ _ _ => true | _ => false end.

Inductive res (A : Type) :=
| Ok (a : A)
| Raise (e : exn).

Arguments Ok {A} a.
Arguments Raise {A} e.

(** A computation over a state [S] that returns or raises; the state it
    reached is kept either way. *)
Definition M (S A : Type) : Type := S -> res A * S.

Definition ret {S A : Type} (a : A) : M S A := fun s => (Ok a, s).

Definition raise {S A : Type} (e : exn) : M S A := fun s => (Raise e, s).

Definition bind {S A B : Type} (c : M S A) (k : A -> M S B) : M S B :=
  fun s => match c s with
           | (Ok a, s') => k a s'
           | (Raise e, s') => (Raise e, s')
           end.

(** [try: c] with the outcome handed to the code that follows. *)
Definition try_ {S A : Type} (c : M S A) : M S (res A) :=
  fun s => let (r, s') := c s in (Ok r, s').

Definition lift_res {S A : Type} (r : res A) : M S A := fun s => (r, s).

Definition get_state {S : Type} : M S S := fun s => (Ok s, s).

Definition modify {S : Type} (f : S -> S) : M S unit := fun s => (Ok tt, f s).

Declare Scope monad_scope.
Delimit Scope monad_scope with monad.
Notation "x <- c ;; k" := (bind c (fun x => k))
  (at level 100, c at next level, right associativity) : monad_scope.
Notation "c ;;; k" := (bind c (fun _ => k))
  (at level 100, right associativity) : monad_scope.
Open Scope monad_scope.

(** The option monad, for validation of documents. *)
Definition obind {A B : Type} (c : option A) (k : A -> option B) : option B :=
  match c with Some a => k a | None => None end.

Notation "x <~ c ;; k" := (obind c (fun x => k))
  (at level 100, c at next level, right associativity) : monad_scope.

Definition guard (b : bool) : option unit := if b then Some tt else None.

Fixpoint mapM {A B : Type} (f : A -> option B) (l : list A) : option (list B) :=
  match l with
  | [] => Some []
  | a :: l' => b <~ f a ;; bs <~ mapM f l' ;; Some (b :: bs)
  end.

(** ** config.py *)

Module Config.

Definition MAX_GENERATION_RETRIES : Z := 1.

Definition MAX_REFINEMENT_ATTEMPTS : Z := 2.

(** A [dict] in insertion order. *)
Definition PASS_THRESHOLDS : list (string * Z) :=
  [("age_appropriateness", 4); ("correctness", 5); ("clarity", 4); ("coverage", 3)].

Definition MIN_AVERAGE_SCORE : Q := Qmake 4 1.

End Config.

(** ** Reading documents: the pieces of pydantic's validation

    Building a model from a document is modelled from the field declarations of the model
    classes: the type of every field, its bounds, its default.  The
    conversions pydantic applies to values of another type (a numeric
    string for an [int] field, say) are not modelled: such a document is
    refused here.  Keys a model does not declare are ignored, as pydantic
    does by default. *)

Definition as_int (j : json) : option Z :=
  match j with JInt z => Some z | _ => None end.

Definition as_float (j : json) : option Q :=
  match j with JFloat q => Some q | JInt z => Some (Qmake z 1) | _ => None end.

Definition as_str (j : json) : option string :=
  match j with JStr s => Some s | _ => None end.

Definition as_bool (j : json) : option bool :=
  match j with JBool b => Some b | _ => None end.

Definition as_list (j : json) : option (list json) :=
  match j with JList l => Some l | _ => None end.

Definition as_dict (j : json) : option dict :=
  match j with JDict d => Some d | _ => None end.

(** A required field. *)
Definition required {A : Type} (f : json -> option A) (k : string) (d : dict) : option A :=
  v <~ lookup k d ;; f v.

(** A field with a default. *)
Definition defaulted {A : Type} (f : json -> option A) (k : string) (dflt : A) (d : dict)
  : option A :=
  match lookup k d with
  | None => Some dflt
  | Some v => f v
  end.

(** An [Optional[...]] field whose default is [None]. *)
Definition optional {A : Type} (f : json -> option A) (k : string) (d : dict)
  : option (option A) :=
  match lookup k d with
  | None => Some None
  | Some JNull => Some None
  | Some v => x <~ f v ;; Some (Some x)
  end.

Definition list_of {A : Type} (f : json -> option A) (j : json) : option (list A) :=
  l <~ as_list j ;; mapM f l.

Definition dump_option {A : Type} (f : A -> json) (o : option A) : json :=
  match o with Some a => f a | None => JNull end.

Definition between (lo hi z : Z) : bool := (lo <=? z) && (z <=? hi).

(** What validation and serialisation take from the Python runtime: the
    text form of a [datetime] and its parser, which are inverse to each
    other, and the values the default factories [datetime.utcnow] and
    [uuid.uuid4] produce for keys a document lacks. *)
Record runtime := {
  isoformat : Z -> string;
  fromisoformat : string -> option Z;
  fromisoformat_isoformat : forall t, fromisoformat (isoformat t) = Some t;
  default_utcnow : Z;
  default_uuid4 : string
}.

Definition dump_datetime (rt : runtime) (t : Z) : json := JStr (isoformat rt t).

Definition as_datetime (rt : runtime) (j : json) : option Z :=
  s <~ as_str j ;; fromisoformat rt s.

(** ** Backend/models/schemas.py *)

Module GeneratorInput.

Record t := { grade : Z; topic : string }.

(** [grade: ge=1, le=12]; [topic: min_length=3, max_length=200]. *)
Definition valid (x : t) : bool :=
  between 1 12 (grade x) && between 3 200 (len_str (topic x)).

Definition model_dump (x : t) : json :=
  JDict [("grade", JInt (grade x)); ("topic", JStr (topic x))].

Definition model_validate (j : json) : option t :=
  d <~ as_dict j ;;
  g <~ required as_int "grade" d ;;
  tp <~ required as_str "topic" d ;;
  let x := {| grade := g; topic := tp |} in
  _ <~ guard (valid x) ;; Some x.

End GeneratorInput.

Module Explanation.

Record t := { text : string; grade : Z }.

(** [text: min_length=50]; [grade: ge=1, le=12]. *)
Definition valid (x : t) : bool :=
  (50 <=? len_str (text x)) && between 1 12 (grade x).

Definition model_dump (x : t) : json :=
  JDict [("text", JStr (text x)); ("grade", JInt (grade x))].

Definition model_validate (j : json) : option t :=
  d <~ as_dict j ;;
  tx <~ required as_str "text" d ;;
  g <~ required as_int "grade" d ;;
  let x := {| text := tx; grade := g |} in
  _ <~ guard (valid x) ;; Some x.

End Explanation.

Module MCQ.

Record t := { question : string; options : list string; correct_index : Z }.

(** [validate_options]: exactly four options, none empty once stripped. *)
Definition validate_options (v : list string) : bool :=
  (len v =? 4) && negb (existsb blank v).

(** [question: min_length=10]; [options: min_length=4, max_length=4] and
    the validator; [correct_index: ge=0, le=3]. *)
Definition valid (x : t) : bool :=
  (10 <=? len_str (question x)) && between 4 4 (len (options x)) &&
  validate_options (options x) && between 0 3 (correct_index x).

Definition model_dump (x : t) : json :=
  JDict [("question", JStr (question x));
         ("options", JList (map JStr (options x)));
         ("correct_index", JInt (correct_index x))].

Definition model_validate (j : json) : option t :=
  d <~ as_dict j ;;
  q <~ required as_str "question" d ;;
  o <~ required (list_of as_str) "options" d ;;
  c <~ required as_int "correct_index" d ;;
  let x := {| question := q; options := o; correct_index := c |} in
  _ <~ guard (valid x) ;; Some x.

End MCQ.

Module TeacherNotes.

Record t := { learning_objective : string; common_misconceptions : list string }.

(** [learning_objective: min_length=20]; [common_misconceptions: min_length=1]. *)
Definition valid (x : t) : bool :=
  (20 <=? len_str (learning_objective x)) && (1 <=? len (common_misconceptions x)).

Definition model_dump (x : t) : json :=
  JDict [("learning_objective", JStr (learning_objective x));
         ("common_misconceptions", JList (map JStr (common_misconceptions x)))].

Definition model_validate (j : json) : option t :=
  d <~ as_dict j ;;
  lo <~ required as_str "learning_objective" d ;;
  cm <~ required (list_of as_str) "common_misconceptions" d ;;
  let x := {| learning_objective := lo; common_misconceptions := cm |} in
  _ <~ guard (valid x) ;; Some x.

End TeacherNotes.

Module GeneratorOutput.

Record t := {
  explanation : Explanation.t;
  mcqs : list MCQ.t;
  teacher_notes : TeacherNotes.t
}.

(** [mcqs: min_length=3, max_length=5], every part valid. *)
Definition valid (x : t) : bool :=
  Explanation.valid (explanation x) && between 3 5 (len (mcqs x)) &&
  forallb MCQ.valid (mcqs x) && TeacherNotes.valid (teacher_notes x).

Definition model_dump (x : t) : json :=
  JDict [("explanation", Explanation.model_dump (explanation x));
         ("mcqs", JList (map MCQ.model_dump (mcqs x)));
         ("teacher_notes", TeacherNotes.model_dump (teacher_notes x))].

Definition model_validate (j : json) : option t :=
  d <~ as_dict j ;;
  e <~ required Explanation.model_validate "explanation" d ;;
  m <~ required (list_of MCQ.model_validate) "mcqs" d ;;
  n <~ required TeacherNotes.model_validate "teacher_notes" d ;;
  let x := {| explanation := e; mcqs := m; teacher_notes := n |} in
  _ <~ guard (valid x) ;; Some x.

End GeneratorOutput.

Module ReviewScore.

Record t := {
  age_appropriateness : Z;
  correctness : Z;
  clarity : Z;
  coverage : Z
}.

(** Every score [ge=1, le=5]. *)
Definition valid (x : t) : bool :=
  between 1 5 (age_appropriateness x) && between 1 5 (correctness x) &&
  between 1 5 (clarity x) && between 1 5 (coverage x).

Definition model_dump (x : t) : json :=
  JDict [("age_appropriateness", JInt (age_appropriateness x));
         ("correctness", JInt (correctness x));
         ("clarity", JInt (clarity x));
         ("coverage", JInt (coverage x))].

Definition model_validate (j : json) : option t :=
  d <~ as_dict j ;;
  a <~ required as_int "age_appropriateness" d ;;
  c <~ required as_int "correctness" d ;;
  cl <~ required as_int "clarity" d ;;
  cv <~ required as_int "coverage" d ;;
  let x := {| age_appropriateness := a; correctness := c; clarity := cl; coverage := cv |} in
  _ <~ guard (valid x) ;; Some x.

End ReviewScore.

(** [Literal["critical", "major", "minor"]]. *)
Inductive Severity := critical | major | minor.

Definition Severity_value (s : Severity) : string :=
  match s with critical => "critical" | major => "major" | minor => "minor" end.

Definition Severity_of (s : string) : option Severity :=
  if String.eqb s "critical" then Some critical
  else if String.eqb s "major" then Some major
  else if String.eqb s "minor" then Some minor
  else None.

Module ReviewFeedback.

Record t := {
  field : string;
  issue : string;
  severity : Severity;
  suggestion : option string
}.

Definition model_dump (x : t) : json :=
  JDict [("field", JStr (field x));
         ("issue", JStr (issue x));
         ("severity", JStr (Severity_value (severity x)));
         ("suggestion", dump_option JStr (suggestion x))].

(** [severity] defaults to ["major"], [suggestion] to [None]. *)
Definition model_validate (j : json) : option t :=
  d <~ as_dict j ;;
  f <~ required as_str "field" d ;;
  i <~ required as_str "issue" d ;;
  s <~ defaulted (fun v => n <~ as_str v ;; Severity_of n) "severity" major d ;;
  g <~ optional as_str "suggestion" d ;;
  Some {| field := f; issue := i; severity := s; suggestion := g |}.

End ReviewFeedback.

Module ReviewerOutput.

Record t := {
  scores : ReviewScore.t;
  pass_decision : bool;
  feedback : list ReviewFeedback.t;
  summary : string
}.

Definition valid (x : t) : bool := ReviewScore.valid (scores x).

(** Dumped by field name. *)
Definition model_dump (x : t) : json :=
  JDict [("scores", ReviewScore.model_dump (scores x));
         ("pass_decision", JBool (pass_decision x));
         ("feedback", JList (map ReviewFeedback.model_dump (feedback x)));
         ("summary", JStr (summary x))].

(** [pass_decision] is read under its alias ["pass"] or, since
    [populate_by_name] is set, under its own name; [feedback] defaults to
    the empty list. *)
Definition model_validate (j : json) : option t :=
  d <~ as_dict j ;;
  s <~ required ReviewScore.model_validate "scores" d ;;
  p <~ match lookup "pass" d with
       | Some v => as_bool v
       | None => required as_bool "pass_decision" d
       end ;;
  f <~ defaulted (list_of ReviewFeedback.model_validate) "feedback" [] d ;;
  m <~ required as_str "summary" d ;;
  let x := {| scores := s; pass_decision := p; feedback := f; summary := m |} in
  _ <~ guard (valid x) ;; Some x.

End ReviewerOutput.

Module RefinerInput.

Record t := {
  original_input : GeneratorInput.t;
  current_content : GeneratorOutput.t;
  feedback : list ReviewFeedback.t;
  attempt_number : Z
}.

(** [attempt_number: ge=1, le=2]; the other fields are given as model
    instances, which pydantic takes as they are. *)
Definition valid (x : t) : bool := between 1 2 (attempt_number x).

End RefinerInput.

Inductive DifficultyLevel := EASY | MEDIUM | HARD.

Definition DifficultyLevel_value (x : DifficultyLevel) : string :=
  match x with EASY => "Easy" | MEDIUM => "Medium" | HARD => "Hard" end.

Definition DifficultyLevel_of (s : string) : option DifficultyLevel :=
  if String.eqb s "Easy" then Some EASY
  else if String.eqb s "Medium" then Some MEDIUM
  else if String.eqb s "Hard" then Some HARD
  else None.

Inductive BloomsLevel :=
  REMEMBERING | UNDERSTANDING | APPLYING | ANALYZING | EVALUATING | CREATING.

Definition BloomsLevel_value (x : BloomsLevel) : string :=
  match x with
  | REMEMBERING => "Remembering"
  | UNDERSTANDING => "Understanding"
  | APPLYING => "Applying"
  | ANALYZING => "Analyzing"
  | EVALUATING => "Evaluating"
  | CREATING => "Creating"
  end.

Definition BloomsLevel_of (s : string) : option BloomsLevel :=
  if String.eqb s "Remembering" then Some REMEMBERING
  else if String.eqb s "Understanding" then Some UNDERSTANDING
  else if String.eqb s "Applying" then Some APPLYING
  else if String.eqb s "Analyzing" then Some ANALYZING
  else if String.eqb s "Evaluating" then Some EVALUATING
  else if String.eqb s "Creating" then Some CREATING
  else None.

Inductive ContentType := EXPLANATION | QUIZ | EXERCISE | EXAMPLE.

Definition ContentType_value (x : ContentType) : string :=
  match x with
  | EXPLANATION => "Explanation"
  | QUIZ => "Quiz"
  | EXERCISE => "Exercise"
  | EXAMPLE => "Example"
  end.

Definition ContentType_of (s : string) : option ContentType :=
  if String.eqb s "Explanation" then Some EXPLANATION
  else if String.eqb s "Quiz" then Some QUIZ
  else if String.eqb s "Exercise" then Some EXERCISE
  else if String.eqb s "Example" then Some EXAMPLE
  else None.

Module TaggerOutput.

Record t := {
  subject : string;
  topic : string;
  grade : Z;
  difficulty : DifficultyLevel;
  content_type : list ContentType;
  blooms_level : BloomsLevel;
  keywords : list string
}.

(** [grade: ge=1, le=12]; [content_type: min_length=1]. *)
Definition valid (x : t) : bool :=
  between 1 12 (grade x) && (1 <=? len (content_type x)).

Definition model_dump (x : t) : json :=
  JDict [("subject", JStr (subject x));
         ("topic", JStr (topic x));
         ("grade", JInt (grade x));
         ("difficulty", JStr (DifficultyLevel_value (difficulty x)));
         ("content_type", JList (map (fun c => JStr (ContentType_value c)) (content_type x)));
         ("blooms_level", JStr (BloomsLevel_value (blooms_level x)));
         ("keywords", JList (map JStr (keywords x)))].

Definition model_validate (j : json) : option t :=
  d <~ as_dict j ;;
  s <~ required as_str "subject" d ;;
  tp <~ required as_str "topic" d ;;
  g <~ required as_int "grade" d ;;
  df <~ required (fun v => n <~ as_str v ;; DifficultyLevel_of n) "difficulty" d ;;
  ct <~ required (list_of (fun v => n <~ as_str v ;; ContentType_of n)) "content_type" d ;;
  bl <~ required (fun v => n <~ as_str v ;; BloomsLevel_of n) "blooms_level" d ;;
  kw <~ defaulted (list_of as_str) "keywords" [] d ;;
  let x := {| subject := s; topic := tp; grade := g; difficulty := df;
              content_type := ct; blooms_level := bl; keywords := kw |} in
  _ <~ guard (valid x) ;; Some x.

End TaggerOutput.

(** ** Backend/models/artifacts.py *)

Definition valid_option {A : Type} (v : A -> bool) (o : option A) : bool :=
  match o with Some a => v a | None => true end.

Module AttemptRecord.

Record t := {
  attempt : Z;
  draft : GeneratorOutput.t;
  review : ReviewerOutput.t;
  refined : option GeneratorOutput.t;
  timestamp : Z
}.

(** [attempt: ge=1], every part valid. *)
Definition valid (x : t) : bool :=
  (1 <=? attempt x) && GeneratorOutput.valid (draft x) &&
  ReviewerOutput.valid (review x) && valid_option GeneratorOutput.valid (refined x).

Definition model_dump (rt : runtime) (x : t) : json :=
  JDict [("attempt", JInt (attempt x));
         ("draft", GeneratorOutput.model_dump (draft x));
         ("review", ReviewerOutput.model_dump (review x));
         ("refined", dump_option GeneratorOutput.model_dump (refined x));
         ("timestamp", dump_datetime rt (timestamp x))].

(** [timestamp] has the default factory [datetime.utcnow]. *)
Definition model_validate (rt : runtime) (j : json) : option t :=
  d <~ as_dict j ;;
  a <~ required as_int "attempt" d ;;
  dr <~ required GeneratorOutput.model_validate "draft" d ;;
  rv <~ required ReviewerOutput.model_validate "review" d ;;
  rf <~ optional GeneratorOutput.model_validate "refined" d ;;
  ts <~ defaulted (as_datetime rt) "timestamp" (default_utcnow rt) d ;;
  let x := {| attempt := a; draft := dr; review := rv; refined := rf; timestamp := ts |} in
  _ <~ guard (valid x) ;; Some x.

End AttemptRecord.

(** [Literal["approved", "rejected"]]. *)
Inductive Status := approved | rejected.

Definition Status_value (s : Status) : string :=
  match s with approved => "approved" | rejected => "rejected" end.

Definition Status_of (s : string) : option Status :=
  if String.eqb s "approved" then Some approved
  else if String.eqb s "rejected" then Some rejected
  else None.

Module FinalResult.

Record t := {
  status : Status;
  content : option GeneratorOutput.t;
  tags : option TaggerOutput.t;
  rejection_reason : option string
}.

Definition valid (x : t) : bool :=
  valid_option GeneratorOutput.valid (content x) && valid_option TaggerOutput.valid (tags x).

Definition model_dump (x : t) : json :=
  JDict [("status", JStr (Status_value (status x)));
         ("content", dump_option GeneratorOutput.model_dump (content x));
         ("tags", dump_option TaggerOutput.model_dump (tags x));
         ("rejection_reason", dump_option JStr (rejection_reason x))].

Definition model_validate (j : json) : option t :=
  d <~ as_dict j ;;
  s <~ required (fun v => n <~ as_str v ;; Status_of n) "status" d ;;
  c <~ optional GeneratorOutput.model_validate "content" d ;;
  tg <~ optional TaggerOutput.model_validate "tags" d ;;
  rr <~ optional as_str "rejection_reason" d ;;
  Some {| status := s; content := c; tags := tg; rejection_reason := rr |}.

End FinalResult.

Module Timestamps.

Record t := {
  started_at : Z;
  finished_at : option Z;
  duration_seconds : option Q
}.

Definition model_dump (rt : runtime) (x : t) : json :=
  JDict [("started_at", dump_datetime rt (started_at x));
         ("finished_at", dump_option (dump_datetime rt) (finished_at x));
         ("duration_seconds", dump_option JFloat (duration_seconds x))].

Definition model_validate (rt : runtime) (j : json) : option t :=
  d <~ as_dict j ;;
  s <~ required (as_datetime rt) "started_at" d ;;
  f <~ optional (as_datetime rt) "finished_at" d ;;
  ds <~ optional as_float "duration_seconds" d ;;
  Some {| started_at := s; finished_at := f; duration_seconds := ds |}.

End Timestamps.

Module RunArtifact.

Record t := {
  run_id : string;
  user_id : option string;
  input : GeneratorInput.t;
  attempts : list AttemptRecord.t;
  final : option FinalResult.t;
  timestamps : Timestamps.t;
  metadata : dict
}.

Definition valid (x : t) : bool :=
  GeneratorInput.valid (input x) && forallb AttemptRecord.valid (attempts x) &&
  valid_option FinalResult.valid (final x).

(** [model_dump_json] read back by [json.loads]. *)
Definition model_dump (rt : runtime) (x : t) : dict :=
  [("run_id", JStr (run_id x));
   ("user_id", dump_option JStr (user_id x));
   ("input", GeneratorInput.model_dump (input x));
   ("attempts", JList (map (AttemptRecord.model_dump rt) (attempts x)));
   ("final", dump_option FinalResult.model_dump (final x));
   ("timestamps", Timestamps.model_dump rt (timestamps x));
   ("metadata", JDict (metadata x))].

(** The construction of a [RunArtifact] from the keys of a document [d]: [run_id] has the default
    factory [uuid4], [attempts] and [metadata] default to empty. *)
Definition model_validate (rt : runtime) (d : dict) : option t :=
  r <~ defaulted as_str "run_id" (default_uuid4 rt) d ;;
  u <~ optional as_str "user_id" d ;;
  i <~ required GeneratorInput.model_validate "input" d ;;
  a <~ defaulted (list_of (AttemptRecord.model_validate rt)) "attempts" [] d ;;
  f <~ optional FinalResult.model_validate "final" d ;;
  ts <~ required (Timestamps.model_validate rt) "timestamps" d ;;
  m <~ defaulted as_dict "metadata" [] d ;;
  let x := {| run_id := r; user_id := u; input := i; attempts := a; final := f;
              timestamps := ts; metadata := m |} in
  _ <~ guard (valid x) ;; Some x.

End RunArtifact.

(** ** Backend/agents/base.py *)

(** What one [client.chat.completions.create] request comes to: the
    request or the reading of its reply raises, or the reply carries a
    text. *)
Inductive completion :=
| ApiFailure (msg : string)
| Content (text : string).

(** What [json.loads(raw)] followed by the construction of the output
    model from the parsed keys comes to.
    [Uncaught] is any exception other than the two [_parse_and_validate]
    handles, a [TypeError] for a reply that is JSON but no object among
    them. *)
Inductive parsed (O : Type) :=
| JSONDecodeError (msg : string)
| SchemaError (msg : string)
| Uncaught (e : exn)
| Parsed (v : O).

Arguments JSONDecodeError {O} msg.
Arguments SchemaError {O} msg.
Arguments Uncaught {O} e.
Arguments Parsed {O} v.

(** A value bound to a parameter annotated [int]: an [int], or an
    instance of a model class, which Python does not refuse at the call. *)
Inductive py_value :=
| PyInt (z : Z)
| PyModel (class_name : string).

(** The state the agents share: the requests sent to the language model
    so far. *)
Record world := { llm_calls : nat }.

Module BaseAgent.

(** An agent: its class attributes and abstract methods, and its client.
    The reply to a request is [client k] when [k] requests were sent
    before it; a prompt does not change which reply that is, so the
    wording of prompts is carried along and not interpreted. *)
Record t (I O : Type) := {
  name : string;
  client : nat -> completion;
  _build_system_prompt : string;
  _build_user_prompt : I -> res string;
  output_schema : string -> parsed O
}.

Arguments name {I O} _.
Arguments client {I O} _.
Arguments _build_system_prompt {I O} _.
Arguments _build_user_prompt {I O} _.
Arguments output_schema {I O} _.

Definition _call_llm {I O : Type} (self : t I O) (system_prompt user_prompt : string)
  : M world string :=
  fun w =>
    let w' := {| llm_calls := S (llm_calls w) |} in
    match client self (llm_calls w) with
    | Content text => (Ok text, w')
    | ApiFailure msg =>
        (Raise (AgentError ("LLM call failed: " ++ msg) (name self) true), w')
    end.

Definition _parse_and_validate {I O : Type} (self : t I O) (raw_response : string) : res O :=
  match output_schema self raw_response with
  | Parsed v => Ok v
  | JSONDecodeError msg =>
      Raise (AgentError ("Invalid JSON response: " ++ msg) (name self) true)
  | SchemaError msg =>
      Raise (AgentError ("Schema validation failed: " ++ msg) (name self) true)
  | Uncaught e => Raise e
  end.

(** The [for attempt in range(max_retries + 1)] loop of [run], over the
    attempts [rng] still to make.  [inl result] is the [return] inside the
    loop; [inr last_error] is the end of the loop, by [break] or by
    exhaustion, with the message of the last [AgentError] caught. *)
Fixpoint run_loop {I O : Type} (self : t I O) (system_prompt user_prompt : string)
  (max_retries : Z) (rng : list Z) (last_error : option string)
  : M world (O + option string) :=
  match rng with
  | [] => ret (inr last_error)
  | attempt :: rest =>
      r <- try_ (raw_response <- _call_llm self system_prompt user_prompt ;;
                 lift_res (_parse_and_validate self raw_response)) ;;
      match r with
      | Ok result => ret (inl result)
      | Raise (AgentError message _ recoverable) =>
          if negb recoverable || (max_retries <=? attempt)
          then ret (inr (Some message))
          else run_loop self system_prompt user_prompt max_retries rest (Some message)
      | Raise e => raise e
      end
  end.

Definition run {I O : Type} (self : t I O) (input_data : I) (max_retries : py_value)
  : M world O :=
  let system_prompt := _build_system_prompt self in
  user_prompt <- lift_res (_build_user_prompt self input_data) ;;
  match max_retries with
  | PyModel cls =>
      raise (TypeError ("unsupported operand type(s) for +: '" ++ cls ++ "' and 'int'"))
  | PyInt max_retries =>
      r <- run_loop self system_prompt user_prompt max_retries (range (max_retries + 1)) None ;;
      match r with
      | inl result => ret result
      | inr (Some message) =>
          raise (AgentError ("Failed after " ++ str_int (max_retries + 1) ++
                             " attempts. Last error: " ++ message) (name self) false)
      | inr None => raise (AttributeError "'NoneType' object has no attribute 'message'")
      end
  end.

End BaseAgent.

(** ** The four agents *)

(** The text of the prompts: the constant system prompt of each agent, the
    template of its user prompt filled with the values interpolated into
    it, and [json.dumps(..., indent=2)]. *)
Record wording := {
  system_text : string -> string;
  user_text : string -> list string -> string;
  json_dumps : json -> string
}.

(** The [input_data] handed to an agent whose [_build_user_prompt] reads
    the keys ["grade"], ["topic"] and ["content"] of a [dict]: such a
    [dict], or a [GeneratorInput] instance. *)
Inductive py_input :=
| InDict (grade : Z) (topic : string) (content : GeneratorOutput.t)
| InModel (m : GeneratorInput.t).

(** [input_data[key]]: a model instance is not subscriptable. *)
Definition subscript (input_data : py_input) : res (Z * string * GeneratorOutput.t) :=
  match input_data with
  | InDict g tp c => Ok (g, tp, c)
  | InModel _ => Raise (TypeError "'GeneratorInput' object is not subscriptable")
  end.

(** *** Backend/agents/generator.py *)

Module GeneratorAgent.

Definition t := BaseAgent.t GeneratorInput.t GeneratorOutput.t.

Definition __init__ (client : nat -> completion) (w : wording)
  (schema : string -> parsed GeneratorOutput.t) : t :=
  {| BaseAgent.name := "GeneratorAgent";
     BaseAgent.client := client;
     BaseAgent._build_system_prompt := system_text w "GeneratorAgent";
     BaseAgent._build_user_prompt := fun input_data =>
       Ok (user_text w "GeneratorAgent"
             [str_int (GeneratorInput.grade input_data); GeneratorInput.topic input_data]);
     BaseAgent.output_schema := schema |}.

Definition run (self : t) (input_data : GeneratorInput.t) : M world GeneratorOutput.t :=
  BaseAgent.run self input_data (PyInt Config.MAX_GENERATION_RETRIES).

End GeneratorAgent.

(** *** Backend/agents/reviewer.py *)

Module ReviewerAgent.

Record t := {
  base : BaseAgent.t py_input ReviewerOutput.t;
  thresholds : list (string * Z);
  min_average : Q
}.

Definition __init__ (client : nat -> completion) (w : wording)
  (schema : string -> parsed ReviewerOutput.t) : t :=
  {| base :=
       {| BaseAgent.name := "ReviewerAgent";
          BaseAgent.client := client;
          BaseAgent._build_system_prompt := system_text w "ReviewerAgent";
          BaseAgent._build_user_prompt := fun input_data =>
            match subscript input_data with
            | Ok (g, tp, c) =>
                Ok (user_text w "ReviewerAgent"
                      [str_int g; tp; json_dumps w (GeneratorOutput.model_dump c)])
            | Raise e => Raise e
            end;
          BaseAgent.output_schema := schema |};
     thresholds := Config.PASS_THRESHOLDS;
     min_average := Config.MIN_AVERAGE_SCORE |}.

(** [getattr(scores, criterion)]. *)
Definition getattr (scores : ReviewScore.t) (criterion : string) : res Z :=
  if String.eqb criterion "age_appropriateness" then Ok (ReviewScore.age_appropriateness scores)
  else if String.eqb criterion "correctness" then Ok (ReviewScore.correctness scores)
  else if String.eqb criterion "clarity" then Ok (ReviewScore.clarity scores)
  else if String.eqb criterion "coverage" then Ok (ReviewScore.coverage scores)
  else Raise (AttributeError ("'ReviewScore' object has no attribute '" ++ criterion ++ "'")).

Definition threshold_reason (criterion : string) (score threshold : Z) : string :=
  criterion ++ " (" ++ str_int score ++ ") below threshold (" ++ str_int threshold ++ ")".

Definition average_reason (avg_score min_average : Q) : string :=
  "Average score (" ++ format_1f avg_score ++ ") below minimum (" ++
  repr_float min_average ++ ")".

(** The loop [for criterion, threshold in self.thresholds.items()] of
    [_validate_pass_decision], threading [should_pass] and [reasons]. *)
Fixpoint check_thresholds (scores : ReviewScore.t) (items : list (string * Z))
  (should_pass : bool) (reasons : list string) : res (bool * list string) :=
  match items with
  | [] => Ok (should_pass, reasons)
  | (criterion, threshold) :: rest =>
      match getattr scores criterion with
      | Raise e => Raise e
      | Ok score =>
          if score <? threshold
          then check_thresholds scores rest false
                 (reasons ++ [threshold_reason criterion score threshold])%list
          else check_thresholds scores rest should_pass reasons
      end
  end.

Definition avg_score (scores : ReviewScore.t) : Q :=
  Qmake (ReviewScore.age_appropriateness scores + ReviewScore.correctness scores +
         ReviewScore.clarity scores + ReviewScore.coverage scores) 4.

Definition _validate_pass_decision (self : t) (result : ReviewerOutput.t)
  : res ReviewerOutput.t :=
  let scores := ReviewerOutput.scores result in
  match check_thresholds scores (thresholds self) true [] with
  | Raise e => Raise e
  | Ok (should_pass, reasons) =>
      let avg := avg_score scores in
      let '(should_pass, reasons) :=
        if Qlt_bool avg (min_average self)
        then (false, (reasons ++ [average_reason avg (min_average self)])%list)
        else (should_pass, reasons) in
      if Bool.eqb (ReviewerOutput.pass_decision result) should_pass
      then Ok result
      else Ok {| ReviewerOutput.scores := ReviewerOutput.scores result;
                 ReviewerOutput.pass_decision := should_pass;
                 ReviewerOutput.feedback := ReviewerOutput.feedback result;
                 ReviewerOutput.summary :=
                   ReviewerOutput.summary result ++
                   " [Auto-corrected: " ++ join "; " reasons ++ "]" |}
  end.

Definition review (self : t) (original_input : GeneratorInput.t)
  (content : GeneratorOutput.t) : M world ReviewerOutput.t :=
  let input_data :=
    InDict (GeneratorInput.grade original_input) (GeneratorInput.topic original_input)
           content in
  result <- BaseAgent.run (base self) input_data (PyInt 1) ;;
  lift_res (_validate_pass_decision self result).

End ReviewerAgent.

(** *** Backend/agents/refiner.py *)

Module RefinerAgent.

Definition t := BaseAgent.t RefinerInput.t GeneratorOutput.t.

Definition __init__ (client : nat -> completion) (w : wording)
  (schema : string -> parsed GeneratorOutput.t) : t :=
  {| BaseAgent.name := "RefinerAgent";
     BaseAgent.client := client;
     BaseAgent._build_system_prompt := system_text w "RefinerAgent";
     BaseAgent._build_user_prompt := fun input_data =>
       Ok (user_text w "RefinerAgent"
             [str_int (RefinerInput.attempt_number input_data);
              str_int Config.MAX_REFINEMENT_ATTEMPTS;
              str_int (GeneratorInput.grade (RefinerInput.original_input input_data));
              GeneratorInput.topic (RefinerInput.original_input input_data);
              json_dumps w (GeneratorOutput.model_dump (RefinerInput.current_content input_data));
              json_dumps w (JList (map ReviewFeedback.model_dump
                                     (RefinerInput.feedback input_data)))]);
     BaseAgent.output_schema := schema |}.

(** [run] is inherited: the default [max_retries] is 1. *)
Definition run (self : t) (refiner_input : RefinerInput.t) : M world GeneratorOutput.t :=
  BaseAgent.run self refiner_input (PyInt 1).

Definition refine (self : t) (refiner_input : RefinerInput.t) : M world GeneratorOutput.t :=
  BaseAgent.run self refiner_input (PyInt 1).

End RefinerAgent.

(** *** Backend/agents/tagger.py *)

Module TaggerAgent.

Definition t := BaseAgent.t py_input TaggerOutput.t.

Definition __init__ (client : nat -> completion) (w : wording)
  (schema : string -> parsed TaggerOutput.t) : t :=
  {| BaseAgent.name := "TaggerAgent";
     BaseAgent.client := client;
     BaseAgent._build_system_prompt := system_text w "TaggerAgent";
     BaseAgent._build_user_prompt := fun input_data =>
       match subscript input_data with
       | Ok (g, tp, c) =>
           Ok (user_text w "TaggerAgent"
                 [json_dumps w (GeneratorOutput.model_dump c); str_int g; tp])
       | Raise e => Raise e
       end;
     BaseAgent.output_schema := schema |}.

(** [run] is inherited from [BaseAgent]: its parameters are
    [(input_data, max_retries)]. *)
Definition run (self : t) (input_data : py_input) (max_retries : py_value)
  : M world TaggerOutput.t :=
  BaseAgent.run self input_data max_retries.

Definition tag (self : t) (original_input : GeneratorInput.t)
  (content : GeneratorOutput.t) : M world TaggerOutput.t :=
  let input_data :=
    InDict (GeneratorInput.grade original_input) (GeneratorInput.topic original_input)
           content in
  BaseAgent.run self input_data (PyInt 1).

End TaggerAgent.

(** ** Backend/agents/orchestrator.py *)

(** The clock and the identifiers of the process: [utcnow k] is what
    [datetime.utcnow()] returns when [k] readings were taken before it,
    [uuid4] the identifier drawn for the run. *)
Record host := { utcnow : nat -> Z; uuid4 : string }.

Definition nl : string := String (ascii_of_nat 10) "".

(** [str(e)] of the [ValidationError] pydantic raises for an
    [attempt_number] out of bounds (its closing line, a link that names
    the installed pydantic version, is left out). *)
Definition RefinerInput_error (attempt : Z) : string :=
  "1 validation error for RefinerInput" ++ nl ++ "attempt_number" ++ nl ++
  (if attempt <? 1
   then "  Input should be greater than or equal to 1 [type=greater_than_equal, input_value="
   else "  Input should be less than or equal to 2 [type=less_than_equal, input_value=")
  ++ str_int attempt ++ ", input_type=int]".

Definition AttemptRecord_error (attempt : Z) : string :=
  "1 validation error for AttemptRecord" ++ nl ++ "attempt" ++ nl ++
  "  Input should be greater than or equal to 1 [type=greater_than_equal, input_value="
  ++ str_int attempt ++ ", input_type=int]".

Module Orchestrator.

(** The methods of its four agents that the orchestrator calls, as
    computations over the agents' own state [E], and the refinement
    ceiling.  [tagger_run input_data content] is the call
    [self.tagger.run(input_data, content)]. *)
Record t (E : Type) := {
  generator_run : GeneratorInput.t -> M E GeneratorOutput.t;
  reviewer_review : GeneratorInput.t -> GeneratorOutput.t -> M E ReviewerOutput.t;
  refiner_run : RefinerInput.t -> M E GeneratorOutput.t;
  tagger_run : GeneratorInput.t -> GeneratorOutput.t -> M E TaggerOutput.t;
  max_refinements : Z
}.

Arguments generator_run {E} _.
Arguments reviewer_review {E} _.
Arguments refiner_run {E} _.
Arguments tagger_run {E} _.
Arguments max_refinements {E} _.

(** [Orchestrator.__init__]: the four agents of the sources and the
    configured ceiling.  [TaggerAgent] does not override [run], so the two
    positional arguments of [self.tagger.run(input_data, content)] are
    bound to the parameters [input_data] and [max_retries] of
    [BaseAgent.run]. *)
Definition __init__ (client : nat -> completion) (w : wording)
  (schema_G : string -> parsed GeneratorOutput.t)
  (schema_R : string -> parsed ReviewerOutput.t)
  (schema_T : string -> parsed TaggerOutput.t) : t world :=
  let generator := GeneratorAgent.__init__ client w schema_G in
  let reviewer := ReviewerAgent.__init__ client w schema_R in
  let refiner := RefinerAgent.__init__ client w schema_G in
  let tagger := TaggerAgent.__init__ client w schema_T in
  {| generator_run := GeneratorAgent.run generator;
     reviewer_review := ReviewerAgent.review reviewer;
     refiner_run := RefinerAgent.run refiner;
     tagger_run := fun input_data content =>
       TaggerAgent.run tagger (InModel input_data) (PyModel "GeneratorOutput");
     max_refinements := Config.MAX_REFINEMENT_ATTEMPTS |}.

(** A call of an agent made by the orchestrator, with its outcome: a
    record kept beside the run, as a test double keeps one. *)
Inductive call :=
| generator_called (input_data : GeneratorInput.t) (outcome : res GeneratorOutput.t)
| reviewer_called (input_data : GeneratorInput.t) (content : GeneratorOutput.t)
    (outcome : res ReviewerOutput.t)
| refiner_called (refiner_input : RefinerInput.t) (outcome : res GeneratorOutput.t)
| tagger_called (input_data : GeneratorInput.t) (content : GeneratorOutput.t)
    (outcome : res TaggerOutput.t).

(** The state of one [run]: the agents' state, the number of clock
    readings taken, the calls made, and the [artifact] object. *)
Record state (E : Type) := {
  env : E;
  clock_reads : nat;
  calls : list call;
  artifact : RunArtifact.t
}.

Arguments env {E} _.
Arguments clock_reads {E} _.
Arguments calls {E} _.
Arguments artifact {E} _.

(** The three ways a step changes the state of a run. *)
Definition log_call {E : Type} (s : state E) (e' : E) (c : call) : state E :=
  {| env := e'; clock_reads := clock_reads s;
     calls := (calls s ++ [c])%list; artifact := artifact s |}.

Definition tick {E : Type} (s : state E) : state E :=
  {| env := env s; clock_reads := S (clock_reads s);
     calls := calls s; artifact := artifact s |}.

Definition with_artifact {E : Type} (f : RunArtifact.t -> RunArtifact.t) (s : state E)
  : state E :=
  {| env := env s; clock_reads := clock_reads s;
     calls := calls s; artifact := f (artifact s) |}.

(** [artifact.attempts.append(attempt)]. *)
Definition append_attempt (attempt : AttemptRecord.t) (a : RunArtifact.t) : RunArtifact.t :=
  {| RunArtifact.run_id := RunArtifact.run_id a;
     RunArtifact.user_id := RunArtifact.user_id a;
     RunArtifact.input := RunArtifact.input a;
     RunArtifact.attempts := (RunArtifact.attempts a ++ [attempt])%list;
     RunArtifact.final := RunArtifact.final a;
     RunArtifact.timestamps := RunArtifact.timestamps a;
     RunArtifact.metadata := RunArtifact.metadata a |}.

Section Run.

Context {E : Type}.
Variable self : t E.
Variable h : host.

(** Run an agent's method on the agents' state and record the call. *)
Definition invoke {A : Type} (c : M E A) (log : res A -> call) : M (state E) A :=
  fun s => let (r, e') := c (env s) in (r, log_call s e' (log r)).

Definition datetime_utcnow : M (state E) Z :=
  fun s => (Ok (utcnow h (clock_reads s)), tick s).

Definition update_artifact (f : RunArtifact.t -> RunArtifact.t) : M (state E) unit :=
  modify (with_artifact f).

Definition attempts_append (attempt : AttemptRecord.t) : M (state E) unit :=
  update_artifact (append_attempt attempt).

(** [artifact.final = f]. *)
Definition set_final (f : FinalResult.t) (a : RunArtifact.t) : RunArtifact.t :=
  {| RunArtifact.run_id := RunArtifact.run_id a;
     RunArtifact.user_id := RunArtifact.user_id a;
     RunArtifact.input := RunArtifact.input a;
     RunArtifact.attempts := RunArtifact.attempts a;
     RunArtifact.final := Some f;
     RunArtifact.timestamps := RunArtifact.timestamps a;
     RunArtifact.metadata := RunArtifact.metadata a |}.

(** [AttemptRecord(attempt=..., draft=..., review=..., refined=None)]:
    the default factory of [timestamp] reads the clock; [attempt] is
    validated against [ge=1]. *)
Definition new_AttemptRecord (attempt_number : Z) (draft : GeneratorOutput.t)
  (review : ReviewerOutput.t) : M (state E) AttemptRecord.t :=
  if 1 <=? attempt_number
  then (now <- datetime_utcnow ;;
        ret {| AttemptRecord.attempt := attempt_number;
               AttemptRecord.draft := draft;
               AttemptRecord.review := review;
               AttemptRecord.refined := None;
               AttemptRecord.timestamp := now |})
  else raise (ValidationError (AttemptRecord_error attempt_number)).

(** [attempt.refined = refined_content]. *)
Definition set_refined (attempt : AttemptRecord.t) (refined_content : GeneratorOutput.t)
  : AttemptRecord.t :=
  {| AttemptRecord.attempt := AttemptRecord.attempt attempt;
     AttemptRecord.draft := AttemptRecord.draft attempt;
     AttemptRecord.review := AttemptRecord.review attempt;
     AttemptRecord.refined := Some refined_content;
     AttemptRecord.timestamp := AttemptRecord.timestamp attempt |}.

Definition _generate (input_data : GeneratorInput.t) : M (state E) GeneratorOutput.t :=
  invoke (generator_run self input_data) (generator_called input_data).

Definition _review (input_data : GeneratorInput.t) (content : GeneratorOutput.t)
  : M (state E) ReviewerOutput.t :=
  invoke (reviewer_review self input_data content) (reviewer_called input_data content).

(** [RefinerInput(...)] is validated ([attempt_number: ge=1, le=2]) before
    the refiner is called. *)
Definition _refine (input_data : GeneratorInput.t) (content : GeneratorOutput.t)
  (review : ReviewerOutput.t) (attempt : Z) : M (state E) GeneratorOutput.t :=
  let refiner_input :=
    {| RefinerInput.original_input := input_data;
       RefinerInput.current_content := content;
       RefinerInput.feedback := ReviewerOutput.feedback review;
       RefinerInput.attempt_number := attempt |} in
  if RefinerInput.valid refiner_input
  then invoke (refiner_run self refiner_input) (refiner_called refiner_input)
  else raise (ValidationError (RefinerInput_error attempt)).

Definition _tag (input_data : GeneratorInput.t) (content : GeneratorOutput.t)
  : M (state E) TaggerOutput.t :=
  invoke (tagger_run self input_data content) (tagger_called input_data content).

Definition feedback_line (f : ReviewFeedback.t) : string :=
  ReviewFeedback.field f ++ ": " ++ ReviewFeedback.issue f.

Definition is_critical (f : ReviewFeedback.t) : bool :=
  match ReviewFeedback.severity f with critical => true | _ => false end.

Definition _summarize_feedback (review : option ReviewerOutput.t) : string :=
  match review with
  | None => "No specific feedback available"
  | Some review =>
      match ReviewerOutput.feedback review with
      | [] => "No specific feedback available"
      | _ :: _ =>
          let critical := filter is_critical (ReviewerOutput.feedback review) in
          match critical with
          | _ :: _ => join "; " (map feedback_line (firstn 3 critical))
          | [] => join "; " (map feedback_line (firstn 3 (ReviewerOutput.feedback review)))
          end
      end
  end.

(** The loop [while attempt_number <= self.max_refinements + 1] of [run].
    It returns [(final_content, final_review)].  Every turn that does not
    leave the loop adds one to [attempt_number], so [fuel] turns are
    enough when [fuel] is at least [max_refinements + 2 - attempt_number]
    (lemma [review_loop_fuel]). *)
Fixpoint review_loop (fuel : nat) (input_data : GeneratorInput.t) (attempt_number : Z)
  (current_content : GeneratorOutput.t)
  : M (state E) (option GeneratorOutput.t * option ReviewerOutput.t) :=
  match fuel with
  | O => ret (None, None)
  | S fuel' =>
      if attempt_number <=? max_refinements self + 1
      then (review <- _review input_data current_content ;;
            attempt <- new_AttemptRecord attempt_number current_content review ;;
            if ReviewerOutput.pass_decision review
            then (_ <- attempts_append attempt ;;
                  ret (Some current_content, Some review))
            else if max_refinements self <? attempt_number
            then (_ <- attempts_append attempt ;;
                  ret (None, Some review))
            else (refined_content <-
                    _refine input_data current_content review attempt_number ;;
                  _ <- attempts_append (set_refined attempt refined_content) ;;
                  review_loop fuel' input_data (attempt_number + 1) refined_content))
      else ret (None, None)
  end.

(** The body of the [try] statement of [run]. *)
Definition run_body (input_data : GeneratorInput.t) : M (state E) unit :=
  current_content <- _generate input_data ;;
  r <- review_loop (Z.to_nat (max_refinements self + 1)) input_data 1 current_content ;;
  match fst r with
  | Some final_content =>
      tags <- _tag input_data final_content ;;
      update_artifact (set_final
        {| FinalResult.status := approved;
           FinalResult.content := Some final_content;
           FinalResult.tags := Some tags;
           FinalResult.rejection_reason := None |})
  | None =>
      s <- get_state ;;
      update_artifact (set_final
        {| FinalResult.status := rejected;
           FinalResult.content := None;
           FinalResult.tags := None;
           FinalResult.rejection_reason :=
             Some ("Failed review after " ++
                   str_int (len (RunArtifact.attempts (artifact s))) ++ " attempts. " ++
                   "Final issues: " ++ _summarize_feedback (snd r)) |})
  end.

(** The two [except] clauses of [run]. *)
Definition handle (e : exn) : FinalResult.t :=
  {| FinalResult.status := rejected;
     FinalResult.content := None;
     FinalResult.tags := None;
     FinalResult.rejection_reason :=
       Some ((if is_AgentError e then "Pipeline error: " else "Unexpected error: ")
             ++ str_exn e) |}.

(** [artifact.timestamps.finished_at = ...] and
    [artifact.timestamps.duration_seconds = (finished_at - started_at).total_seconds()]. *)
Definition set_finished (finished_at : Z) (a : RunArtifact.t) : RunArtifact.t :=
  {| RunArtifact.run_id := RunArtifact.run_id a;
     RunArtifact.user_id := RunArtifact.user_id a;
     RunArtifact.input := RunArtifact.input a;
     RunArtifact.attempts := RunArtifact.attempts a;
     RunArtifact.final := RunArtifact.final a;
     RunArtifact.timestamps :=
       {| Timestamps.started_at := Timestamps.started_at (RunArtifact.timestamps a);
          Timestamps.finished_at := Some finished_at;
          Timestamps.duration_seconds :=
            Some (total_seconds
                    (finished_at - Timestamps.started_at (RunArtifact.timestamps a))) |};
     RunArtifact.metadata := RunArtifact.metadata a |}.

(** The [finally] clause of [run]. *)
Definition finalize : M (state E) unit :=
  finished_at <- datetime_utcnow ;;
  update_artifact (set_finished finished_at).

(** The state in which the [try] statement is entered: the artifact has
    been created with [started_at] read from the clock. *)
Definition start (input_data : GeneratorInput.t) (user_id : option string) (e : E)
  : state E :=
  {| env := e;
     clock_reads := 1;
     calls := [];
     artifact :=
       {| RunArtifact.run_id := uuid4 h;
          RunArtifact.user_id := user_id;
          RunArtifact.input := input_data;
          RunArtifact.attempts := [];
          RunArtifact.final := None;
          RunArtifact.timestamps :=
            {| Timestamps.started_at := utcnow h 0;
               Timestamps.finished_at := None;
               Timestamps.duration_seconds := None |};
          RunArtifact.metadata := [] |} |}.

(** [run], as the state it ends in.  [try_] hands over what the body
    came to; an exception of any class is handled, so nothing is raised
    from here on. *)
Definition exec (input_data : GeneratorInput.t) (user_id : option string) (e : E)
  : res unit * state E :=
  (r <- try_ (run_body input_data) ;;
   _ <- match r with
        | Ok _ => ret tt
        | Raise e => update_artifact (set_final (handle e))
        end ;;
   finalize) (start input_data user_id e).

(** [Orchestrator.run]: what it returns, or raises. *)
Definition run (input_data : GeneratorInput.t) (user_id : option string) (e : E)
  : res RunArtifact.t :=
  match exec input_data user_id e with
  | (Ok _, s) => Ok (artifact s)
  | (Raise x, _) => Raise x
  end.

End Run.

End Orchestrator.

(** ** Backend/storage/repository.py *)

(** [type(v).__name__] for a JSON-shaped value, and the [AttributeError]
    of [v.get] when [v] is no [dict]. *)
Definition type_name (v : json) : string :=
  match v with
  | JNull => "NoneType"
  | JBool _ => "bool"
  | JInt _ => "int"
  | JFloat _ => "float"
  | JStr _ => "str"
  | JList _ => "list"
  | JDict _ => "dict"
  end.

Definition no_get (v : json) : exn :=
  AttributeError ("'" ++ type_name v ++ "' object has no attribute 'get'").

(** [l[:n]]: a negative [n] counts from the end. *)
Definition slice_to {A : Type} (n : Z) (l : list A) : list A :=
  if 0 <=? n then firstn (Z.to_nat n) l else firstn (Z.to_nat (len l + n)) l.

(** The order in which [list.sort(key=..., reverse=True)] leaves elements
    whose keys are strings: keys descending in the order of [str] (by code
    point), elements with equal keys in the order they had. *)
Fixpoint insert_desc {A : Type} (key : A -> string) (x : A) (l : list A) : list A :=
  match l with
  | [] => [x]
  | y :: l' =>
      if String.leb (key y) (key x) then x :: y :: l' else y :: insert_desc key x l'
  end.

Definition sort_desc {A : Type} (key : A -> string) (l : list A) : list A :=
  fold_right (insert_desc key) [] l.

Definition key_text (keyed : json * dict) : string :=
  match fst keyed with JStr s => s | _ => "" end.

(** What the repository takes from the Python runtime: [list.sort] with
    [reverse=True], given the elements with their keys already computed.
    On keys that are all strings it is the stable descending sort; what it
    does on other keys (it may raise a [TypeError]) is left open. *)
Record python := {
  sort_reverse : list (json * dict) -> res (list dict);
  sort_reverse_str : forall keyed : list (json * dict),
    Forall (fun kd => exists s, fst kd = JStr s) keyed ->
    sort_reverse keyed = Ok (map snd (sort_desc key_text keyed))
}.

Module ArtifactRepository.

(** The TinyDB table ['artifacts']: its documents in the order of their
    insertion, which is the order in which [search] returns them. *)
Definition table := list dict.

(** The query [Artifact.run_id == run_id]: the document has the key and
    its value equals the string. *)
Definition run_id_is (run_id : string) (doc : dict) : bool :=
  match lookup "run_id" doc with
  | Some (JStr s) => String.eqb s run_id
  | _ => false
  end.

Definition search (cond : dict -> bool) (tb : table) : list dict := filter cond tb.

(** [table.update(fields, cond)]: every matching document is merged
    with [fields]. *)
Definition update (fields : dict) (cond : dict -> bool) (tb : table) : table :=
  map (fun doc => if cond doc then dict_update doc fields else doc) tb.

Definition insert (doc : dict) (tb : table) : table := (tb ++ [doc])%list.

Definition save (rt : runtime) (artifact : RunArtifact.t) : M table string :=
  fun tb =>
    let data := RunArtifact.model_dump rt artifact in
    let existing := search (run_id_is (RunArtifact.run_id artifact)) tb in
    match existing with
    | _ :: _ =>
        (Ok (RunArtifact.run_id artifact),
         update data (run_id_is (RunArtifact.run_id artifact)) tb)
    | [] => (Ok (RunArtifact.run_id artifact), insert data tb)
    end.

Definition get (rt : runtime) (run_id : string) : M table (option RunArtifact.t) :=
  fun tb =>
    let results := search (run_id_is run_id) tb in
    match results with
    | [] => (Ok None, tb)
    | doc :: _ =>
        match RunArtifact.model_validate rt doc with
        | Some artifact => (Ok (Some artifact), tb)
        | None => (Raise (ValidationError "validation error for RunArtifact"), tb)
        end
    end.

(** The query [Artifact.user_id == user_id]. *)
Definition user_id_is (user_id : string) (doc : dict) : bool :=
  match lookup "user_id" doc with
  | Some (JStr s) => String.eqb s user_id
  | _ => false
  end.

(** The sort key [x.get('timestamps', {}).get('started_at', '')]. *)
Definition started_at_key (x : dict) : res json :=
  match lookup "timestamps" x with
  | None => Ok (JStr "")
  | Some (JDict t) =>
      Ok (match lookup "started_at" t with Some v => v | None => JStr "" end)
  | Some v => Raise (no_get v)
  end.

(** The keys of the elements, computed in order before any comparison. *)
Fixpoint with_keys (results : list dict) : res (list (json * dict)) :=
  match results with
  | [] => Ok []
  | x :: rest =>
      match started_at_key x with
      | Raise e => Raise e
      | Ok k =>
          match with_keys rest with
          | Raise e => Raise e
          | Ok keyed => Ok ((k, x) :: keyed)
          end
      end
  end.

(** [results.sort(key=lambda x: ..., reverse=True)]. *)
Definition sort_newest_first (py : python) (results : list dict) : res (list dict) :=
  match with_keys results with
  | Raise e => Raise e
  | Ok keyed => sort_reverse py keyed
  end.

(** The list comprehension that builds a [RunArtifact] from every result,
    in order. *)
Fixpoint load_all (rt : runtime) (results : list dict) : res (list RunArtifact.t) :=
  match results with
  | [] => Ok []
  | r :: rest =>
      match RunArtifact.model_validate rt r with
      | None => Raise (ValidationError "validation error for RunArtifact")
      | Some artifact =>
          match load_all rt rest with
          | Raise e => Raise e
          | Ok artifacts => Ok (artifact :: artifacts)
          end
      end
  end.

Definition get_by_user (rt : runtime) (py : python) (user_id : string) (limit : Z)
  : M table (list RunArtifact.t) :=
  fun tb =>
    let results := search (user_id_is user_id) tb in
    match sort_newest_first py results with
    | Raise e => (Raise e, tb)
    | Ok results => (load_all rt (slice_to limit results), tb)
    end.

Definition get_all (rt : runtime) (py : python) (limit : Z) : M table (list RunArtifact.t) :=
  fun tb =>
    let results := tb in
    match sort_newest_first py results with
    | Raise e => (Raise e, tb)
    | Ok results => (load_all rt (slice_to limit results), tb)
    end.

(** [a.get('final', {}).get('status') == status]. *)
Definition final_status_is (status : string) (a : dict) : res bool :=
  match lookup "final" a with
  | None => Ok false
  | Some (JDict f) =>
      Ok (match lookup "status" f with
          | Some (JStr s) => String.eqb s status
          | _ => false
          end)
  | Some v => Raise (no_get v)
  end.

(** [sum(1 for a in all_artifacts if ...)]. *)
Fixpoint count_status (status : string) (all_artifacts : list dict) : res Z :=
  match all_artifacts with
  | [] => Ok 0
  | a :: rest =>
      match final_status_is status a with
      | Raise e => Raise e
      | Ok b =>
          match count_status status rest with
          | Raise e => Raise e
          | Ok n => Ok ((if b then 1 else 0) + n)
          end
      end
  end.

(** [get_stats]; [n_approved] and [n_rejected] are the counts the source
    names [approved] and [rejected]. *)
Definition get_stats : M table dict :=
  fun tb =>
    let all_artifacts := tb in
    match count_status "approved" all_artifacts with
    | Raise e => (Raise e, tb)
    | Ok n_approved =>
        match count_status "rejected" all_artifacts with
        | Raise e => (Raise e, tb)
        | Ok n_rejected =>
            (Ok [("total_runs", JInt (len all_artifacts));
                 ("approved", JInt n_approved);
                 ("rejected", JInt n_rejected);
                 ("approval_rate",
                  match all_artifacts with
                  | [] => JInt 0
                  | _ :: _ => JFloat (true_div n_approved (len all_artifacts))
                  end)],
             tb)
        end
    end.

(** [clear]: [self.artifacts.truncate()]. *)
Definition clear : M table unit := fun _ => (Ok tt, []).

End ArtifactRepository.

(** ** app.py *)

Module App.

(** What a handler comes to: it returns a value, it raises an
    [HTTPException], or another exception leaves it (which the framework
    answers with status 500). *)
Inductive response (A : Type) :=
| Returned (a : A)
| HTTPException (status_code : Z) (detail : string)
| Unhandled (e : exn).

Arguments Returned {A} a.
Arguments HTTPException {A} status_code detail.
Arguments Unhandled {A} e.

(** The two components of the module: the state of the agents of
    [orchestrator] and the table of [repository]. *)
Record state (E : Type) := {
  agents : E;
  artifacts : ArtifactRepository.table
}.

Arguments agents {E} _.
Arguments artifacts {E} _.

(** [generate_content]: run the pipeline, store the artifact, log its
    final status, return it; any exception becomes status 500.  [h] is the
    clock and the identifier of this run. *)
Definition generate_content {E : Type} (orchestrator : Orchestrator.t E) (h : host)
  (rt : runtime) (request : GeneratorInput.t) (user_id : option string)
  : state E -> response RunArtifact.t * state E :=
  fun st =>
    match Orchestrator.exec orchestrator h request user_id (agents st) with
    | (Raise e, s) =>
        (HTTPException 500 (str_exn e),
         {| agents := Orchestrator.env s; artifacts := artifacts st |})
    | (Ok _, s) =>
        let artifact := Orchestrator.artifact s in
        match ArtifactRepository.save rt artifact (artifacts st) with
        | (Raise e, tb) =>
            (HTTPException 500 (str_exn e),
             {| agents := Orchestrator.env s; artifacts := tb |})
        | (Ok _, tb) =>
            match RunArtifact.final artifact with
            | None =>
                (HTTPException 500 "'NoneType' object has no attribute 'status'",
                 {| agents := Orchestrator.env s; artifacts := tb |})
            | Some _ =>
                (Returned artifact, {| agents := Orchestrator.env s; artifacts := tb |})
            end
        end
    end.



Definition get_artifact (rt : runtime) (run_id : string)
  : ArtifactRepository.table -> response RunArtifact.t * ArtifactRepository.table :=
  fun tb =>
    match ArtifactRepository.get rt run_id tb with
    | (Raise e, tb') => (Unhandled e, tb')
    | (Ok None, tb') => (HTTPException 404 ("Artifact " ++ run_id ++ " not found"), tb')
    | (Ok (Some artifact), tb') => (Returned artifact, tb')
    end.

Definition get_stats
  : ArtifactRepository.table -> response dict * ArtifactRepository.table :=
  fun tb =>
    match ArtifactRepository.get_stats tb with
    | (Raise e, tb') => (Unhandled e, tb')
    | (Ok stats, tb') => (Returned stats, tb')
    end.

End App.

(** ** Backend/tests/conftest.py: the sample data, and test doubles *)

Module Fixtures.

Definition sample_generator_input : GeneratorInput.t :=
  {| GeneratorInput.grade := 5; GeneratorInput.topic := "Fractions as parts of a whole" |}.

Definition sample_valid_generator_output : GeneratorOutput.t :=
  {| GeneratorOutput.explanation :=
       {| Explanation.text := "Fractions are a way to represent parts of a whole. When we divide something into equal parts, each part is a fraction. For example, if you cut a pizza into 4 equal slices, each slice is 1/4 (one-fourth) of the pizza. The top number (numerator) tells us how many parts we have, and the bottom number (denominator) tells us how many equal parts the whole is divided into.";
          Explanation.grade := 5 |};
     GeneratorOutput.mcqs :=
       [ {| MCQ.question := "If a pizza is cut into 8 equal slices and you eat 3, what fraction of the pizza did you eat?";
            MCQ.options := ["1/8"; "3/8"; "5/8"; "8/3"];
            MCQ.correct_index := 1 |};
         {| MCQ.question := "What does the denominator in a fraction tell us?";
            MCQ.options := ["How many parts we have";
                            "How many equal parts the whole is divided into";
                            "The size of each part";
                            "The total number"];
            MCQ.correct_index := 1 |};
         {| MCQ.question := "Which fraction represents half of something?";
            MCQ.options := ["1/4"; "1/3"; "1/2"; "2/1"];
            MCQ.correct_index := 2 |} ];
     GeneratorOutput.teacher_notes :=
       {| TeacherNotes.learning_objective := "Students will be able to identify and represent fractions as parts of a whole using visual models and numerical notation.";
          TeacherNotes.common_misconceptions :=
            ["Confusing numerator and denominator";
             "Thinking larger denominators mean larger fractions"] |} |}.

Definition sample_passing_review : ReviewerOutput.t :=
  {| ReviewerOutput.scores :=
       {| ReviewScore.age_appropriateness := 5; ReviewScore.correctness := 5;
          ReviewScore.clarity := 5; ReviewScore.coverage := 4 |};
     ReviewerOutput.pass_decision := true;
     ReviewerOutput.feedback :=
       [ {| ReviewFeedback.field := "explanation.text";
            ReviewFeedback.issue := "Could include more visual examples";
            ReviewFeedback.severity := minor;
            ReviewFeedback.suggestion := Some "Add diagram descriptions" |} ];
     ReviewerOutput.summary := "Excellent content that meets all quality standards." |}.

Definition sample_failing_review : ReviewerOutput.t :=
  {| ReviewerOutput.scores :=
       {| ReviewScore.age_appropriateness := 3; ReviewScore.correctness := 5;
          ReviewScore.clarity := 3; ReviewScore.coverage := 4 |};
     ReviewerOutput.pass_decision := false;
     ReviewerOutput.feedback :=
       [ {| ReviewFeedback.field := "explanation.text";
            ReviewFeedback.issue := "Vocabulary too complex for Grade 5";
            ReviewFeedback.severity := critical;
            ReviewFeedback.suggestion := Some "Simplify language" |};
         {| ReviewFeedback.field := "mcqs[0].question";
            ReviewFeedback.issue := "Question is confusing";
            ReviewFeedback.severity := major;
            ReviewFeedback.suggestion := Some "Rephrase more clearly" |} ];
     ReviewerOutput.summary :=
       "Content needs significant improvement in age appropriateness and clarity." |}.

Definition sample_tags : TaggerOutput.t :=
  {| TaggerOutput.subject := "Mathematics";
     TaggerOutput.topic := "Fractions";
     TaggerOutput.grade := 5;
     TaggerOutput.difficulty := MEDIUM;
     TaggerOutput.content_type := [EXPLANATION; QUIZ];
     TaggerOutput.blooms_level := UNDERSTANDING;
     TaggerOutput.keywords := ["fractions"; "numerator"; "denominator"; "parts"; "whole"] |}.

(** A review the model reports as passing although clarity is below its
    minimum. *)
Definition overrated_review : ReviewerOutput.t :=
  {| ReviewerOutput.scores :=
       {| ReviewScore.age_appropriateness := 4; ReviewScore.correctness := 5;
          ReviewScore.clarity := 3; ReviewScore.coverage := 4 |};
     ReviewerOutput.pass_decision := true;
     ReviewerOutput.feedback := [];
     ReviewerOutput.summary := "Looks fine." |}.

(** Test doubles in the manner of [patch.object]: the generator, the
    refiner and the tagger return a fixed outcome, the reviewer returns
    [reviews k] at its call number [k] (a [side_effect] list).  The state
    of the doubles is the number of reviews made. *)
Definition patched (generated : res GeneratorOutput.t) (reviews : nat -> res ReviewerOutput.t)
  (refined : res GeneratorOutput.t) (tagged : res TaggerOutput.t) (ceiling : Z)
  : Orchestrator.t nat :=
  {| Orchestrator.generator_run := fun _ k => (generated, k);
     Orchestrator.reviewer_review := fun _ _ k => (reviews k, S k);
     Orchestrator.refiner_run := fun _ k => (refined, k);
     Orchestrator.tagger_run := fun _ _ k => (tagged, k);
     Orchestrator.max_refinements := ceiling |}.

(** A clock that advances by one millisecond per reading. *)
Definition test_host : host :=
  {| utcnow := fun k => 1700000000000000 + 1000 * Z.of_nat k; uuid4 := "run-0001" |}.

(** A scripted language model: its replies in order, then failures. *)
Definition scripted (replies : list completion) : nat -> completion :=
  fun k => nth k replies (ApiFailure "connection refused").

(** Stand-ins for [json.loads] and the output models on the texts the
    scripted model replies with.  The message of the [TypeError] for a
    reply that is a JSON list is given without the name of the callable
    it starts with. *)
Definition schema_G (raw : string) : parsed GeneratorOutput.t :=
  if String.eqb raw "{draft}" then Parsed sample_valid_generator_output
  else if String.eqb raw "{}" then SchemaError "3 validation errors for GeneratorOutput"
  else if String.eqb raw "[]" then Uncaught (TypeError "argument after ** must be a mapping, not list")
  else JSONDecodeError "Expecting value: line 1 column 1 (char 0)".

Definition schema_R (raw : string) : parsed ReviewerOutput.t :=
  if String.eqb raw "{pass}" then Parsed sample_passing_review
  else if String.eqb raw "{fail}" then Parsed sample_failing_review
  else if String.eqb raw "{overrated}" then Parsed overrated_review
  else if String.eqb raw "{}" then SchemaError "3 validation errors for ReviewerOutput"
  else JSONDecodeError "Expecting value: line 1 column 1 (char 0)".

Definition schema_T (raw : string) : parsed TaggerOutput.t :=
  if String.eqb raw "{tags}" then Parsed sample_tags
  else if String.eqb raw "{}" then SchemaError "6 validation errors for TaggerOutput"
  else JSONDecodeError "Expecting value: line 1 column 1 (char 0)".

Definition plain_wording : wording :=
  {| system_text := fun agent => agent;
     user_text := fun agent values => join ", " values;
     json_dumps := fun _ => "..." |}.

(** The orchestrator as [Orchestrator()] builds it, over a scripted model. *)
Definition shipped (replies : list completion) : Orchestrator.t world :=
  Orchestrator.__init__ (scripted replies) plain_wording schema_G schema_R schema_T.

(** The doubles of the rejection tests: no review passes. *)
Definition always_failing (ceiling : Z) : Orchestrator.t nat :=
  patched (Ok sample_valid_generator_output) (fun _ => Ok sample_failing_review)
    (Ok sample_valid_generator_output) (Ok sample_tags) ceiling.

(** The doubles of [test_pass_on_first_attempt]. *)
Definition passing_first : Orchestrator.t nat :=
  patched (Ok sample_valid_generator_output) (fun _ => Ok sample_passing_review)
    (Ok sample_valid_generator_output) (Ok sample_tags) 2.

(** The doubles of [test_fail_refine_pass]. *)
Definition passing_second : Orchestrator.t nat :=
  patched (Ok sample_valid_generator_output)
    (fun k => match k with O => Ok sample_failing_review | _ => Ok sample_passing_review end)
    (Ok sample_valid_generator_output) (Ok sample_tags) 2.

(** A draft as a refinement returns it: the sample with its explanation
    put in simpler words. *)
Definition sample_refined_output : GeneratorOutput.t :=
  {| GeneratorOutput.explanation :=
       {| Explanation.text := "A fraction is a part of a whole. Cut a pizza into 4 equal slices: each slice is 1/4 of the pizza.";
          Explanation.grade := 5 |};
     GeneratorOutput.mcqs := GeneratorOutput.mcqs sample_valid_generator_output;
     GeneratorOutput.teacher_notes :=
       GeneratorOutput.teacher_notes sample_valid_generator_output |}.

(** Doubles of a run that refines once, with a refiner that returns
    another draft than the one it is given. *)
Definition refining_once : Orchestrator.t nat :=
  patched (Ok sample_valid_generator_output)
    (fun k => match k with O => Ok sample_failing_review | _ => Ok sample_passing_review end)
    (Ok sample_refined_output) (Ok sample_tags) 2.

(** A tagger that has used up its retries. *)
Definition tagger_error : exn :=
  AgentError "Failed after 2 attempts. Last error: LLM call failed: Connection error."
    "TaggerAgent" false.

Definition tagger_down : Orchestrator.t nat :=
  patched (Ok sample_valid_generator_output) (fun _ => Ok sample_passing_review)
    (Ok sample_valid_generator_output) (Raise tagger_error) 2.

(** A runtime that writes a [datetime] as its number of microseconds in
    decimal. *)
Definition decimal_of_string (s : string) : option Z :=
  option_map Z.of_int (NilZero.int_of_string s).

Lemma decimal_of_string_str_int (t : Z) : decimal_of_string (str_int t) = Some t.
Proof.
  unfold decimal_of_string, str_int. rewrite NilZero.isi.
  - cbn [option_map]. now rewrite DecimalZ.of_to.
  - destruct t; cbn; try discriminate. intros H. injection H as H.
    now apply Unsigned.to_uint_nonnil in H.
  - destruct t; cbn; try discriminate. intros H. injection H as H.
    now apply Unsigned.to_uint_nonnil in H.
Qed.

Definition test_runtime : runtime :=
  {| isoformat := str_int;
     fromisoformat := decimal_of_string;
     fromisoformat_isoformat := decimal_of_string_str_int;
     default_utcnow := 1700000000000000;
     default_uuid4 := "run-0000" |}.

(** The artifact of the rejection test: three attempts, rejected. *)
Definition rejected_artifact : RunArtifact.t :=
  Eval vm_compute in
    match Orchestrator.run (always_failing 2) test_host sample_generator_input
            (Some "test-user") 0%nat with
    | Ok a => a
    | Raise _ =>
        {| RunArtifact.run_id := ""; RunArtifact.user_id := None;
           RunArtifact.input := sample_generator_input; RunArtifact.attempts := [];
           RunArtifact.final := None;
           RunArtifact.timestamps :=
             {| Timestamps.started_at := 0; Timestamps.finished_at := None;
                Timestamps.duration_seconds := None |};
           RunArtifact.metadata := [] |}
    end.

(** Its three attempt records. *)
Definition turn_1 : AttemptRecord.t :=
  {| AttemptRecord.attempt := 1;
     AttemptRecord.draft := sample_valid_generator_output;
     AttemptRecord.review := sample_failing_review;
     AttemptRecord.refined := Some sample_valid_generator_output;
     AttemptRecord.timestamp := utcnow test_host 1 |}.

Definition turn_2 : AttemptRecord.t :=
  {| AttemptRecord.attempt := 2;
     AttemptRecord.draft := sample_valid_generator_output;
     AttemptRecord.review := sample_failing_review;
     AttemptRecord.refined := Some sample_valid_generator_output;
     AttemptRecord.timestamp := utcnow test_host 2 |}.

Definition turn_3 : AttemptRecord.t :=
  {| AttemptRecord.attempt := 3;
     AttemptRecord.draft := sample_valid_generator_output;
     AttemptRecord.review := sample_failing_review;
     AttemptRecord.refined := None;
     AttemptRecord.timestamp := utcnow test_host 3 |}.

(** A clock that is set back by a millisecond between any two readings. *)
Definition backward_host : host :=
  {| utcnow := fun k => 1700000000000000 - 1000 * Z.of_nat k; uuid4 := "run-0003" |}.

(** A second run, later and for another user: approved at once. *)
Definition later_host : host :=
  {| utcnow := fun k => 1700000100000000 + 1000 * Z.of_nat k; uuid4 := "run-0002" |}.

Definition approved_artifact : RunArtifact.t :=
  Eval vm_compute in
    match Orchestrator.run passing_first later_host sample_generator_input
            (Some "other-user") 0%nat with
    | Ok a => a
    | Raise _ => rejected_artifact
    end.

(** An artifact as [RunArtifact(...)] builds it before the run sets
    [final]. *)
Definition unfinalized_artifact : RunArtifact.t :=
  {| RunArtifact.run_id := "run-0003";
     RunArtifact.user_id := None;
     RunArtifact.input := sample_generator_input;
     RunArtifact.attempts := [];
     RunArtifact.final := None;
     RunArtifact.timestamps :=
       {| Timestamps.started_at := 1700000200000000;
          Timestamps.finished_at := None;
          Timestamps.duration_seconds := None |};
     RunArtifact.metadata := [] |}.

(** [list.sort] for the tests: on keys that are all strings the stable
    descending sort; otherwise the [TypeError] of a comparison. *)
Definition all_str (keyed : list (json * dict)) : bool :=
  forallb (fun kd => match fst kd with JStr _ => true | _ => false end) keyed.

Definition test_sort (keyed : list (json * dict)) : res (list dict) :=
  if all_str keyed then Ok (map snd (sort_desc key_text keyed))
  else Raise (TypeError "'<' not supported between instances of 'str' and 'NoneType'").

Lemma test_sort_str (keyed : list (json * dict)) :
  Forall (fun kd => exists s, fst kd = JStr s) keyed ->
  test_sort keyed = Ok (map snd (sort_desc key_text keyed)).
Proof.
  intros H. unfold test_sort.
  replace (all_str keyed) with true; [reflexivity |].
  symmetry. apply forallb_forall. intros kd Hkd.
  rewrite Forall_forall in H. destruct (H kd Hkd) as [s ->]. reflexivity.
Qed.

Definition test_python : python :=
  {| sort_reverse := test_sort; sort_reverse_str := test_sort_str |}.

End Fixtures.

(** ** Vocabulary of the properties *)

(** The three recoverable failures of one attempt of an agent, when the
    attempt is request [k] to the language model: the request fails, the
    reply is no JSON, the reply does not fit the output model.  The
    string is the message of the [AgentError] raised for it. *)
Inductive recoverable_failure {I O : Type} (self : BaseAgent.t I O) (k : nat)
  : string -> Prop :=
| transport_failure msg :
    BaseAgent.client self k = ApiFailure msg ->
    recoverable_failure self k ("LLM call failed: " ++ msg)
| parse_failure text msg :
    BaseAgent.client self k = Content text ->
    BaseAgent.output_schema self text = JSONDecodeError msg ->
    recoverable_failure self k ("Invalid JSON response: " ++ msg)
| schema_failure text msg :
    BaseAgent.client self k = Content text ->
    BaseAgent.output_schema self text = SchemaError msg ->
    recoverable_failure self k ("Schema validation failed: " ++ msg).

(** The attempt that is request [k] succeeds with the validated [v]. *)
Definition succeeds {I O : Type} (self : BaseAgent.t I O) (k : nat) (v : O) : Prop :=
  exists text,
    BaseAgent.client self k = Content text /\
    BaseAgent.output_schema self text = Parsed v.

(** The reconciliation of a review, in the words of the specification:
    a criterion is violated when its score is below its configured
    minimum; the note lists the violated criteria in the order of the
    configuration, then the mean when it is below the minimum average. *)
Definition score_of (scores : ReviewScore.t) (criterion : string) : Z :=
  match ReviewerAgent.getattr scores criterion with
  | Ok score => score
  | Raise _ => 0
  end.

Definition violated (scores : ReviewScore.t) (item : string * Z) : bool :=
  score_of scores (fst item) <? snd item.

Definition violation_notes (self : ReviewerAgent.t) (scores : ReviewScore.t) : list string :=
  (map (fun item => ReviewerAgent.threshold_reason (fst item) (score_of scores (fst item))
                      (snd item))
       (filter (violated scores) (ReviewerAgent.thresholds self))
   ++ (if Qlt_bool (ReviewerAgent.avg_score scores) (ReviewerAgent.min_average self)
       then [ReviewerAgent.average_reason (ReviewerAgent.avg_score scores)
               (ReviewerAgent.min_average self)]
       else []))%list.

Definition recomputed_decision (self : ReviewerAgent.t) (scores : ReviewScore.t) : bool :=
  negb (existsb (violated scores) (ReviewerAgent.thresholds self)) &&
  Qle_bool (ReviewerAgent.min_average self) (ReviewerAgent.avg_score scores).

(** The attempt records that the review loop appends when it is entered
    at attempt number [n] with the draft [cur], and what the loop comes
    to, as one relation: the loop is not entered; an agent raises before
    the record of the turn is appended; the review passes; the budget is
    spent; or the draft is refined and the loop goes on with the refined
    draft. *)
Inductive trail (ceiling : Z)
  : Z -> GeneratorOutput.t -> list AttemptRecord.t ->
    res (option GeneratorOutput.t * option ReviewerOutput.t) -> Prop :=
| trail_exit n cur :
    ceiling + 1 < n ->
    trail ceiling n cur [] (Ok (None, None))
| trail_raise n cur x :
    n <= ceiling + 1 ->
    trail ceiling n cur [] (Raise x)
| trail_pass n cur rec :
    n <= ceiling + 1 ->
    AttemptRecord.attempt rec = n ->
    AttemptRecord.draft rec = cur ->
    AttemptRecord.refined rec = None ->
    ReviewerOutput.pass_decision (AttemptRecord.review rec) = true ->
    trail ceiling n cur [rec] (Ok (Some cur, Some (AttemptRecord.review rec)))
| trail_spent n cur rec :
    n = ceiling + 1 ->
    AttemptRecord.attempt rec = n ->
    AttemptRecord.draft rec = cur ->
    AttemptRecord.refined rec = None ->
    ReviewerOutput.pass_decision (AttemptRecord.review rec) = false ->
    trail ceiling n cur [rec] (Ok (None, Some (AttemptRecord.review rec)))
| trail_refined n cur rec g recs r :
    n <= ceiling ->
    AttemptRecord.attempt rec = n ->
    AttemptRecord.draft rec = cur ->
    AttemptRecord.refined rec = Some g ->
    ReviewerOutput.pass_decision (AttemptRecord.review rec) = false ->
    trail ceiling (n + 1) g recs r ->
    trail ceiling n cur (rec :: recs) r.

(** The calls of the tagger and of the refiner among the calls of a run. *)
Definition tagger_calls (cs : list Orchestrator.call)
  : list (GeneratorOutput.t * res TaggerOutput.t) :=
  flat_map (fun c => match c with
                     | Orchestrator.tagger_called _ content outcome => [(content, outcome)]
                     | _ => []
                     end) cs.

Definition refiner_attempts (cs : list Orchestrator.call) : list Z :=
  flat_map (fun c => match c with
                     | Orchestrator.refiner_called refiner_input _ =>
                         [RefinerInput.attempt_number refiner_input]
                     | _ => []
                     end) cs.

(** The exception an agent's call ended with, if it raised. *)
Definition raised_by (c : Orchestrator.call) : option exn :=
  match c with
  | Orchestrator.generator_called _ (Raise x) => Some x
  | Orchestrator.reviewer_called _ _ (Raise x) => Some x
  | Orchestrator.refiner_called _ (Raise x) => Some x
  | Orchestrator.tagger_called _ _ (Raise x) => Some x
  | _ => None
  end.

(** The review loop as a relation between the state it is entered in and
    the state it is left in, one rule for each way through one turn. *)
Section LoopGraph.

Context {E : Type}.
Variable self : Orchestrator.t E.
Variable h : host.
Variable input_data : GeneratorInput.t.

Definition turn_record (n : Z) (cur : GeneratorOutput.t) (rv : ReviewerOutput.t)
  (s : Orchestrator.state E) : AttemptRecord.t :=
  {| AttemptRecord.attempt := n;
     AttemptRecord.draft := cur;
     AttemptRecord.review := rv;
     AttemptRecord.refined := None;
     AttemptRecord.timestamp := utcnow h (Orchestrator.clock_reads s) |}.

Definition turn_refiner_input (n : Z) (cur : GeneratorOutput.t) (rv : ReviewerOutput.t)
  : RefinerInput.t :=
  {| RefinerInput.original_input := input_data;
     RefinerInput.current_content := cur;
     RefinerInput.feedback := ReviewerOutput.feedback rv;
     RefinerInput.attempt_number := n |}.

(** The state after the review of a turn returned [rv] and the record of
    the turn was built. *)
Definition reviewed (s : Orchestrator.state E) (e1 : E) (cur : GeneratorOutput.t)
  (rv : ReviewerOutput.t) : Orchestrator.state E :=
  Orchestrator.tick
    (Orchestrator.log_call s e1 (Orchestrator.reviewer_called input_data cur (Ok rv))).

Inductive loop_graph
  : Z -> GeneratorOutput.t -> Orchestrator.state E ->
    res (option GeneratorOutput.t * option ReviewerOutput.t) ->
    Orchestrator.state E -> Prop :=
| loop_exit n cur s :
    Orchestrator.max_refinements self + 1 < n ->
    loop_graph n cur s (Ok (None, None)) s
| loop_review_raises n cur s x e1 :
    n <= Orchestrator.max_refinements self + 1 ->
    Orchestrator.reviewer_review self input_data cur (Orchestrator.env s) = (Raise x, e1) ->
    loop_graph n cur s (Raise x)
      (Orchestrator.log_call s e1 (Orchestrator.reviewer_called input_data cur (Raise x)))
| loop_pass n cur s rv e1 :
    n <= Orchestrator.max_refinements self + 1 ->
    Orchestrator.reviewer_review self input_data cur (Orchestrator.env s) = (Ok rv, e1) ->
    ReviewerOutput.pass_decision rv = true ->
    loop_graph n cur s (Ok (Some cur, Some rv))
      (Orchestrator.with_artifact (Orchestrator.append_attempt (turn_record n cur rv s))
         (reviewed s e1 cur rv))
| loop_spent n cur s rv e1 :
    n = Orchestrator.max_refinements self + 1 ->
    Orchestrator.reviewer_review self input_data cur (Orchestrator.env s) = (Ok rv, e1) ->
    ReviewerOutput.pass_decision rv = false ->
    loop_graph n cur s (Ok (None, Some rv))
      (Orchestrator.with_artifact (Orchestrator.append_attempt (turn_record n cur rv s))
         (reviewed s e1 cur rv))
| loop_refiner_input_invalid n cur s rv e1 :
    n <= Orchestrator.max_refinements self ->
    Orchestrator.reviewer_review self input_data cur (Orchestrator.env s) = (Ok rv, e1) ->
    ReviewerOutput.pass_decision rv = false ->
    RefinerInput.valid (turn_refiner_input n cur rv) = false ->
    loop_graph n cur s (Raise (ValidationError (RefinerInput_error n)))
      (reviewed s e1 cur rv)
| loop_refiner_raises n cur s rv e1 x e2 :
    n <= Orchestrator.max_refinements self ->
    Orchestrator.reviewer_review self input_data cur (Orchestrator.env s) = (Ok rv, e1) ->
    ReviewerOutput.pass_decision rv = false ->
    RefinerInput.valid (turn_refiner_input n cur rv) = true ->
    Orchestrator.refiner_run self (turn_refiner_input n cur rv) e1 = (Raise x, e2) ->
    loop_graph n cur s (Raise x)
      (Orchestrator.log_call (reviewed s e1 cur rv) e2
         (Orchestrator.refiner_called (turn_refiner_input n cur rv) (Raise x)))
| loop_refined n cur s rv e1 g e2 r s' :
    n <= Orchestrator.max_refinements self ->
    Orchestrator.reviewer_review self input_data cur (Orchestrator.env s) = (Ok rv, e1) ->
    ReviewerOutput.pass_decision rv = false ->
    RefinerInput.valid (turn_refiner_input n cur rv) = true ->
    Orchestrator.refiner_run self (turn_refiner_input n cur rv) e1 = (Ok g, e2) ->
    loop_graph (n + 1) g
      (Orchestrator.with_artifact
         (Orchestrator.append_attempt
            (Orchestrator.set_refined (turn_record n cur rv s) g))
         (Orchestrator.log_call (reviewed s e1 cur rv) e2
            (Orchestrator.refiner_called (turn_refiner_input n cur rv) (Ok g))))
      r s' ->
    loop_graph n cur s r s'.

End LoopGraph.

(** [a'] is [a] with the records [recs] appended to its attempts. *)
Definition extends (a a' : RunArtifact.t) (recs : list AttemptRecord.t) : Prop :=
  a' = {| RunArtifact.run_id := RunArtifact.run_id a;
          RunArtifact.user_id := RunArtifact.user_id a;
          RunArtifact.input := RunArtifact.input a;
          RunArtifact.attempts := (RunArtifact.attempts a ++ recs)%list;
          RunArtifact.final := RunArtifact.final a;
          RunArtifact.timestamps := RunArtifact.timestamps a;
          RunArtifact.metadata := RunArtifact.metadata a |}.

(** The [try] body of [run] as a relation, one rule for each way through
    it. *)
Section BodyGraph.

Context {E : Type}.
Variable self : Orchestrator.t E.
Variable h : host.
Variable input_data : GeneratorInput.t.

Definition approved_with (final_content : GeneratorOutput.t) (tags : TaggerOutput.t)
  : FinalResult.t :=
  {| FinalResult.status := approved;
     FinalResult.content := Some final_content;
     FinalResult.tags := Some tags;
     FinalResult.rejection_reason := None |}.

Definition rejected_after (n : Z) (final_review : option ReviewerOutput.t) : FinalResult.t :=
  {| FinalResult.status := rejected;
     FinalResult.content := None;
     FinalResult.tags := None;
     FinalResult.rejection_reason :=
       Some ("Failed review after " ++ str_int n ++ " attempts. " ++
             "Final issues: " ++ Orchestrator._summarize_feedback final_review) |}.

Inductive body_graph (s : Orchestrator.state E)
  : res unit -> Orchestrator.state E -> Prop :=
| body_generator_raises x e1 :
    Orchestrator.generator_run self input_data (Orchestrator.env s) = (Raise x, e1) ->
    body_graph s (Raise x)
      (Orchestrator.log_call s e1 (Orchestrator.generator_called input_data (Raise x)))
| body_loop_raises g e1 x s2 :
    Orchestrator.generator_run self input_data (Orchestrator.env s) = (Ok g, e1) ->
    loop_graph self h input_data 1 g
      (Orchestrator.log_call s e1 (Orchestrator.generator_called input_data (Ok g)))
      (Raise x) s2 ->
    body_graph s (Raise x) s2
| body_tagger_raises g e1 final_content final_review s2 x e3 :
    Orchestrator.generator_run self input_data (Orchestrator.env s) = (Ok g, e1) ->
    loop_graph self h input_data 1 g
      (Orchestrator.log_call s e1 (Orchestrator.generator_called input_data (Ok g)))
      (Ok (Some final_content, final_review)) s2 ->
    Orchestrator.tagger_run self input_data final_content (Orchestrator.env s2) =
      (Raise x, e3) ->
    body_graph s (Raise x)
      (Orchestrator.log_call s2 e3
         (Orchestrator.tagger_called input_data final_content (Raise x)))
| body_approved g e1 final_content final_review s2 tags e3 :
    Orchestrator.generator_run self input_data (Orchestrator.env s) = (Ok g, e1) ->
    loop_graph self h input_data 1 g
      (Orchestrator.log_call s e1 (Orchestrator.generator_called input_data (Ok g)))
      (Ok (Some final_content, final_review)) s2 ->
    Orchestrator.tagger_run self input_data final_content (Orchestrator.env s2) =
      (Ok tags, e3) ->
    body_graph s (Ok tt)
      (Orchestrator.with_artifact
         (Orchestrator.set_final (approved_with final_content tags))
         (Orchestrator.log_call s2 e3
            (Orchestrator.tagger_called input_data final_content (Ok tags))))
| body_rejected g e1 final_review s2 :
    Orchestrator.generator_run self input_data (Orchestrator.env s) = (Ok g, e1) ->
    loop_graph self h input_data 1 g
      (Orchestrator.log_call s e1 (Orchestrator.generator_called input_data (Ok g)))
      (Ok (None, final_review)) s2 ->
    body_graph s (Ok tt)
      (Orchestrator.with_artifact
         (Orchestrator.set_final
            (rejected_after (len (RunArtifact.attempts (Orchestrator.artifact s2)))
               final_review))
         s2).

End BodyGraph.

(** Agents the way the tests of rejection patch them: generation and
    refinement always return, no review ever passes. *)
Definition always_generates {E : Type} (self : Orchestrator.t E) : Prop :=
  forall input_data e, exists g e',
    Orchestrator.generator_run self input_data e = (Ok g, e').

Definition never_passes {E : Type} (self : Orchestrator.t E) : Prop :=
  forall input_data content e, exists rv e',
    Orchestrator.reviewer_review self input_data content e = (Ok rv, e') /\
    ReviewerOutput.pass_decision rv = false.

Definition always_refines {E : Type} (self : Orchestrator.t E) : Prop :=
  forall refiner_input e, exists g e',
    Orchestrator.refiner_run self refiner_input e = (Ok g, e').

(** The outcomes of the reviews among the calls [cs], in order. *)
Definition reviewer_outcomes (cs : list Orchestrator.call) : list (res ReviewerOutput.t) :=
  flat_map (fun c => match c with
                     | Orchestrator.reviewer_called _ _ outcome => [outcome]
                     | _ => []
                     end) cs.

(** A review that returned, with a failing decision. *)
Definition review_failed (outcome : res ReviewerOutput.t) : bool :=
  match outcome with
  | Ok rv => negb (ReviewerOutput.pass_decision rv)
  | Raise _ => false
  end.

(** A call that returned and, if it is a review, returned a failing
    decision. *)
Definition returned_without_pass (c : Orchestrator.call) : bool :=
  match c with
  | Orchestrator.generator_called _ (Ok _) => true
  | Orchestrator.reviewer_called _ _ outcome => review_failed outcome
  | Orchestrator.refiner_called _ (Ok _) => true
  | Orchestrator.tagger_called _ _ (Ok _) => true
  | _ => false
  end.

(** Agents whose every result satisfies the constraints of its model
    class, as a result built by [_parse_and_validate] does. *)
Definition returns_validated {E : Type} (self : Orchestrator.t E) : Prop :=
  (forall input_data e g e',
     Orchestrator.generator_run self input_data e = (Ok g, e') ->
     GeneratorOutput.valid g = true) /\
  (forall input_data content e rv e',
     Orchestrator.reviewer_review self input_data content e = (Ok rv, e') ->
     ReviewerOutput.valid rv = true) /\
  (forall refiner_input e g e',
     Orchestrator.refiner_run self refiner_input e = (Ok g, e') ->
     GeneratorOutput.valid g = true) /\
  (forall input_data content e tags e',
     Orchestrator.tagger_run self input_data content e = (Ok tags, e') ->
     TaggerOutput.valid tags = true).

(** The output models accept only what satisfies their constraints. *)
Definition validates {O : Type} (schema : string -> parsed O) (valid : O -> bool) : Prop :=
  forall raw v, schema raw = Parsed v -> valid v = true.

(** The attempt numbers [n], [n + 1], ... of [k] records. *)
Definition numbered_from (n : Z) (k : nat) : list Z :=
  map (fun i => n + Z.of_nat i) (seq 0 k).

(** The [except] clauses and the [finally] clause of [run], as changes
    of the state the body ended in. *)
Definition handled {E : Type} (rb : res unit) (sb : Orchestrator.state E)
  : Orchestrator.state E :=
  match rb with
  | Ok _ => sb
  | Raise x => Orchestrator.with_artifact (Orchestrator.set_final (Orchestrator.handle x)) sb
  end.

Definition closed_out {E : Type} (h : host) (s : Orchestrator.state E)
  : Orchestrator.state E :=
  Orchestrator.with_artifact
    (Orchestrator.set_finished (utcnow h (Orchestrator.clock_reads s)))
    (Orchestrator.tick s).

(** In a list of calls, every refinement that returned a draft is
    followed at once by a review of that draft. *)
Fixpoint refined_then_reviewed (cs : list Orchestrator.call) : Prop :=
  match cs with
  | [] => True
  | Orchestrator.refiner_called _ (Ok g) :: rest =>
      match rest with
      | Orchestrator.reviewer_called _ content _ :: _ => content = g
      | _ => False
      end /\ refined_then_reviewed rest
  | _ :: rest => refined_then_reviewed rest
  end.

(** The refinements among the calls [cs] that returned: the input each
    was called with and the draft it returned, in order. *)
Definition returned_refinements (cs : list Orchestrator.call)
  : list (RefinerInput.t * GeneratorOutput.t) :=
  flat_map (fun c => match c with
                     | Orchestrator.refiner_called refiner_input (Ok g) => [(refiner_input, g)]
                     | _ => []
                     end) cs.

(** The input [_refine] builds in the turn the record [rec] is of: the
    request, the record's draft, the feedback of its review and its
    attempt number. *)
Definition refinement_input (input_data : GeneratorInput.t) (rec : AttemptRecord.t)
  : RefinerInput.t :=
  turn_refiner_input input_data (AttemptRecord.attempt rec) (AttemptRecord.draft rec)
    (AttemptRecord.review rec).

(** The refinements the records [recs] tell of: for each record that holds
    a refined draft, the input of its turn and that draft, in order. *)
Definition recorded_refinements (input_data : GeneratorInput.t) (recs : list AttemptRecord.t)
  : list (RefinerInput.t * GeneratorOutput.t) :=
  flat_map (fun rec => match AttemptRecord.refined rec with
                       | Some g => [(refinement_input input_data rec, g)]
                       | None => []
                       end) recs.

(** The record [rec] is of a turn that the calls [cs] show: its review is
    what the reviewer returned for its draft, and its refined draft, when
    it holds one, is what the refiner returned for the input of its
    turn. *)
Definition recorded_from {E : Type} (self : Orchestrator.t E) (input_data : GeneratorInput.t)
  (cs : list Orchestrator.call) (rec : AttemptRecord.t) : Prop :=
  (In (Orchestrator.reviewer_called input_data (AttemptRecord.draft rec)
         (Ok (AttemptRecord.review rec))) cs /\
   exists e1 e2,
     Orchestrator.reviewer_review self input_data (AttemptRecord.draft rec) e1 =
       (Ok (AttemptRecord.review rec), e2)) /\
  (forall g, AttemptRecord.refined rec = Some g ->
     In (Orchestrator.refiner_called (refinement_input input_data rec) (Ok g)) cs /\
     exists e1 e2,
       Orchestrator.refiner_run self (refinement_input input_data rec) e1 = (Ok g, e2)).

(** The records and the calls of a state are in step: every record is of
    a turn the calls show, and the refinements that returned are those the
    records hold, one for one and in order. *)
Definition records_match_calls {E : Type} (self : Orchestrator.t E)
  (input_data : GeneratorInput.t) (s : Orchestrator.state E) : Prop :=
  recorded_refinements input_data (RunArtifact.attempts (Orchestrator.artifact s)) =
    returned_refinements (Orchestrator.calls s) /\
  Forall (recorded_from self input_data (Orchestrator.calls s))
    (RunArtifact.attempts (Orchestrator.artifact s)).

(** What the calls [cs] of a review loop entered at attempt 1 are like
    when the loop came to [r]. *)
Definition loop_calls (r : res (option GeneratorOutput.t * option ReviewerOutput.t))
  (cs : list Orchestrator.call) : Prop :=
  tagger_calls cs = [] /\
  (forall c x, In c cs -> raised_by c = Some x -> r = Raise x) /\
  refiner_attempts cs = numbered_from 1 (List.length (refiner_attempts cs)) /\
  Forall (fun a => a <= 2) (refiner_attempts cs) /\
  refined_then_reviewed cs.

(** The five ways a run ends, told by its attempt records, the calls it
    made and its final result. *)
Inductive run_outcome (ceiling : Z) (input_data : GeneratorInput.t)
  : list AttemptRecord.t -> list Orchestrator.call -> FinalResult.t -> Prop :=
| generation_failed x :
    run_outcome ceiling input_data []
      [Orchestrator.generator_called input_data (Raise x)]
      (Orchestrator.handle x)
| loop_failed g recs cs x :
    trail ceiling 1 g recs (Raise x) ->
    loop_calls (Raise x) cs ->
    run_outcome ceiling input_data recs
      (Orchestrator.generator_called input_data (Ok g) :: cs)
      (Orchestrator.handle x)
| tagging_failed g recs cs final_content final_review x :
    trail ceiling 1 g recs (Ok (Some final_content, final_review)) ->
    loop_calls (Ok (Some final_content, final_review)) cs ->
    run_outcome ceiling input_data recs
      (Orchestrator.generator_called input_data (Ok g) ::
       cs ++ [Orchestrator.tagger_called input_data final_content (Raise x)])%list
      (Orchestrator.handle x)
| run_approved g recs cs final_content final_review tags :
    trail ceiling 1 g recs (Ok (Some final_content, final_review)) ->
    loop_calls (Ok (Some final_content, final_review)) cs ->
    run_outcome ceiling input_data recs
      (Orchestrator.generator_called input_data (Ok g) ::
       cs ++ [Orchestrator.tagger_called input_data final_content (Ok tags)])%list
      (approved_with final_content tags)
| run_rejected g recs cs final_review :
    trail ceiling 1 g recs (Ok (None, final_review)) ->
    loop_calls (Ok (None, final_review)) cs ->
    run_outcome ceiling input_data recs
      (Orchestrator.generator_called input_data (Ok g) :: cs)
      (rejected_after (len recs) final_review).

(** The keys a [RunArtifact] is built from. *)
Definition RunArtifact_keys : list string :=
  ["run_id"; "user_id"; "input"; "attempts"; "final"; "timestamps"; "metadata"].

(** ** Vocabulary of further properties *)

(** The order in which a run calls its agents.  [follows input_data prev c]
    says that the call [c] may come right after the call [prev] ([None]
    at the start of the run): the generator is called first, with the
    request; a review is of the draft that the call before it returned,
    the generator's or the refiner's; the refiner is called after a review
    that failed, with the request, the draft that was reviewed and the
    feedback of that review; the tagger is called after a review that
    passed, on the draft that was reviewed.  Nothing follows a call that
    raised, or a call of the tagger. *)
Definition follows (input_data : GeneratorInput.t) (prev : option Orchestrator.call)
  (c : Orchestrator.call) : Prop :=
  match prev, c with
  | None, Orchestrator.generator_called i _ => i = input_data
  | Some (Orchestrator.generator_called _ (Ok g)), Orchestrator.reviewer_called i content _ =>
      i = input_data /\ content = g
  | Some (Orchestrator.refiner_called _ (Ok g)), Orchestrator.reviewer_called i content _ =>
      i = input_data /\ content = g
  | Some (Orchestrator.reviewer_called _ content (Ok rv)), Orchestrator.refiner_called ri _ =>
      ReviewerOutput.pass_decision rv = false /\
      RefinerInput.original_input ri = input_data /\
      RefinerInput.current_content ri = content /\
      RefinerInput.feedback ri = ReviewerOutput.feedback rv
  | Some (Orchestrator.reviewer_called _ content (Ok rv)), Orchestrator.tagger_called i c' _ =>
      ReviewerOutput.pass_decision rv = true /\ i = input_data /\ c' = content
  | _, _ => False
  end.

Fixpoint sequenced (input_data : GeneratorInput.t) (prev : option Orchestrator.call)
  (cs : list Orchestrator.call) : Prop :=
  match cs with
  | [] => True
  | c :: rest => follows input_data prev c /\ sequenced input_data (Some c) rest
  end.

(** The call before the one that comes after the calls [cs], which
    themselves come after [prev]. *)
Definition last_call (prev : option Orchestrator.call) (cs : list Orchestrator.call)
  : option Orchestrator.call :=
  last (map Some cs) prev.

(** The call [prev] returned the draft [cur]. *)
Definition delivers (prev : option Orchestrator.call) (cur : GeneratorOutput.t) : Prop :=
  (exists i, prev = Some (Orchestrator.generator_called i (Ok cur))) \/
  (exists ri, prev = Some (Orchestrator.refiner_called ri (Ok cur))).

(** The three openings of a rejection reason. *)
Definition rejection_prefixes : list string :=
  ["Failed review after "; "Pipeline error: "; "Unexpected error: "].

(** The table that holds the documents of the artifacts [arts], in the
    order of [arts]: what a sequence of [save]s leaves. *)
Definition stored (rt : runtime) (arts : list RunArtifact.t) : ArtifactRepository.table :=
  map (RunArtifact.model_dump rt) arts.

(** The artifacts after [save] of [artifact]: it takes the place of every
    artifact with its [run_id], or the last place when there is none. *)
Definition holds_id (run_id : string) (a : RunArtifact.t) : bool :=
  String.eqb (RunArtifact.run_id a) run_id.

Definition upsert (artifact : RunArtifact.t) (arts : list RunArtifact.t)
  : list RunArtifact.t :=
  if existsb (holds_id (RunArtifact.run_id artifact)) arts
  then map (fun a => if holds_id (RunArtifact.run_id artifact) a then artifact else a) arts
  else (arts ++ [artifact])%list.

(** The text of [started_at] in the document of an artifact, by which the
    repository sorts; [not_older rt a b] when the text of [a] is not below
    that of [b] in the order of [str]. *)
Definition started_text (rt : runtime) (a : RunArtifact.t) : string :=
  isoformat rt (Timestamps.started_at (RunArtifact.timestamps a)).

Definition not_older (rt : runtime) (a b : RunArtifact.t) : Prop :=
  String.leb (started_text rt b) (started_text rt a) = true.

Definition of_user (user_id : string) (a : RunArtifact.t) : bool :=
  match RunArtifact.user_id a with
  | Some u => String.eqb u user_id
  | None => false
  end.

Definition has_status (status : Status) (a : RunArtifact.t) : bool :=
  match RunArtifact.final a with
  | Some f => String.eqb (Status_value (FinalResult.status f)) (Status_value status)
  | None => false
  end.

(** No two documents of the table answer to the same [run_id]. *)
Definition one_document_per_run (tb : ArtifactRepository.table) : Prop :=
  forall run_id,
    (List.length (ArtifactRepository.search (ArtifactRepository.run_id_is run_id) tb) <= 1)%nat.

(** The message of the [AgentError] on which the attempt that sends the
    request number [k] fails, if it fails on one: of the error [_call_llm]
    raises for a failed request, or of the one [_parse_and_validate]
    raises for the reply. *)
Definition failure_message {I O : Type} (self : BaseAgent.t I O) (k : nat) : option string :=
  match BaseAgent.client self k with
  | ApiFailure msg => Some ("LLM call failed: " ++ msg)
  | Content text =>
      match BaseAgent._parse_and_validate self text with
      | Raise (AgentError message _ _) => Some message
      | _ => None
      end
  end.


(* ================================================================== *)
(** * Part II: properties                                              *)
(* ================================================================== *)

(** ** The retry contract of [BaseAgent.run] *)

Section RetryContract.

Context {I O : Type}.
Variable self : BaseAgent.t I O.
Variables system_prompt user_prompt : string.

(** One attempt: the request and the validation of its reply. *)
Let one_attempt : M world O :=
  (raw_response <- BaseAgent._call_llm self system_prompt user_prompt ;;
   lift_res (BaseAgent._parse_and_validate self raw_response)).

Lemma attempt_fails (w : world) (m : string) :
  recoverable_failure self (llm_calls w) m ->
  one_attempt w =
    (Raise (AgentError m (BaseAgent.name self) true), {| llm_calls := S (llm_calls w) |}).
Proof.
  intros H. unfold one_attempt, bind, BaseAgent._call_llm, lift_res.
  destruct H as [msg Hc | text msg Hc Hs | text msg Hc Hs]; rewrite Hc.
  - reflexivity.
  - unfold BaseAgent._parse_and_validate. rewrite Hs. reflexivity.
  - unfold BaseAgent._parse_and_validate. rewrite Hs. reflexivity.
Qed.

Lemma attempt_succeeds (w : world) (v : O) :
  succeeds self (llm_calls w) v ->
  one_attempt w = (Ok v, {| llm_calls := S (llm_calls w) |}).
Proof.
  intros (text & Hc & Hs). unfold one_attempt, bind, BaseAgent._call_llm, lift_res.
  rewrite Hc. unfold BaseAgent._parse_and_validate. rewrite Hs. reflexivity.
Qed.

Lemma run_loop_cons (max_retries attempt : Z) (rest : list Z) (last : option string)
  (w : world) :
  BaseAgent.run_loop self system_prompt user_prompt max_retries (attempt :: rest) last w =
  match one_attempt w with
  | (Ok result, w') => (Ok (inl result), w')
  | (Raise (AgentError message _ recoverable), w') =>
      if negb recoverable || (max_retries <=? attempt)
      then (Ok (inr (Some message)), w')
      else BaseAgent.run_loop self system_prompt user_prompt max_retries rest
             (Some message) w'
  | (Raise e, w') => (Raise e, w')
  end.
Proof.
  cbn [BaseAgent.run_loop]. unfold bind at 1. unfold try_.
  fold one_attempt. destruct (one_attempt w) as [[result | e] w']; [reflexivity |].
  destruct e; try reflexivity.
  destruct (negb recoverable || (max_retries <=? attempt)); reflexivity.
Qed.

(** After [n] recoverable failures that leave retries, a success is
    returned at once: [n + 1] requests were made. *)
Lemma run_loop_success (max_retries : Z) (n : nat) :
  forall (a len : nat) (last : option string) (w : world) (v : O),
    (n < len)%nat ->
    Z.of_nat (a + n) <= max_retries ->
    (forall i, (i < n)%nat -> exists m, recoverable_failure self (llm_calls w + i) m) ->
    succeeds self (llm_calls w + n) v ->
    BaseAgent.run_loop self system_prompt user_prompt max_retries
      (map Z.of_nat (seq a len)) last w =
    (Ok (inl v), {| llm_calls := llm_calls w + n + 1 |}).
Proof.
  induction n as [| n IH]; intros a len last w v Hlen Hmax Hfail Hok.
  - destruct len as [| len]; [lia |]. cbn [seq map]. rewrite run_loop_cons.
    rewrite Nat.add_0_r in Hok. rewrite (attempt_succeeds w v Hok).
    do 2 f_equal. lia.
  - destruct len as [| len]; [lia |]. cbn [seq map]. rewrite run_loop_cons.
    destruct (Hfail 0%nat ltac:(lia)) as [m Hm]. rewrite Nat.add_0_r in Hm.
    rewrite (attempt_fails w m Hm). cbn [negb orb].
    replace (max_retries <=? Z.of_nat a) with false by (symmetry; apply Z.leb_gt; lia).
    rewrite (IH (S a) len (Some m) {| llm_calls := S (llm_calls w) |} v).
    + do 2 f_equal. cbn [llm_calls]. lia.
    + lia.
    + lia.
    + intros i Hi. destruct (Hfail (S i) ltac:(lia)) as [m' Hm']. exists m'.
      cbn [llm_calls]. replace (S (llm_calls w) + i)%nat with (llm_calls w + S i)%nat by lia.
      exact Hm'.
    + cbn [llm_calls]. replace (S (llm_calls w) + n)%nat with (llm_calls w + S n)%nat by lia.
      exact Hok.
Qed.

(** When every attempt up to the last one allowed fails recoverably, the
    loop is left after [d + 1] requests with the last message. *)
Lemma run_loop_exhausted (max_retries : Z) (d : nat) :
  forall (a : nat) (last : option string) (w : world) (m_last : string),
    Z.of_nat (a + d) = max_retries ->
    (forall i, (i < d)%nat -> exists m, recoverable_failure self (llm_calls w + i) m) ->
    recoverable_failure self (llm_calls w + d) m_last ->
    BaseAgent.run_loop self system_prompt user_prompt max_retries
      (map Z.of_nat (seq a (S d))) last w =
    (Ok (inr (Some m_last)), {| llm_calls := llm_calls w + d + 1 |}).
Proof.
  induction d as [| d IH]; intros a last w m_last Hmax Hfail Hlast.
  - cbn [seq map]. rewrite run_loop_cons. rewrite Nat.add_0_r in Hlast.
    rewrite (attempt_fails w m_last Hlast). cbn [negb orb].
    replace (max_retries <=? Z.of_nat a) with true by (symmetry; apply Z.leb_le; lia).
    do 2 f_equal. lia.
  - cbn [seq map]. rewrite run_loop_cons.
    destruct (Hfail 0%nat ltac:(lia)) as [m Hm]. rewrite Nat.add_0_r in Hm.
    rewrite (attempt_fails w m Hm). cbn [negb orb].
    replace (max_retries <=? Z.of_nat a) with false by (symmetry; apply Z.leb_gt; lia).
    change (Z.of_nat (S a) :: map Z.of_nat (seq (S (S a)) d))
      with (map Z.of_nat (seq (S a) (S d))).
    rewrite (IH (S a) (Some m) {| llm_calls := S (llm_calls w) |} m_last).
    + do 2 f_equal. cbn [llm_calls]. lia.
    + lia.
    + intros i Hi. destruct (Hfail (S i) ltac:(lia)) as [m' Hm']. exists m'.
      cbn [llm_calls]. replace (S (llm_calls w) + i)%nat with (llm_calls w + S i)%nat by lia.
      exact Hm'.
    + cbn [llm_calls]. replace (S (llm_calls w) + d)%nat with (llm_calls w + S d)%nat by lia.
      exact Hlast.
Qed.

End RetryContract.

Lemma range_succ (n : Z) :
  0 <= n -> range (n + 1) = map Z.of_nat (seq 0 (S (Z.to_nat n))).
Proof.
  intros Hn. unfold range. replace (Z.to_nat (n + 1)) with (S (Z.to_nat n)) by lia.
  reflexivity.
Qed.

(** C4.  An agent run with retry budget [max_retries >= 0], starting when
    [llm_calls w] requests have been made.  (a) If its first [n] attempts,
    [n <= max_retries], fail recoverably (the request fails, the reply is
    no JSON, or the reply does not fit the schema) and the next attempt
    succeeds with [v], then [run] returns [v] and has made exactly [n + 1]
    requests: every failure was followed by a retry, nothing follows the
    success.  (b) If all [max_retries + 1] attempts fail recoverably, [run]
    raises an [AgentError] that is not recoverable, whose message holds
    the number of attempts [max_retries + 1] and the message of the last
    failure, after exactly [max_retries + 1] requests. *)
Theorem C4_retry_contract {I O : Type} (self : BaseAgent.t I O) (input_data : I)
  (max_retries : Z) (prompt : string) (w : world) :
  0 <= max_retries ->
  BaseAgent._build_user_prompt self input_data = Ok prompt ->
  (forall (n : nat) (v : O),
     Z.of_nat n <= max_retries ->
     (forall i, (i < n)%nat -> exists m, recoverable_failure self (llm_calls w + i) m) ->
     succeeds self (llm_calls w + n) v ->
     BaseAgent.run self input_data (PyInt max_retries) w =
       (Ok v, {| llm_calls := llm_calls w + n + 1 |}))
  /\
  (forall (m_last : string),
     (forall i, (i < Z.to_nat max_retries)%nat ->
                exists m, recoverable_failure self (llm_calls w + i) m) ->
     recoverable_failure self (llm_calls w + Z.to_nat max_retries) m_last ->
     BaseAgent.run self input_data (PyInt max_retries) w =
       (Raise (AgentError ("Failed after " ++ str_int (max_retries + 1) ++
                           " attempts. Last error: " ++ m_last)
                          (BaseAgent.name self) false),
        {| llm_calls := llm_calls w + Z.to_nat max_retries + 1 |})).
Proof.
  intros Hmax Hprompt. split.
  - intros n v Hn Hfail Hok.
    unfold BaseAgent.run. rewrite Hprompt. unfold bind at 1. unfold lift_res at 1.
    unfold bind at 1. rewrite (range_succ _ Hmax).
    rewrite (run_loop_success self _ _ max_retries n 0 _ None w v); try assumption.
    + reflexivity.
    + lia.
  - intros m_last Hfail Hlast.
    unfold BaseAgent.run. rewrite Hprompt. unfold bind at 1. unfold lift_res at 1.
    unfold bind at 1. rewrite (range_succ _ Hmax).
    rewrite (run_loop_exhausted self _ _ max_retries (Z.to_nat max_retries) 0 None w m_last);
      try assumption.
    + reflexivity.
    + cbn [Nat.add]. lia.
Qed.
(** ** Division of [int]s into a [float] *)

(** Rounding a quotient to the nearest integer, as [true_div] does. *)
Lemma nearest_bounds (num den : Z) :
  0 <= num -> 0 < den ->
  let q := num / den in
  let r := num mod den in
  let m := if 2 * r <? den then q
           else if den <? 2 * r then q + 1
           else if Z.even q then q else q + 1 in
  0 <= m /\ forall k, num <= k * den -> m <= k.
Proof.
  intros Hnum Hden q r m.
  assert (Hq : 0 <= q) by (apply Z.div_pos; lia).
  assert (Hr : 0 <= r < den) by (apply Z.mod_pos_bound; lia).
  assert (Heq : num = den * q + r) by (apply Z.div_mod; lia).
  split.
  - subst m. destruct (2 * r <? den); [lia |].
    destruct (den <? 2 * r); [lia |]. destruct (Z.even q); lia.
  - intros k Hk.
    assert (Hqk : q <= k) by nia.
    assert (Hcase : q < k \/ (q = k /\ r = 0)) by nia.
    subst m. destruct Hcase as [Hlt | [-> Hr0]].
    + destruct (2 * r <? den); [lia |].
      destruct (den <? 2 * r); [lia |]. destruct (Z.even q); lia.
    + destruct (2 * r <? den) eqn:Hc; [lia |]. apply Z.ltb_ge in Hc. lia.
Qed.

Lemma true_div_nonneg (n d : Z) : 0 <= n -> 0 < d -> Qle (Qmake 0 1) (true_div n d).
Proof.
  intros Hn Hd. unfold true_div.
  destruct (n =? 0) eqn:Hz; [unfold Qle; cbn; lia |].
  apply Z.eqb_neq in Hz.
  cbv zeta.
  set (e0 := Z.log2 (Z.abs n) - Z.log2 d).
  set (e := if _ <? _ then e0 - 1 else e0).
  set (p := Z.max (e - 52) (-1074)).
  set (num := Z.abs n * 2 ^ Z.max 0 (- p)).
  set (den := d * 2 ^ Z.max 0 p).
  assert (Hp1 : 0 < 2 ^ Z.max 0 (- p)) by (apply Z.pow_pos_nonneg; lia).
  assert (Hp2 : 0 < 2 ^ Z.max 0 p) by (apply Z.pow_pos_nonneg; lia).
  destruct (nearest_bounds num den) as [Hm _]; [subst num; nia | subst den; nia |].
  cbv zeta in Hm.
  unfold Qle. cbn [Qnum Qden].
  rewrite Z.sgn_pos by lia. nia.
Qed.

Lemma true_div_le_1 (n d : Z) : 0 <= n <= d -> 0 < d -> Qle (true_div n d) (Qmake 1 1).
Proof.
  intros Hn Hd. unfold true_div.
  destruct (n =? 0) eqn:Hz; [unfold Qle; cbn; lia |].
  apply Z.eqb_neq in Hz.
  cbv zeta.
  set (e0 := Z.log2 (Z.abs n) - Z.log2 d).
  set (e := if _ <? _ then e0 - 1 else e0).
  set (p := Z.max (e - 52) (-1074)).
  set (num := Z.abs n * 2 ^ Z.max 0 (- p)).
  set (den := d * 2 ^ Z.max 0 p).
  assert (He0 : e0 <= 0).
  { subst e0. rewrite Z.abs_eq by lia.
    pose proof (Z.log2_le_mono n d ltac:(lia)). lia. }
  assert (He : e <= 0) by (subst e; destruct (_ <? _); lia).
  assert (Hp : p < 0) by (subst p; lia).
  assert (Hp1 : 0 < 2 ^ Z.max 0 (- p)) by (apply Z.pow_pos_nonneg; lia).
  assert (Hp2 : 2 ^ Z.max 0 p = 1) by (rewrite Z.max_l by lia; reflexivity).
  destruct (nearest_bounds num den) as [Hm Hk]; [subst num; nia | subst den; nia |].
  cbv zeta in Hm, Hk.
  specialize (Hk (2 ^ Z.max 0 (- p))).
  unfold Qle. cbn [Qnum Qden].
  rewrite Z.sgn_pos by lia. rewrite Hp2. rewrite Z2Pos.id by lia.
  assert (num <= 2 ^ Z.max 0 (- p) * den).
  { subst num den. rewrite Hp2, Z.abs_eq by lia. nia. }
  specialize (Hk H). lia.
Qed.


(** The exponent [true_div] computes is not above that of the quotient. *)
Lemma exponent_below (a d : Z) :
  0 < a -> 0 < d ->
  let e0 := Z.log2 a - Z.log2 d in
  let e := if a * 2 ^ Z.max 0 (- e0) <? d * 2 ^ Z.max 0 e0 then e0 - 1 else e0 in
  d * 2 ^ Z.max 0 e <= a * 2 ^ Z.max 0 (- e).
Proof.
  intros Ha Hd e0 e. subst e.
  destruct (_ <? _) eqn:Hc; [| apply Z.ltb_ge in Hc; exact Hc].
  clear Hc.
  destruct (Z.log2_spec a Ha) as [Hla _]. destruct (Z.log2_spec d Hd) as [_ Hld].
  pose proof (Z.log2_nonneg a) as Hna. pose proof (Z.log2_nonneg d) as Hnd.
  subst e0. set (la := Z.log2 a) in *. set (ld := Z.log2 d) in *.
  destruct (Z.le_gt_cases 0 (la - ld - 1)) as [Hs | Hs].
  - rewrite (Z.max_r 0 (la - ld - 1)), (Z.max_l 0 (- (la - ld - 1))) by lia.
    assert (Hpow : 2 ^ la = 2 ^ Z.succ ld * 2 ^ (la - ld - 1)).
    { rewrite <- Z.pow_add_r by lia. f_equal. lia. }
    assert (0 < 2 ^ (la - ld - 1)) by (apply Z.pow_pos_nonneg; lia).
    rewrite Z.pow_0_r. nia.
  - rewrite (Z.max_l 0 (la - ld - 1)), (Z.max_r 0 (- (la - ld - 1))) by lia.
    assert (Hpow : 2 ^ Z.succ ld = 2 ^ la * 2 ^ (- (la - ld - 1))).
    { rewrite <- Z.pow_add_r by lia. f_equal. lia. }
    assert (0 < 2 ^ (- (la - ld - 1))) by (apply Z.pow_pos_nonneg; lia).
    rewrite Z.pow_0_r. nia.
Qed.

(** A quotient that is not below the smallest subnormal does not round to
    zero. *)
Lemma true_div_neg (n d : Z) :
  n < 0 -> 0 < d -> Z.log2 d <= Z.log2 (Z.abs n) + 1073 ->
  Qlt (true_div n d) (Qmake 0 1).
Proof.
  intros Hn Hd Hsmall. unfold true_div.
  destruct (n =? 0) eqn:Hz; [apply Z.eqb_eq in Hz; lia |]. clear Hz.
  pose proof (exponent_below (Z.abs n) d ltac:(lia) Hd) as Hexp.
  cbv zeta in Hexp |- *.
  set (e0 := Z.log2 (Z.abs n) - Z.log2 d) in *.
  set (e := if _ <? _ then e0 - 1 else e0) in *.
  set (p := Z.max (e - 52) (-1074)).
  set (num := Z.abs n * 2 ^ Z.max 0 (- p)).
  set (den := d * 2 ^ Z.max 0 p).
  assert (He : -1074 <= e) by (subst e e0; destruct (_ <? _); lia).
  assert (Hpe : p <= e) by (subst p; lia).
  assert (Hp1 : 0 < 2 ^ Z.max 0 (- p)) by (apply Z.pow_pos_nonneg; lia).
  assert (Hp2 : 0 < 2 ^ Z.max 0 p) by (apply Z.pow_pos_nonneg; lia).
  assert (Hle1 : 2 ^ Z.max 0 p <= 2 ^ Z.max 0 e) by (apply Z.pow_le_mono_r; lia).
  assert (Hle2 : 2 ^ Z.max 0 (- e) <= 2 ^ Z.max 0 (- p)) by (apply Z.pow_le_mono_r; lia).
  assert (Hnd : den <= num).
  { subst num den.
    apply Z.le_trans with (d * 2 ^ Z.max 0 e); [apply Z.mul_le_mono_nonneg_l; lia |].
    apply Z.le_trans with (Z.abs n * 2 ^ Z.max 0 (- e)); [exact Hexp |].
    apply Z.mul_le_mono_nonneg_l; lia. }
  assert (Hden : 0 < den) by (subst den; apply Z.mul_pos_pos; lia).
  assert (Hq : 1 <= num / den) by (apply Z.div_le_lower_bound; lia).
  assert (Hm : 1 <= (if 2 * (num mod den) <? den then num / den
                     else if den <? 2 * (num mod den) then num / den + 1
                     else if Z.even (num / den) then num / den else num / den + 1)).
  { generalize dependent (num / den). intros q Hq.
    destruct (2 * (num mod den) <? den); [lia |].
    destruct (den <? 2 * (num mod den)); [lia |]. destruct (Z.even q); lia. }
  unfold Qlt. cbn [Qnum Qden].
  rewrite Z.sgn_neg by lia. nia.
Qed.

Lemma total_seconds_sign (microseconds : Z) :
  Qle (Qmake 0 1) (total_seconds microseconds) <-> 0 <= microseconds.
Proof.
  unfold total_seconds. split.
  - intros Hle. destruct (Z.le_gt_cases 0 microseconds) as [H | H]; [exact H |].
    exfalso. apply (Qle_not_lt _ _ Hle). apply true_div_neg; [lia | lia |].
    change (Z.log2 (10 ^ 6)) with 19. pose proof (Z.log2_nonneg (Z.abs microseconds)). lia.
  - intros H. apply true_div_nonneg; [exact H | reflexivity].
Qed.


(** ** The reconciliation of the reviewer's decision *)

Section Reconciliation.

Variable scores : ReviewScore.t.

(** The loop over the thresholds: it clears [should_pass] when an item
    is violated and collects one reason for every violated item, in
    order; it returns only when every criterion names a score. *)
Lemma check_thresholds_ok (items : list (string * Z)) :
  forall should_pass reasons should_pass' reasons',
    ReviewerAgent.check_thresholds scores items should_pass reasons =
      Ok (should_pass', reasons') ->
    should_pass' = should_pass && negb (existsb (violated scores) items) /\
    reasons' =
      (reasons ++
       map (fun item => ReviewerAgent.threshold_reason (fst item)
                          (score_of scores (fst item)) (snd item))
           (filter (violated scores) items))%list.
Proof.
  induction items as [| [criterion threshold] items IH];
    intros should_pass reasons should_pass' reasons' H.
  - cbn in H. injection H as <- <-. cbn. rewrite andb_true_r, app_nil_r. auto.
  - cbn [ReviewerAgent.check_thresholds] in H.
    destruct (ReviewerAgent.getattr scores criterion) as [score | e] eqn:Hget; [| discriminate].
    assert (Hs : score_of scores criterion = score) by (unfold score_of; now rewrite Hget).
    cbn [existsb filter].
    change (violated scores (criterion, threshold))
      with (score_of scores criterion <? threshold).
    rewrite Hs. destruct (score <? threshold) eqn:Hlt.
    + apply IH in H. destruct H as [-> ->]. split.
      * cbn. now rewrite andb_false_r.
      * cbn [map fst snd]. rewrite Hs. now rewrite <- app_assoc.
    + apply IH in H. destruct H as [-> ->]. cbn [orb]. auto.
Qed.

End Reconciliation.

(** What [_validate_pass_decision] returns: the decision is the
    recomputed one; scores and feedback are kept; the result is the
    reported one when the decisions agree, and otherwise carries the
    note. *)
Lemma validate_pass_decision_ok (self : ReviewerAgent.t) (reported r : ReviewerOutput.t) :
  ReviewerAgent._validate_pass_decision self reported = Ok r ->
  ReviewerOutput.pass_decision r = recomputed_decision self (ReviewerOutput.scores reported) /\
  ReviewerOutput.scores r = ReviewerOutput.scores reported /\
  ReviewerOutput.feedback r = ReviewerOutput.feedback reported /\
  (ReviewerOutput.pass_decision reported = ReviewerOutput.pass_decision r -> r = reported) /\
  (ReviewerOutput.pass_decision reported <> ReviewerOutput.pass_decision r ->
   ReviewerOutput.summary r =
     ReviewerOutput.summary reported ++ " [Auto-corrected: " ++
     join "; " (violation_notes self (ReviewerOutput.scores reported)) ++ "]").
Proof.
  unfold ReviewerAgent._validate_pass_decision. intros H.
  destruct (ReviewerAgent.check_thresholds (ReviewerOutput.scores reported)
              (ReviewerAgent.thresholds self) true []) as [[sp rs] | e] eqn:Hc;
    [| discriminate].
  apply check_thresholds_ok in Hc. destruct Hc as [-> ->]. cbn [andb app] in H.
  unfold recomputed_decision, violation_notes.
  unfold Qlt_bool in *.
  destruct (Qle_bool (ReviewerAgent.min_average self)
              (ReviewerAgent.avg_score (ReviewerOutput.scores reported))) eqn:Havg;
    cbn [negb] in *.
  - rewrite andb_true_r, app_nil_r.
    destruct (Bool.eqb (ReviewerOutput.pass_decision reported)
                (negb (existsb (violated (ReviewerOutput.scores reported))
                         (ReviewerAgent.thresholds self)))) eqn:Heq;
      injection H as <-.
    + apply eqb_prop in Heq. repeat split; auto. intros Hne. now rewrite Heq in Hne.
    + cbn. apply eqb_false_iff in Heq. repeat split; auto.
      intros Hsame. now rewrite Hsame in Heq.
  - rewrite andb_false_r.
    destruct (Bool.eqb (ReviewerOutput.pass_decision reported) false) eqn:Heq;
      injection H as <-.
    + apply eqb_prop in Heq. repeat split; auto. intros Hne. now rewrite Heq in Hne.
    + cbn. apply eqb_false_iff in Heq. repeat split; auto.
      intros Hsame. now rewrite Hsame in Heq.
Qed.



(** ** The review loop *)

Section Loop.

Context {E : Type}.
Variable self : Orchestrator.t E.
Variable h : host.
Variable input_data : GeneratorInput.t.

(** The loop function follows the graph, whenever it is entered at an
    attempt number of at least 1 with the fuel [run] gives it, or more. *)
Lemma review_loop_graph (fuel : nat) :
  forall (n : Z) (cur : GeneratorOutput.t) (s s' : Orchestrator.state E) r,
    1 <= n ->
    (Z.to_nat (Orchestrator.max_refinements self + 2 - n) <= fuel)%nat ->
    Orchestrator.review_loop self h fuel input_data n cur s = (r, s') ->
    loop_graph self h input_data n cur s r s'.
Proof.
  induction fuel as [| fuel IH]; intros n cur s s' r Hn Hfuel H.
  - cbn in H. injection H as <- <-. apply loop_exit. lia.
  - cbn [Orchestrator.review_loop] in H.
    destruct (n <=? Orchestrator.max_refinements self + 1) eqn:Hle.
    2:{ cbn in H. injection H as <- <-. apply loop_exit. apply Z.leb_gt in Hle. lia. }
    apply Z.leb_le in Hle.
    unfold bind at 1 in H. unfold Orchestrator._review, Orchestrator.invoke in H.
    destruct (Orchestrator.reviewer_review self input_data cur (Orchestrator.env s))
      as [[rv | x] e1] eqn:Hrev.
    2:{ injection H as <- <-. now apply loop_review_raises. }
    unfold bind at 1 in H. unfold Orchestrator.new_AttemptRecord in H.
    replace (1 <=? n) with true in H by (symmetry; apply Z.leb_le; lia).
    unfold bind at 1 in H. unfold Orchestrator.datetime_utcnow, ret in H.
    cbn [Orchestrator.clock_reads Orchestrator.log_call] in H.
    fold (turn_record h n cur rv s) in H. fold (reviewed input_data s e1 cur rv) in H.
    destruct (ReviewerOutput.pass_decision rv) eqn:Hpass.
    { cbn in H. injection H as <- <-. now apply loop_pass. }
    destruct (Orchestrator.max_refinements self <? n) eqn:Hlt.
    { apply Z.ltb_lt in Hlt. cbn in H. injection H as <- <-. apply loop_spent; auto. lia. }
    apply Z.ltb_ge in Hlt.
    unfold bind at 1 in H. unfold Orchestrator._refine in H.
    fold (turn_refiner_input input_data n cur rv) in H.
    destruct (RefinerInput.valid (turn_refiner_input input_data n cur rv)) eqn:Hvalid.
    2:{ cbn in H. injection H as <- <-. now apply loop_refiner_input_invalid. }
    unfold Orchestrator.invoke in H.
    change (Orchestrator.env (reviewed input_data s e1 cur rv)) with e1 in H.
    destruct (Orchestrator.refiner_run self (turn_refiner_input input_data n cur rv) e1)
      as [[g | x] e2] eqn:Href.
    2:{ injection H as <- <-. now apply loop_refiner_raises. }
    unfold bind at 1 in H.
    unfold Orchestrator.attempts_append, Orchestrator.update_artifact, modify in H.
    eapply loop_refined; eauto.
    apply IH; [lia | lia | exact H].
Qed.

(** Fuel beyond [max_refinements + 2 - attempt_number] changes nothing:
    the loop has left before it is used. *)
Lemma review_loop_fuel (fuel : nat) :
  forall (fuel' : nat) (n : Z) (cur : GeneratorOutput.t) (s : Orchestrator.state E),
    (Z.to_nat (Orchestrator.max_refinements self + 2 - n) <= fuel)%nat ->
    (Z.to_nat (Orchestrator.max_refinements self + 2 - n) <= fuel')%nat ->
    Orchestrator.review_loop self h fuel input_data n cur s =
    Orchestrator.review_loop self h fuel' input_data n cur s.
Proof.
  induction fuel as [| fuel IH]; intros [| fuel'] n cur s Hfuel Hfuel';
    cbn [Orchestrator.review_loop]; try reflexivity.
  - replace (n <=? Orchestrator.max_refinements self + 1) with false
      by (symmetry; apply Z.leb_gt; lia).
    reflexivity.
  - replace (n <=? Orchestrator.max_refinements self + 1) with false
      by (symmetry; apply Z.leb_gt; lia).
    reflexivity.
  - destruct (n <=? Orchestrator.max_refinements self + 1) eqn:Hle; [| reflexivity].
    apply Z.leb_le in Hle. unfold bind.
    destruct (Orchestrator._review self input_data cur s) as [[rv | x] s1]; [| reflexivity].
    destruct (Orchestrator.new_AttemptRecord h n cur rv s1) as [[a | x] s2]; [| reflexivity].
    destruct (ReviewerOutput.pass_decision rv); [reflexivity |].
    destruct (Orchestrator.max_refinements self <? n); [reflexivity |].
    destruct (Orchestrator._refine self input_data cur rv n s2) as [[g | x] s3];
      [| reflexivity].
    destruct (Orchestrator.attempts_append (Orchestrator.set_refined a g) s3)
      as [[u | x] s4]; [| reflexivity].
    apply IH; lia.
Qed.

End Loop.

(** ** What the records of a loop say *)

Section Trail.

Variable ceiling : Z.

Lemma numbered_from_S (n : Z) (k : nat) :
  numbered_from n (S k) = n :: numbered_from (n + 1) k.
Proof.
  unfold numbered_from. cbn [seq map]. f_equal; [lia |].
  rewrite <- seq_shift, map_map. apply map_ext. intros i. lia.
Qed.

(** The attempt numbers of the records are contiguous from [n]. *)
Lemma trail_numbers n cur recs r :
  trail ceiling n cur recs r ->
  map AttemptRecord.attempt recs = numbered_from n (List.length recs).
Proof.
  induction 1 as [ | | n cur rec Hn Ha | n cur rec Hn Ha | n cur rec g recs r Hn Ha Hd Hr Hp Ht IH].
  - reflexivity.
  - reflexivity.
  - cbn. rewrite Ha. unfold numbered_from. cbn. f_equal. lia.
  - cbn. rewrite Ha. unfold numbered_from. cbn. f_equal. lia.
  - cbn [map List.length]. rewrite numbered_from_S, IH, Ha. reflexivity.
Qed.

(** A record holds a refined draft iff its review failed and its attempt
    number is within the ceiling. *)
Lemma trail_refined_iff n cur recs r :
  trail ceiling n cur recs r ->
  forall rec, In rec recs ->
    (AttemptRecord.refined rec <> None <->
     ReviewerOutput.pass_decision (AttemptRecord.review rec) = false /\
     AttemptRecord.attempt rec <= ceiling).
Proof.
  induction 1 as [ | | n cur rec0 Hn Ha Hd Hr Hp | n cur rec0 Hn Ha Hd Hr Hp
                 | n cur rec0 g recs r Hn Ha Hd Hr Hp Ht IH]; intros rec Hin.
  - destruct Hin.
  - destruct Hin.
  - destruct Hin as [<- | []]. rewrite Hr, Hp. split; [congruence | intros [? _]; congruence].
  - destruct Hin as [<- | []]. rewrite Hr, Ha. split; [congruence | intros [_ ?]; lia].
  - destruct Hin as [<- | Hin]; [| now apply IH].
    rewrite Hr, Hp, Ha. split; [auto | congruence].
Qed.

(** The first record holds the draft the loop was entered with. *)
Lemma trail_first n cur recs r rec :
  trail ceiling n cur recs r -> hd_error recs = Some rec -> AttemptRecord.draft rec = cur.
Proof.
  intros H; destruct H; cbn; intros Hhd; try discriminate; now injection Hhd as <-.
Qed.

(** The refined draft of a record is the draft of the record after it. *)
Lemma trail_chain n cur recs r :
  trail ceiling n cur recs r ->
  forall i rec rec',
    nth_error recs i = Some rec -> nth_error recs (S i) = Some rec' ->
    AttemptRecord.refined rec = Some (AttemptRecord.draft rec').
Proof.
  induction 1 as [ | | n cur rec0 Hn Ha Hd Hr Hp | n cur rec0 Hn Ha Hd Hr Hp
                 | n cur rec0 g recs r Hn Ha Hd Hr Hp Ht IH]; intros i rec rec' Hi Hi'.
  - destruct i; discriminate.
  - destruct i; discriminate.
  - destruct i as [| [| i]]; discriminate.
  - destruct i as [| [| i]]; discriminate.
  - destruct i as [| i].
    + cbn in Hi, Hi'. injection Hi as <-. rewrite Hr. f_equal. symmetry.
      eapply trail_first; [exact Ht |]. now destruct recs.
    + cbn in Hi, Hi'. eapply IH; eauto.
Qed.

(** A passing review closes the loop: it is the review of the last
    record, whose draft is the final content. *)
Lemma trail_passed n cur recs final_content final_review :
  trail ceiling n cur recs (Ok (Some final_content, final_review)) ->
  exists init rec,
    recs = (init ++ [rec])%list /\
    AttemptRecord.draft rec = final_content /\
    final_review = Some (AttemptRecord.review rec) /\
    ReviewerOutput.pass_decision (AttemptRecord.review rec) = true /\
    AttemptRecord.refined rec = None.
Proof.
  intros H. remember (Ok (Some final_content, final_review)) as r eqn:Hr.
  induction H as [ | | n cur rec0 Hn Ha Hd Hrf Hp | n cur rec0 Hn Ha Hd Hrf Hp
                 | n cur rec0 g recs r Hn Ha Hd Hrf Hp Ht IH]; try discriminate.
  - injection Hr as <- <-. exists [], rec0. auto.
  - destruct (IH Hr) as (init & rec & -> & ?). exists (rec0 :: init), rec. auto.
Qed.

(** Without a passing review, every record holds a failed review; the
    loop hands over the review of its last record, if it made one. *)
Lemma trail_not_passed n cur recs r :
  trail ceiling n cur recs r ->
  (forall final_content final_review, r <> Ok (Some final_content, final_review)) ->
  forall rec, In rec recs ->
    ReviewerOutput.pass_decision (AttemptRecord.review rec) = false.
Proof.
  induction 1 as [ | | n cur rec0 Hn Ha Hd Hrf Hp | n cur rec0 Hn Ha Hd Hrf Hp
                 | n cur rec0 g recs r Hn Ha Hd Hrf Hp Ht IH]; intros Hnot rec Hin.
  - destruct Hin.
  - destruct Hin.
  - now elim (Hnot cur (Some (AttemptRecord.review rec0))).
  - now destruct Hin as [<- | []].
  - destruct Hin as [<- | Hin]; [assumption | now apply IH].
Qed.

Lemma trail_spent_review n cur recs final_review :
  trail ceiling n cur recs (Ok (None, final_review)) ->
  final_review = option_map AttemptRecord.review (last (map Some recs) None).
Proof.
  intros H. remember (Ok (None, final_review)) as r eqn:Hr.
  induction H as [ | | n cur rec0 Hn Ha Hd Hrf Hp | n cur rec0 Hn Ha Hd Hrf Hp
                 | n cur rec0 g recs r Hn Ha Hd Hrf Hp Ht IH]; try discriminate.
  - now injection Hr as <-.
  - now injection Hr as <-.
  - rewrite (IH Hr). cbn [map]. destruct recs as [| rec1 recs]; [| reflexivity].
    inversion Ht; subst; try discriminate; lia.
Qed.

End Trail.

(** ** What the loop does to the state *)

(** Projections of a state after the steps of a turn. *)
Ltac state_simpl :=
  unfold reviewed, closed_out, handled in *;
  cbn [Orchestrator.artifact Orchestrator.calls Orchestrator.clock_reads Orchestrator.env
       Orchestrator.with_artifact Orchestrator.log_call Orchestrator.tick
       Orchestrator.append_attempt Orchestrator.set_final Orchestrator.set_finished
       Orchestrator.start
       RunArtifact.attempts RunArtifact.final RunArtifact.timestamps RunArtifact.run_id
       RunArtifact.user_id RunArtifact.input RunArtifact.metadata
       Timestamps.started_at Timestamps.finished_at Timestamps.duration_seconds] in *.

Ltac len_simpl :=
  unfold len in *; rewrite ?length_app in *; cbn [List.length] in *.

Lemma extends_nil (a : RunArtifact.t) : extends a a [].
Proof. unfold extends. destruct a; cbn. now rewrite app_nil_r. Qed.

Lemma extends_one (a : RunArtifact.t) (rec : AttemptRecord.t) :
  extends a (Orchestrator.append_attempt rec a) [rec].
Proof. reflexivity. Qed.

Lemma extends_cons (a a' : RunArtifact.t) (rec : AttemptRecord.t) recs :
  extends (Orchestrator.append_attempt rec a) a' recs -> extends a a' (rec :: recs).
Proof. unfold extends. intros ->. cbn. now rewrite <- app_assoc. Qed.

Section LoopFacts.

Context {E : Type}.
Variable self : Orchestrator.t E.
Variable h : host.
Variable input_data : GeneratorInput.t.

(** The loop only appends records to the artifact, and the records it
    appends form a trail; the clock is only read. *)
Lemma loop_graph_trail n cur s r s' :
  loop_graph self h input_data n cur s r s' ->
  exists recs,
    extends (Orchestrator.artifact s) (Orchestrator.artifact s') recs /\
    trail (Orchestrator.max_refinements self) n cur recs r /\
    (Orchestrator.clock_reads s <= Orchestrator.clock_reads s')%nat.
Proof.
  induction 1 as [n cur s Hn | n cur s x e1 Hn Hrev | n cur s rv e1 Hn Hrev Hp
                 | n cur s rv e1 Hn Hrev Hp | n cur s rv e1 Hn Hrev Hp Hv
                 | n cur s rv e1 x e2 Hn Hrev Hp Hv Href
                 | n cur s rv e1 g e2 r s' Hn Hrev Hp Hv Href Hloop IH].
  - exists []. split; [apply extends_nil |]. split; [now constructor | lia].
  - exists []. split; [apply extends_nil |]. split; [now constructor | cbn; lia].
  - exists [turn_record h n cur rv s]. split; [apply extends_one |].
    split; [| cbn; lia]. now apply (trail_pass _ n cur (turn_record h n cur rv s)).
  - exists [turn_record h n cur rv s]. split; [apply extends_one |].
    split; [| cbn; lia]. now apply (trail_spent _ n cur (turn_record h n cur rv s)).
  - exists []. split; [apply extends_nil |]. split; [constructor; lia | cbn; lia].
  - exists []. split; [apply extends_nil |]. split; [constructor; lia | cbn; lia].
  - destruct IH as (recs & Hext & Htrail & Hclock).
    exists (Orchestrator.set_refined (turn_record h n cur rv s) g :: recs).
    split; [now apply extends_cons |]. split; [| cbn in Hclock; lia].
    now apply (trail_refined _ n cur _ g recs r).
Qed.

(** The calls of a loop: none of the tagger; a call that raised ends the
    loop with what it raised; the refiner is called with the attempt
    numbers [n], [n + 1], ..., none above 2; a refinement that returned is
    followed by the review of its draft, and the first call of a loop that
    is entered is the review of the draft it was entered with. *)
Lemma loop_graph_calls n cur s r s' :
  loop_graph self h input_data n cur s r s' ->
  exists cs,
    Orchestrator.calls s' = (Orchestrator.calls s ++ cs)%list /\
    (tagger_calls cs = [] /\
     (forall c x, In c cs -> raised_by c = Some x -> r = Raise x) /\
     refiner_attempts cs = numbered_from n (List.length (refiner_attempts cs)) /\
     Forall (fun a => a <= 2) (refiner_attempts cs) /\
     refined_then_reviewed cs) /\
    (n <= Orchestrator.max_refinements self + 1 ->
     exists outcome cs', cs = Orchestrator.reviewer_called input_data cur outcome :: cs').
Proof.
  induction 1 as [n cur s Hn | n cur s x e1 Hn Hrev | n cur s rv e1 Hn Hrev Hp
                 | n cur s rv e1 Hn Hrev Hp | n cur s rv e1 Hn Hrev Hp Hv
                 | n cur s rv e1 x e2 Hn Hrev Hp Hv Href
                 | n cur s rv e1 g e2 r s' Hn Hrev Hp Hv Href Hloop IH].
  - exists []. rewrite app_nil_r. repeat split; auto; [intros c x [] | intros; lia].
  - exists [Orchestrator.reviewer_called input_data cur (Raise x)].
    repeat split; auto; [| eauto]. intros c y [<- | []] Hy. cbn in Hy. congruence.
  - exists [Orchestrator.reviewer_called input_data cur (Ok rv)].
    repeat split; auto; [| eauto]. intros c y [<- | []] Hy. discriminate.
  - exists [Orchestrator.reviewer_called input_data cur (Ok rv)].
    repeat split; auto; [| eauto]. intros c y [<- | []] Hy. discriminate.
  - exists [Orchestrator.reviewer_called input_data cur (Ok rv)].
    repeat split; auto; [| eauto]. intros c y [<- | []] Hy. discriminate.
  - exists [Orchestrator.reviewer_called input_data cur (Ok rv);
            Orchestrator.refiner_called (turn_refiner_input input_data n cur rv) (Raise x)].
    split; [cbn; now rewrite <- app_assoc |]. split; [| eauto].
    split; [reflexivity |]. split; [| split; [| split]].
    + intros c y [<- | [<- | []]] Hy; [discriminate | cbn in Hy; congruence].
    + cbn. unfold numbered_from. cbn. f_equal. lia.
    + cbn. constructor; [| constructor].
      unfold RefinerInput.valid, between in Hv. cbn in Hv.
      apply andb_true_iff in Hv. destruct Hv as [_ Hv]. now apply Z.leb_le.
    + cbn. auto.
  - destruct IH as (cs & Hcalls & (Htag & Hraise & Hnum & Hcap & Hnext) & Hfirst).
    exists (Orchestrator.reviewer_called input_data cur (Ok rv) ::
            Orchestrator.refiner_called (turn_refiner_input input_data n cur rv) (Ok g) :: cs).
    split; [| split; [| eauto]].
    + rewrite Hcalls. cbn. now rewrite <- !app_assoc.
    + split; [exact Htag |]. split; [| split; [| split]].
      * intros c y [<- | [<- | Hin]] Hy; [discriminate | discriminate | eauto].
      * cbn [refiner_attempts flat_map app] in *.
        cbn [List.length RefinerInput.attempt_number turn_refiner_input].
        rewrite numbered_from_S. f_equal. exact Hnum.
      * cbn [refiner_attempts flat_map app] in *. constructor; [| exact Hcap].
        unfold RefinerInput.valid, between in Hv. cbn in Hv.
        apply andb_true_iff in Hv. destruct Hv as [_ Hv]. now apply Z.leb_le.
      * cbn [refined_then_reviewed]. split; [| exact Hnext].
        destruct (Hfirst ltac:(lia)) as (outcome & cs' & ->). reflexivity.
Qed.

(** When no review passes and every refinement returns, a loop entered
    at [n >= 1] within a ceiling of at most 2 ends with the budget spent
    after [ceiling + 2 - n] records; under a higher ceiling it ends when
    the input of the third refinement is refused, after [3 - n] records
    and as many calls of the refiner. *)
Lemma loop_graph_never_passes n cur s r s' :
  loop_graph self h input_data n cur s r s' ->
  never_passes self -> always_refines self -> 1 <= n ->
  (Orchestrator.max_refinements self <= 2 ->
   n <= Orchestrator.max_refinements self + 1 ->
   (exists rv, r = Ok (None, Some rv) /\ ReviewerOutput.pass_decision rv = false) /\
   len (RunArtifact.attempts (Orchestrator.artifact s')) =
     len (RunArtifact.attempts (Orchestrator.artifact s)) +
     (Orchestrator.max_refinements self + 2 - n))
  /\
  (2 < Orchestrator.max_refinements self -> n <= 3 ->
   r = Raise (ValidationError (RefinerInput_error 3)) /\
   len (RunArtifact.attempts (Orchestrator.artifact s')) =
     len (RunArtifact.attempts (Orchestrator.artifact s)) + (3 - n) /\
   len (refiner_attempts (Orchestrator.calls s')) =
     len (refiner_attempts (Orchestrator.calls s)) + (3 - n)).
Proof.
  intros Hloop Hnever Hrefines.
  induction Hloop as [n cur s Hn | n cur s x e1 Hn Hrev | n cur s rv e1 Hn Hrev Hp
                 | n cur s rv e1 Hn Hrev Hp | n cur s rv e1 Hn Hrev Hp Hv
                 | n cur s rv e1 x e2 Hn Hrev Hp Hv Href
                 | n cur s rv e1 g e2 r s' Hn Hrev Hp Hv Href Hloop IH]; intros H1.
  - split; intros; lia.
  - destruct (Hnever input_data cur (Orchestrator.env s)) as (rv & e' & Hrv & _).
    congruence.
  - destruct (Hnever input_data cur (Orchestrator.env s)) as (rv' & e' & Hrv & Hp').
    congruence.
  - split; [| intros; lia]. intros Hc _. split; [now exists rv |].
    state_simpl. len_simpl. lia.
  - unfold RefinerInput.valid, between in Hv. cbn in Hv.
    apply andb_false_iff in Hv. rewrite Z.leb_gt, Z.leb_gt in Hv.
    split; [intros; lia |]. intros Hc Hn3. assert (n = 3) as -> by lia.
    split; [reflexivity |]. state_simpl. unfold refiner_attempts.
    rewrite flat_map_app. cbn [flat_map app]. len_simpl. lia.
  - destruct (Hrefines (turn_refiner_input input_data n cur rv) e1) as (g & e' & Hg).
    congruence.
  - unfold RefinerInput.valid, between in Hv. cbn in Hv.
    apply andb_true_iff in Hv. rewrite Z.leb_le, Z.leb_le in Hv.
    destruct (IH ltac:(lia)) as [IHlow IHhigh]. split.
    + intros Hc Hn'. destruct (IHlow Hc ltac:(lia)) as [Hr Hlen]. split; [exact Hr |].
      rewrite Hlen. state_simpl. len_simpl. lia.
    + intros Hc Hn3. destruct (IHhigh Hc ltac:(lia)) as (Hr & Hlen & Hcalls).
      split; [exact Hr |]. split.
      * rewrite Hlen. state_simpl. len_simpl. lia.
      * rewrite Hcalls. state_simpl. unfold refiner_attempts.
        rewrite !flat_map_app. cbn [flat_map app RefinerInput.attempt_number]. len_simpl. lia.
Qed.

(** The body of [run] follows its graph. *)
Lemma run_body_graph (s sb : Orchestrator.state E) (rb : res unit) :
  Orchestrator.run_body self h input_data s = (rb, sb) ->
  body_graph self h input_data s rb sb.
Proof.
  unfold Orchestrator.run_body. intros H.
  unfold bind at 1 in H. unfold Orchestrator._generate, Orchestrator.invoke in H.
  destruct (Orchestrator.generator_run self input_data (Orchestrator.env s))
    as [[g | x] e1] eqn:Hgen.
  2:{ injection H as <- <-. now apply body_generator_raises. }
  unfold bind at 1 in H.
  destruct (Orchestrator.review_loop self h _ input_data 1 g _) as [r s2] eqn:Hloop.
  apply review_loop_graph in Hloop; [| lia | lia].
  destruct r as [[final_content final_review] | x].
  2:{ injection H as <- <-. eapply body_loop_raises; eauto. }
  cbn [fst snd] in H. destruct final_content as [final_content |].
  - unfold bind at 1 in H. unfold Orchestrator._tag, Orchestrator.invoke in H.
    destruct (Orchestrator.tagger_run self input_data final_content (Orchestrator.env s2))
      as [[tags | x] e3] eqn:Htag.
    + cbn in H. injection H as <- <-. eapply body_approved; eauto.
    + injection H as <- <-. eapply body_tagger_raises; eauto.
  - cbn in H. injection H as <- <-. eapply body_rejected; eauto.
Qed.

(** [run] never raises: it ends in the state its body ended in, with
    the exception handled and the timestamps closed out. *)
Lemma exec_anatomy (user_id : option string) (e : E) :
  exists rb sb,
    Orchestrator.run_body self h input_data (Orchestrator.start h input_data user_id e) =
      (rb, sb) /\
    body_graph self h input_data (Orchestrator.start h input_data user_id e) rb sb /\
    Orchestrator.exec self h input_data user_id e = (Ok tt, closed_out h (handled rb sb)).
Proof.
  destruct (Orchestrator.run_body self h input_data
              (Orchestrator.start h input_data user_id e)) as [rb sb] eqn:Hbody.
  exists rb, sb. split; [reflexivity |]. split; [now apply run_body_graph |].
  unfold Orchestrator.exec. unfold bind at 1. unfold try_. rewrite Hbody.
  unfold bind at 1. destruct rb as [[] | x]; reflexivity.
Qed.

End LoopFacts.

(** ** The anatomy of a run *)

Section Anatomy.

Context {E : Type}.
Variable self : Orchestrator.t E.
Variable h : host.
Variable input_data : GeneratorInput.t.
Variable user_id : option string.
Variable e : E.

Lemma loop_from_start g e1 r s2 :
  loop_graph self h input_data 1 g
    (Orchestrator.log_call (Orchestrator.start h input_data user_id e) e1
       (Orchestrator.generator_called input_data (Ok g))) r s2 ->
  exists recs cs,
    trail (Orchestrator.max_refinements self) 1 g recs r /\
    loop_calls r cs /\
    Orchestrator.calls s2 = Orchestrator.generator_called input_data (Ok g) :: cs /\
    extends (Orchestrator.artifact (Orchestrator.start h input_data user_id e))
            (Orchestrator.artifact s2) recs /\
    (1 <= Orchestrator.clock_reads s2)%nat.
Proof.
  intros Hloop.
  destruct (loop_graph_trail _ _ _ _ _ _ _ _ Hloop) as (recs & Hext & Htrail & Hclock).
  destruct (loop_graph_calls _ _ _ _ _ _ _ _ Hloop) as (cs & Hcalls & Hcs & _).
  exists recs, cs. split; [exact Htrail |]. split; [exact Hcs |].
  state_simpl. cbn [app] in Hcalls. split; [exact Hcalls |]. split; [exact Hext | lia].
Qed.

(** Every run returns, and ends in one of the five ways.  The artifact
    returned has the identity and the input it was created with, the
    records the loop appended, the final result, and its timestamps closed
    out by one more reading of the clock. *)
Lemma run_anatomy :
  exists (s : Orchestrator.state E) (recs : list AttemptRecord.t) (f : FinalResult.t)
         (k : nat),
    Orchestrator.exec self h input_data user_id e = (Ok tt, s) /\
    Orchestrator.run self h input_data user_id e = Ok (Orchestrator.artifact s) /\
    run_outcome (Orchestrator.max_refinements self) input_data recs
      (Orchestrator.calls s) f /\
    (1 <= k)%nat /\
    Orchestrator.artifact s =
      {| RunArtifact.run_id := uuid4 h;
         RunArtifact.user_id := user_id;
         RunArtifact.input := input_data;
         RunArtifact.attempts := recs;
         RunArtifact.final := Some f;
         RunArtifact.timestamps :=
           {| Timestamps.started_at := utcnow h 0;
              Timestamps.finished_at := Some (utcnow h k);
              Timestamps.duration_seconds :=
                Some (total_seconds (utcnow h k - utcnow h 0)) |};
         RunArtifact.metadata := [] |}.
Proof.
  destruct (exec_anatomy self h input_data user_id e) as (rb & sb & _ & Hbody & Hexec).
  exists (closed_out h (handled rb sb)).
  assert (Hrun : Orchestrator.run self h input_data user_id e =
                 Ok (Orchestrator.artifact (closed_out h (handled rb sb)))).
  { unfold Orchestrator.run. now rewrite Hexec. }
  inversion Hbody as [x e1 Hgen | g e1 x s2 Hgen Hloop
                      | g e1 fc fr s2 x e3 Hgen Hloop Htag
                      | g e1 fc fr s2 tags e3 Hgen Hloop Htag
                      | g e1 fr s2 Hgen Hloop]; subst.
  - exists [], (Orchestrator.handle x), 1%nat.
    repeat split; auto. constructor.
  - destruct (loop_from_start _ _ _ _ Hloop) as (recs & cs & Htrail & Hcs & Hcalls & Hext & Hk).
    exists recs, (Orchestrator.handle x), (Orchestrator.clock_reads sb).
    split; [exact Hexec |]. split; [exact Hrun |]. split; [| split; [exact Hk |]].
    + state_simpl. rewrite Hcalls. now apply loop_failed.
    + state_simpl. rewrite Hext. reflexivity.
  - destruct (loop_from_start _ _ _ _ Hloop) as (recs & cs & Htrail & Hcs & Hcalls & Hext & Hk).
    exists recs, (Orchestrator.handle x), (Orchestrator.clock_reads s2).
    split; [exact Hexec |]. split; [exact Hrun |]. split; [| split; [exact Hk |]].
    + state_simpl. rewrite Hcalls. cbn [app]. eapply tagging_failed; eauto.
    + state_simpl. rewrite Hext. reflexivity.
  - destruct (loop_from_start _ _ _ _ Hloop) as (recs & cs & Htrail & Hcs & Hcalls & Hext & Hk).
    exists recs, (approved_with fc tags), (Orchestrator.clock_reads s2).
    split; [exact Hexec |]. split; [exact Hrun |]. split; [| split; [exact Hk |]].
    + state_simpl. rewrite Hcalls. cbn [app]. eapply run_approved; eauto.
    + state_simpl. rewrite Hext. reflexivity.
  - destruct (loop_from_start _ _ _ _ Hloop) as (recs & cs & Htrail & Hcs & Hcalls & Hext & Hk).
    exists recs, (rejected_after (len recs) fr), (Orchestrator.clock_reads s2).
    split; [exact Hexec |]. split; [exact Hrun |]. split; [| split; [exact Hk |]].
    + state_simpl. rewrite Hcalls. now apply run_rejected.
    + state_simpl. rewrite Hext. reflexivity.
Qed.

End Anatomy.

(** ** Errors and finalization *)

(** A call that raised decides the final result. *)
Lemma run_outcome_raised ceiling input_data recs cs f :
  run_outcome ceiling input_data recs cs f ->
  forall c x, In c cs -> raised_by c = Some x -> f = Orchestrator.handle x.
Proof.
  intros H c0 y Hin Hy.
  destruct H as [x | g recs cs x Ht (_ & Hr & _) | g recs cs fc fr x Ht (_ & Hr & _)
                 | g recs cs fc fr tags Ht (_ & Hr & _) | g recs cs fr Ht (_ & Hr & _)].
  - destruct Hin as [<- | []]. cbn in Hy. congruence.
  - destruct Hin as [<- | Hin]; [discriminate |].
    specialize (Hr _ _ Hin Hy). congruence.
  - destruct Hin as [<- | Hin]; [discriminate |].
    apply in_app_or in Hin. destruct Hin as [Hin | [<- | []]].
    + specialize (Hr _ _ Hin Hy). discriminate.
    + cbn in Hy. congruence.
  - destruct Hin as [<- | Hin]; [discriminate |].
    apply in_app_or in Hin. destruct Hin as [Hin | [<- | []]].
    + specialize (Hr _ _ Hin Hy). discriminate.
    + discriminate.
  - destruct Hin as [<- | Hin]; [discriminate |].
    specialize (Hr _ _ Hin Hy). discriminate.
Qed.

(** C5.  Whatever the agents do, [run] returns an artifact and raises
    nothing.  The artifact has a final result, approved or rejected.  When
    a call of the generator, the reviewer, the refiner or the tagger raised
    [x], and more generally when the body of the [try] statement raised
    [x], the final result is rejected, without content or tags, and its
    rejection reason is ["Pipeline error: "] (for an [AgentError]) or
    ["Unexpected error: "] (for any other exception) followed by
    [str(x)]. *)
Theorem C5_run_never_raises {E : Type} (self : Orchestrator.t E) (h : host)
  (input_data : GeneratorInput.t) (user_id : option string) (e : E) :
  exists (s : Orchestrator.state E) (f : FinalResult.t),
    Orchestrator.exec self h input_data user_id e = (Ok tt, s) /\
    Orchestrator.run self h input_data user_id e = Ok (Orchestrator.artifact s) /\
    RunArtifact.final (Orchestrator.artifact s) = Some f /\
    (FinalResult.status f = approved \/ FinalResult.status f = rejected) /\
    (forall c x, In c (Orchestrator.calls s) -> raised_by c = Some x ->
       f = {| FinalResult.status := rejected;
              FinalResult.content := None;
              FinalResult.tags := None;
              FinalResult.rejection_reason :=
                Some ((if is_AgentError x then "Pipeline error: " else "Unexpected error: ")
                      ++ str_exn x) |}) /\
    (forall x sb,
       Orchestrator.run_body self h input_data
         (Orchestrator.start h input_data user_id e) = (Raise x, sb) ->
       f = {| FinalResult.status := rejected;
              FinalResult.content := None;
              FinalResult.tags := None;
              FinalResult.rejection_reason :=
                Some ((if is_AgentError x then "Pipeline error: " else "Unexpected error: ")
                      ++ str_exn x) |}).
Proof.
  destruct (run_anatomy self h input_data user_id e)
    as (s & recs & f & k & Hexec & Hrun & Hout & Hk & Ha).
  exists s, f. split; [exact Hexec |]. split; [exact Hrun |].
  split; [now rewrite Ha |]. split; [destruct (FinalResult.status f); auto |]. split.
  - intros c x Hin Hx. apply (run_outcome_raised _ _ _ _ _ Hout c x Hin Hx).
  - intros x sb Hbody.
    destruct (exec_anatomy self h input_data user_id e) as (rb & sb' & Hb & _ & Hexec').
    rewrite Hbody in Hb. injection Hb as <- <-.
    rewrite Hexec in Hexec'. injection Hexec' as ->.
    apply (f_equal RunArtifact.final) in Ha. state_simpl.
    injection Ha as <-. reflexivity.
Qed.

(** C6.  Whatever the agents do, the artifact [run] returns has
    [finished_at] set, to a reading of the clock taken after the one that
    set [started_at], and [duration_seconds] set to
    [(finished_at - started_at).total_seconds()]; the duration is not
    negative exactly when that later reading is not the earlier instant:
    the two readings of [datetime.utcnow] are not compared. *)
Theorem C6_timestamps_closed_out {E : Type} (self : Orchestrator.t E) (h : host)
  (input_data : GeneratorInput.t) (user_id : option string) (e : E) :
  exists (a : RunArtifact.t) (k : nat),
    Orchestrator.run self h input_data user_id e = Ok a /\
    (1 <= k)%nat /\
    Timestamps.started_at (RunArtifact.timestamps a) = utcnow h 0 /\
    Timestamps.finished_at (RunArtifact.timestamps a) = Some (utcnow h k) /\
    Timestamps.duration_seconds (RunArtifact.timestamps a) =
      Some (total_seconds (utcnow h k - utcnow h 0)) /\
    (Qle (Qmake 0 1) (total_seconds (utcnow h k - utcnow h 0)) <->
     utcnow h 0 <= utcnow h k).
Proof.
  destruct (run_anatomy self h input_data user_id e)
    as (s & recs & f & k & Hexec & Hrun & Hout & Hk & Ha).
  exists (Orchestrator.artifact s), k. split; [exact Hrun |]. split; [exact Hk |].
  rewrite Ha. cbn [RunArtifact.timestamps Timestamps.started_at Timestamps.finished_at
                   Timestamps.duration_seconds].
  split; [reflexivity |]. split; [reflexivity |]. split; [reflexivity |].
  rewrite total_seconds_sign. lia.
Qed.

(** ** The attempt records and the tagger *)

Lemma trail_pass_is_final ceiling n cur recs r rec :
  trail ceiling n cur recs r ->
  In rec recs ->
  ReviewerOutput.pass_decision (AttemptRecord.review rec) = true ->
  r = Ok (Some (AttemptRecord.draft rec), Some (AttemptRecord.review rec)).
Proof.
  induction 1 as [ | | n cur rec0 Hn Ha Hd Hrf Hp | n cur rec0 Hn Ha Hd Hrf Hp
                 | n cur rec0 g recs r Hn Ha Hd Hrf Hp Ht IH]; intros Hin Hpass.
  - destruct Hin.
  - destruct Hin.
  - destruct Hin as [<- | []]. now rewrite Hd.
  - destruct Hin as [<- | []]. congruence.
  - destruct Hin as [<- | Hin]; [congruence | now apply IH].
Qed.

Lemma tagger_calls_app (cs cs' : list Orchestrator.call) :
  tagger_calls (cs ++ cs') = (tagger_calls cs ++ tagger_calls cs')%list.
Proof. apply flat_map_app. Qed.

Lemma refiner_attempts_app (cs cs' : list Orchestrator.call) :
  refiner_attempts (cs ++ cs') = (refiner_attempts cs ++ refiner_attempts cs')%list.
Proof. apply flat_map_app. Qed.

Lemma refined_then_reviewed_app (cs tail : list Orchestrator.call) :
  refined_then_reviewed cs -> refined_then_reviewed tail ->
  refined_then_reviewed (cs ++ tail).
Proof.
  induction cs as [| c cs IH]; intros Hcs Htail; [exact Htail |].
  destruct c as [i o | i g o | ri [g | x] | i g o]; cbn [app refined_then_reviewed] in *;
    try (now apply IH).
  destruct Hcs as [Hnext Hcs]. split; [| now apply IH].
  destruct cs as [| [i o | i g' o | ri' o | i g' o] cs]; cbn [app]; tauto.
Qed.

Lemma numbered_from_cap (k : nat) :
  Forall (fun a => a <= 2) (numbered_from 1 k) -> (k <= 2)%nat.
Proof.
  intros H. destruct k as [| [| [| k]]]; try lia.
  rewrite !numbered_from_S in H.
  apply Forall_inv_tail in H. apply Forall_inv_tail in H. apply Forall_inv in H. lia.
Qed.

Section FirstReview.

Context {E : Type}.
Variable self : Orchestrator.t E.
Variable h : host.
Variable input_data : GeneratorInput.t.

(** A loop entered at attempt 1 whose first review passes makes one
    record, without a refined draft, and hands over the draft it was
    entered with. *)
Lemma loop_first_review_passes g s1 r s2 rv e2 :
  loop_graph self h input_data 1 g s1 r s2 ->
  0 <= Orchestrator.max_refinements self ->
  Orchestrator.reviewer_review self input_data g (Orchestrator.env s1) = (Ok rv, e2) ->
  ReviewerOutput.pass_decision rv = true ->
  r = Ok (Some g, Some rv) /\
  RunArtifact.attempts (Orchestrator.artifact s2) =
    (RunArtifact.attempts (Orchestrator.artifact s1) ++ [turn_record h 1 g rv s1])%list.
Proof.
  intros Hloop Hc Hrev Hpass.
  inversion Hloop as [n cur s Hn | n cur s x e1 Hn Hrev' | n cur s rv' e1 Hn Hrev' Hp
                      | n cur s rv' e1 Hn Hrev' Hp | n cur s rv' e1 Hn Hrev' Hp Hv
                      | n cur s rv' e1 x e3 Hn Hrev' Hp Hv Href
                      | n cur s rv' e1 g' e3 r' s' Hn Hrev' Hp Hv Href Hloop'];
    subst; try lia; rewrite Hrev in Hrev'; try discriminate;
    injection Hrev' as <- <-; try congruence.
  split; reflexivity.
Qed.

End FirstReview.

Section Refinements.

Context {E : Type}.
Variable self : Orchestrator.t E.
Variable h : host.
Variable input_data : GeneratorInput.t.

Lemma returned_refinements_app (cs cs' : list Orchestrator.call) :
  returned_refinements (cs ++ cs') = (returned_refinements cs ++ returned_refinements cs')%list.
Proof. unfold returned_refinements. apply flat_map_app. Qed.

Lemma recorded_refinements_app (recs recs' : list AttemptRecord.t) :
  recorded_refinements input_data (recs ++ recs') =
  (recorded_refinements input_data recs ++ recorded_refinements input_data recs')%list.
Proof. unfold recorded_refinements. apply flat_map_app. Qed.

Lemma recorded_from_app (cs cs' : list Orchestrator.call) (rec : AttemptRecord.t) :
  recorded_from self input_data cs rec -> recorded_from self input_data (cs ++ cs') rec.
Proof.
  intros [[Hin Hrev] Href]. split; [split; [apply in_or_app; now left | exact Hrev] |].
  intros g Hg. destruct (Href g Hg) as [Hin' Hrun].
  split; [apply in_or_app; now left | exact Hrun].
Qed.

Lemma records_match_log (s : Orchestrator.state E) (e1 : E) (c : Orchestrator.call) :
  returned_refinements [c] = [] ->
  records_match_calls self input_data s -> records_match_calls self input_data (Orchestrator.log_call s e1 c).
Proof.
  intros Hc [Heq Hall]. split; state_simpl.
  - rewrite returned_refinements_app, Hc, app_nil_r. exact Heq.
  - eapply Forall_impl; [| exact Hall]. intros rec. apply recorded_from_app.
Qed.

(** The turn that ends the loop with a record: the record holds no refined
    draft. *)
Lemma records_match_last n cur (s : Orchestrator.state E) rv e1 :
  Orchestrator.reviewer_review self input_data cur (Orchestrator.env s) = (Ok rv, e1) ->
  records_match_calls self input_data s ->
  records_match_calls self input_data
    (Orchestrator.with_artifact (Orchestrator.append_attempt (turn_record h n cur rv s))
       (reviewed input_data s e1 cur rv)).
Proof.
  intros Hrev [Heq Hall]. split; state_simpl.
  - rewrite recorded_refinements_app, returned_refinements_app. cbn.
    rewrite !app_nil_r. exact Heq.
  - apply Forall_app. split.
    + eapply Forall_impl; [| exact Hall]. intros rec. apply recorded_from_app.
    + constructor; [| constructor]. split; [split |].
      * apply in_or_app. right. left. reflexivity.
      * cbn. eauto.
      * intros g Hg. discriminate.
Qed.

(** The loop keeps the records and the calls in step: a record holds a
    refined draft exactly for a refinement that returned it. *)
Lemma loop_graph_refinements n cur s r s' :
  loop_graph self h input_data n cur s r s' ->
  records_match_calls self input_data s -> records_match_calls self input_data s'.
Proof.
  induction 1 as [n cur s Hn | n cur s x e1 Hn Hrev | n cur s rv e1 Hn Hrev Hp
                 | n cur s rv e1 Hn Hrev Hp | n cur s rv e1 Hn Hrev Hp Hv
                 | n cur s rv e1 x e2 Hn Hrev Hp Hv Href
                 | n cur s rv e1 g e2 r s' Hn Hrev Hp Hv Href Hloop IH];
    intros Hs.
  - exact Hs.
  - now apply records_match_log.
  - now apply records_match_last.
  - now apply records_match_last.
  - destruct (records_match_log s e1
                (Orchestrator.reviewer_called input_data cur (Ok rv)) eq_refl Hs)
      as [Heq Hall].
    split; state_simpl; assumption.
  - apply records_match_log; [reflexivity |].
    destruct (records_match_log s e1
                (Orchestrator.reviewer_called input_data cur (Ok rv)) eq_refl Hs)
      as [Heq Hall].
    split; state_simpl; assumption.
  - apply IH. destruct Hs as [Heq Hall]. split; state_simpl.
    + rewrite recorded_refinements_app, !returned_refinements_app. cbn.
      rewrite !app_nil_r. now rewrite Heq.
    + apply Forall_app. split.
      * eapply Forall_impl; [| exact Hall]. intros rec Hrec.
        rewrite <- app_assoc. now apply recorded_from_app.
      * constructor; [| constructor]. split; [split |].
        -- apply in_or_app. left. apply in_or_app. right. left. reflexivity.
        -- cbn. eauto.
        -- intros g' Hg'. cbn in Hg'. injection Hg' as <-.
           split; [apply in_or_app; right; left; reflexivity | cbn; eauto].
Qed.

(** So does the body of [run], from the empty artifact it starts with. *)
Lemma body_graph_refinements (user_id : option string) (e : E) rb sb :
  body_graph self h input_data (Orchestrator.start h input_data user_id e) rb sb ->
  records_match_calls self input_data sb.
Proof.
  assert (Hstart : forall e1 c,
            returned_refinements [c] = [] ->
            records_match_calls self input_data
              (Orchestrator.log_call (Orchestrator.start h input_data user_id e) e1 c)).
  { intros e1 c Hc. apply records_match_log; [exact Hc |].
    split; state_simpl; [reflexivity | constructor]. }
  intros Hbody.
  inversion Hbody as [x e1 Hgen | g e1 x s2 Hgen Hloop
                      | g e1 fc fr s2 x e3 Hgen Hloop Htag
                      | g e1 fc fr s2 tags e3 Hgen Hloop Htag
                      | g e1 fr s2 Hgen Hloop]; subst;
    try (apply loop_graph_refinements in Hloop; [| now apply Hstart]).
  - now apply Hstart.
  - exact Hloop.
  - now apply records_match_log.
  - destruct (records_match_log s2 e3
                (Orchestrator.tagger_called input_data fc (Ok tags)) eq_refl Hloop)
      as [Heq Hall].
    split; state_simpl; assumption.
  - destruct Hloop as [Heq Hall]. split; state_simpl; assumption.
Qed.

End Refinements.

(** C7.  In the artifact of every run: (a) an attempt record holds a
    refined draft iff its review failed and its attempt number is within
    the refinement ceiling (budget remained); (b) the refined draft of a
    record is the draft of the record after it, and in the calls of the run
    every refinement that returned a draft is followed at once by the
    review of that draft: it is the current draft of the next turn;
    the review of a record is what the reviewer returned for its draft, a
    refined draft is what the refiner returned when called with the
    request, the draft, the feedback of the review and the attempt number
    of its record, and the refinements that returned are those the
    records hold, one for one and in order;
    (c) when generation returns and the first review passes, the attempts
    are one record, with attempt number 1 and no refined draft. *)
Theorem C7_refined_iff_failed_within_budget {E : Type} (self : Orchestrator.t E) (h : host)
  (input_data : GeneratorInput.t) (user_id : option string) (e : E) :
  exists s : Orchestrator.state E,
    Orchestrator.exec self h input_data user_id e = (Ok tt, s) /\
    Orchestrator.run self h input_data user_id e = Ok (Orchestrator.artifact s) /\
    (forall rec, In rec (RunArtifact.attempts (Orchestrator.artifact s)) ->
       (AttemptRecord.refined rec <> None <->
        ReviewerOutput.pass_decision (AttemptRecord.review rec) = false /\
        AttemptRecord.attempt rec <= Orchestrator.max_refinements self)) /\
    (forall i rec rec',
       nth_error (RunArtifact.attempts (Orchestrator.artifact s)) i = Some rec ->
       nth_error (RunArtifact.attempts (Orchestrator.artifact s)) (S i) = Some rec' ->
       AttemptRecord.refined rec = Some (AttemptRecord.draft rec')) /\
    refined_then_reviewed (Orchestrator.calls s) /\
    (forall rec, In rec (RunArtifact.attempts (Orchestrator.artifact s)) ->
       recorded_from self input_data (Orchestrator.calls s) rec) /\
    recorded_refinements input_data (RunArtifact.attempts (Orchestrator.artifact s)) =
      returned_refinements (Orchestrator.calls s) /\
    (forall g e1 rv e2,
       0 <= Orchestrator.max_refinements self ->
       Orchestrator.generator_run self input_data e = (Ok g, e1) ->
       Orchestrator.reviewer_review self input_data g e1 = (Ok rv, e2) ->
       ReviewerOutput.pass_decision rv = true ->
       RunArtifact.attempts (Orchestrator.artifact s) =
         [ {| AttemptRecord.attempt := 1;
              AttemptRecord.draft := g;
              AttemptRecord.review := rv;
              AttemptRecord.refined := None;
              AttemptRecord.timestamp := utcnow h 1 |} ]).
Proof.
  destruct (run_anatomy self h input_data user_id e)
    as (s & recs & f & k & Hexec & Hrun & Hout & Hk & Ha).
  exists s. split; [exact Hexec |]. split; [exact Hrun |].
  assert (Hrecs : RunArtifact.attempts (Orchestrator.artifact s) = recs) by now rewrite Ha.
  rewrite Hrecs.
  assert (Htrail : recs = [] \/
                   exists g r, trail (Orchestrator.max_refinements self) 1 g recs r).
  { destruct Hout; eauto. }
  assert (Hmatch : records_match_calls self input_data s).
  { destruct (exec_anatomy self h input_data user_id e) as (rb & sb & _ & Hbody & Hexec').
    rewrite Hexec in Hexec'. injection Hexec' as ->.
    apply body_graph_refinements in Hbody. destruct Hbody as [Heq Hall].
    split; destruct rb; state_simpl; assumption. }
  destruct Hmatch as [Hsame Hfrom]. rewrite Hrecs in Hsame, Hfrom.
  split; [| split; [| split; [| split; [| split]]]].
  - intros rec Hin. destruct Htrail as [-> | (g0 & r0 & Htrail)]; [destruct Hin |].
    eapply trail_refined_iff; eauto.
  - intros i rec rec' Hi Hi'.
    destruct Htrail as [-> | (g0 & r0 & Htrail)]; [destruct i; discriminate |].
    eapply trail_chain; eauto.
  - destruct Hout as [x | g recs cs x Ht (_ & _ & _ & _ & Hn)
                      | g recs cs fc fr x Ht (_ & _ & _ & _ & Hn)
                      | g recs cs fc fr tags Ht (_ & _ & _ & _ & Hn)
                      | g recs cs fr Ht (_ & _ & _ & _ & Hn)];
      cbn [refined_then_reviewed]; auto; apply refined_then_reviewed_app; cbn; auto.
  - now apply Forall_forall.
  - exact Hsame.
  - intros g e1 rv e2 Hc Hgen Hrev Hpass.
    destruct (exec_anatomy self h input_data user_id e) as (rb & sb & _ & Hbody & Hexec').
    rewrite Hexec in Hexec'. injection Hexec' as Hs.
    apply (f_equal (fun st => RunArtifact.attempts (Orchestrator.artifact st))) in Hs.
    rewrite Hrecs in Hs. rewrite Hs. clear Hs.
    inversion Hbody as [x e1' Hgen' | g' e1' x s2 Hgen' Hloop
                        | g' e1' fc fr s2 x e3 Hgen' Hloop Htag
                        | g' e1' fc fr s2 tags e3 Hgen' Hloop Htag
                        | g' e1' fr s2 Hgen' Hloop]; subst;
      state_simpl; rewrite Hgen in Hgen'; try discriminate; injection Hgen' as <- <-;
      destruct (loop_first_review_passes self h input_data g _ _ _ rv e2 Hloop Hc Hrev Hpass)
        as [Hr Hatt]; try discriminate; state_simpl; rewrite Hatt; reflexivity.
Qed.

(** ** The rejection reason *)

(** C8.  [_summarize_feedback]: without a review, or for a review without
    feedback, the text says that no feedback is available; when the
    feedback has critical items, the first three of them at most, each as
    [field: issue], joined by a semicolon and a space; otherwise the first
    three items at most of any severity, in the same format.  And a run
    rejected because its reviews failed (its [try] body returned) gives as
    its rejection reason the number of attempts followed by this summary
    of the review of its last attempt. *)
Theorem C8_rejection_reason_summary {E : Type} (self : Orchestrator.t E) (h : host)
  (input_data : GeneratorInput.t) (user_id : option string) (e : E) :
  Orchestrator._summarize_feedback None = "No specific feedback available" /\
  (forall review : ReviewerOutput.t,
     (ReviewerOutput.feedback review = [] ->
      Orchestrator._summarize_feedback (Some review) = "No specific feedback available") /\
     (filter Orchestrator.is_critical (ReviewerOutput.feedback review) <> [] ->
      Orchestrator._summarize_feedback (Some review) =
        join "; " (map (fun f => ReviewFeedback.field f ++ ": " ++ ReviewFeedback.issue f)
                       (firstn 3 (filter Orchestrator.is_critical
                                    (ReviewerOutput.feedback review))))) /\
     (ReviewerOutput.feedback review <> [] ->
      filter Orchestrator.is_critical (ReviewerOutput.feedback review) = [] ->
      Orchestrator._summarize_feedback (Some review) =
        join "; " (map (fun f => ReviewFeedback.field f ++ ": " ++ ReviewFeedback.issue f)
                       (firstn 3 (ReviewerOutput.feedback review))))) /\
  (forall f : ReviewFeedback.t,
     Orchestrator.is_critical f = true <-> ReviewFeedback.severity f = critical) /\
  exists s : Orchestrator.state E,
    Orchestrator.exec self h input_data user_id e = (Ok tt, s) /\
    (forall sb f,
       Orchestrator.run_body self h input_data
         (Orchestrator.start h input_data user_id e) = (Ok tt, sb) ->
       RunArtifact.final (Orchestrator.artifact s) = Some f ->
       FinalResult.status f = rejected ->
       FinalResult.rejection_reason f =
         Some ("Failed review after " ++
               str_int (len (RunArtifact.attempts (Orchestrator.artifact s))) ++
               " attempts. Final issues: " ++
               Orchestrator._summarize_feedback
                 (option_map AttemptRecord.review
                    (last (map Some (RunArtifact.attempts (Orchestrator.artifact s)))
                          None)))).
Proof.
  split; [reflexivity |]. split; [| split].
  - intros review. unfold Orchestrator._summarize_feedback.
    destruct (ReviewerOutput.feedback review) as [| f0 fb] eqn:Hfb.
    + repeat split; intros; try reflexivity; cbn in *; congruence.
    + split; [discriminate |].
      destruct (filter Orchestrator.is_critical (f0 :: fb)) as [| c0 cs] eqn:Hcrit.
      * split; [congruence | reflexivity].
      * split; [reflexivity | discriminate].
  - intros f. unfold Orchestrator.is_critical.
    destruct (ReviewFeedback.severity f); split; congruence.
  - destruct (exec_anatomy self h input_data user_id e) as (rb & sb & Hb & Hbody & Hexec).
    exists (closed_out h (handled rb sb)). split; [exact Hexec |].
    intros sb' f Hb' Hfinal Hstatus. rewrite Hb in Hb'. injection Hb' as -> <-.
    inversion Hbody as [x e1 Hgen | g e1 x s2 Hgen Hloop
                        | g e1 fc fr s2 x e3 Hgen Hloop Htag
                        | g e1 fc fr s2 tags e3 Hgen Hloop Htag
                        | g e1 fr s2 Hgen Hloop]; subst; state_simpl.
    + injection Hfinal as <-. discriminate.
    + injection Hfinal as <-.
      destruct (loop_from_start _ _ _ _ _ _ _ _ _ Hloop)
        as (recs & cs & Htrail & _ & _ & Hext & _).
      rewrite Hext. state_simpl. cbn [app].
      rewrite (trail_spent_review _ _ _ _ _ Htrail). reflexivity.
Qed.

(** ** The tagger *)

(** C1, as the code has it.  Every run returns an artifact with a final
    result, and: (a) when the review of one of its attempt records passed
    (the review loop was left with that draft as final content), the
    tagger was called exactly once in the run, on that draft; if the call
    returned tags, the final result is approved with that draft as content
    and those tags; if the call raised, the final result is rejected,
    without content or tags; (b) when no review of an attempt record
    passed, the tagger was not called and the final result is rejected,
    without content or tags. *)
Theorem C1_tagging_follows_passing_review {E : Type} (self : Orchestrator.t E) (h : host)
  (input_data : GeneratorInput.t) (user_id : option string) (e : E) :
  exists (s : Orchestrator.state E) (f : FinalResult.t),
    Orchestrator.exec self h input_data user_id e = (Ok tt, s) /\
    Orchestrator.run self h input_data user_id e = Ok (Orchestrator.artifact s) /\
    RunArtifact.final (Orchestrator.artifact s) = Some f /\
    (forall rec,
       In rec (RunArtifact.attempts (Orchestrator.artifact s)) ->
       ReviewerOutput.pass_decision (AttemptRecord.review rec) = true ->
       exists outcome,
         tagger_calls (Orchestrator.calls s) = [(AttemptRecord.draft rec, outcome)] /\
         match outcome with
         | Ok tags =>
             f = {| FinalResult.status := approved;
                    FinalResult.content := Some (AttemptRecord.draft rec);
                    FinalResult.tags := Some tags;
                    FinalResult.rejection_reason := None |}
         | Raise x =>
             FinalResult.status f = rejected /\
             FinalResult.content f = None /\
             FinalResult.tags f = None
         end) /\
    ((forall rec,
        In rec (RunArtifact.attempts (Orchestrator.artifact s)) ->
        ReviewerOutput.pass_decision (AttemptRecord.review rec) = false) ->
     tagger_calls (Orchestrator.calls s) = [] /\
     FinalResult.status f = rejected /\
     FinalResult.content f = None /\
     FinalResult.tags f = None).
Proof.
  destruct (run_anatomy self h input_data user_id e)
    as (s & recs & f & k & Hexec & Hrun & Hout & Hk & Ha).
  exists s, f. split; [exact Hexec |]. split; [exact Hrun |].
  split; [now rewrite Ha |].
  assert (Hrecs : RunArtifact.attempts (Orchestrator.artifact s) = recs) by now rewrite Ha.
  rewrite Hrecs. clear Ha Hrecs Hexec Hrun.
  destruct Hout as [x | g recs cs x Ht (Htag & _) | g recs cs fc fr x Ht (Htag & _)
                    | g recs cs fc fr tags Ht (Htag & _) | g recs cs fr Ht (Htag & _)].
  - split; [intros rec [] | auto].
  - split.
    + intros rec Hin Hpass.
      pose proof (trail_pass_is_final _ _ _ _ _ _ Ht Hin Hpass). discriminate.
    + intros _. cbn [tagger_calls flat_map app]. auto.
  - split.
    + intros rec Hin Hpass.
      pose proof (trail_pass_is_final _ _ _ _ _ _ Ht Hin Hpass) as Hr.
      injection Hr as -> _. exists (Raise x). split; [| cbn; auto].
      change (tagger_calls (Orchestrator.generator_called input_data (Ok g) :: ?l))
        with (tagger_calls l).
      cbn [tagger_calls flat_map app]. fold (tagger_calls (cs ++
        [Orchestrator.tagger_called input_data (AttemptRecord.draft rec) (Raise x)])).
      rewrite tagger_calls_app, Htag. reflexivity.
    + intros Hnone. destruct (trail_passed _ _ _ _ _ _ Ht) as (init & rec & -> & _ & _ & Hp & _).
      rewrite (Hnone rec) in Hp; [discriminate | apply in_or_app; right; now left].
  - split.
    + intros rec Hin Hpass.
      pose proof (trail_pass_is_final _ _ _ _ _ _ Ht Hin Hpass) as Hr.
      injection Hr as -> _. exists (Ok tags). split; [| reflexivity].
      cbn [tagger_calls flat_map app]. fold (tagger_calls (cs ++
        [Orchestrator.tagger_called input_data (AttemptRecord.draft rec) (Ok tags)])).
      rewrite tagger_calls_app, Htag. reflexivity.
    + intros Hnone. destruct (trail_passed _ _ _ _ _ _ Ht) as (init & rec & -> & _ & _ & Hp & _).
      rewrite (Hnone rec) in Hp; [discriminate | apply in_or_app; right; now left].
  - split.
    + intros rec Hin Hpass.
      pose proof (trail_pass_is_final _ _ _ _ _ _ Ht Hin Hpass). discriminate.
    + intros _. cbn [tagger_calls flat_map app]. auto.
Qed.

(** ** The refinement ceiling and the cap of the schema *)

Section NeverPasses.

Context {E : Type}.
Variable self : Orchestrator.t E.
Variable h : host.
Variable input_data : GeneratorInput.t.
Variable user_id : option string.
Variable e : E.

Hypothesis generates : always_generates self.
Hypothesis fails : never_passes self.
Hypothesis refines : always_refines self.

(** With agents that never pass a draft, the body of [run] is left
    through the loop: with the budget spent when the ceiling is at most 2,
    by the refusal of the third refiner input when it is higher. *)
Lemma body_never_passes rb sb :
  body_graph self h input_data (Orchestrator.start h input_data user_id e) rb sb ->
  0 <= Orchestrator.max_refinements self ->
  exists g e1 r s2,
    loop_graph self h input_data 1 g
      (Orchestrator.log_call (Orchestrator.start h input_data user_id e) e1
         (Orchestrator.generator_called input_data (Ok g))) r s2 /\
    ((Orchestrator.max_refinements self <= 2 /\
      (exists rv, r = Ok (None, Some rv)) /\
      rb = Ok tt /\
      sb = Orchestrator.with_artifact
             (Orchestrator.set_final
                (rejected_after (len (RunArtifact.attempts (Orchestrator.artifact s2)))
                   (snd match r with Ok p => p | Raise _ => (None, None) end)))
             s2 /\
      len (RunArtifact.attempts (Orchestrator.artifact s2)) =
        Orchestrator.max_refinements self + 1)
     \/
     (2 < Orchestrator.max_refinements self /\
      r = Raise (ValidationError (RefinerInput_error 3)) /\
      rb = Raise (ValidationError (RefinerInput_error 3)) /\
      sb = s2 /\
      len (RunArtifact.attempts (Orchestrator.artifact s2)) = 2 /\
      len (refiner_attempts (Orchestrator.calls s2)) = 2)).
Proof.
  intros Hbody Hc.
  assert (Hloop_facts : forall g e1 r s2,
    loop_graph self h input_data 1 g
      (Orchestrator.log_call (Orchestrator.start h input_data user_id e) e1
         (Orchestrator.generator_called input_data (Ok g))) r s2 ->
    (Orchestrator.max_refinements self <= 2 ->
     (exists rv, r = Ok (None, Some rv)) /\
     len (RunArtifact.attempts (Orchestrator.artifact s2)) =
       Orchestrator.max_refinements self + 1) /\
    (2 < Orchestrator.max_refinements self ->
     r = Raise (ValidationError (RefinerInput_error 3)) /\
     len (RunArtifact.attempts (Orchestrator.artifact s2)) = 2 /\
     len (refiner_attempts (Orchestrator.calls s2)) = 2)).
  { intros g e1 r s2 Hloop.
    destruct (loop_graph_never_passes self h input_data _ _ _ _ _ Hloop fails refines
                ltac:(lia)) as [Hlow Hhigh].
    split.
    - intros Hle. destruct (Hlow Hle ltac:(lia)) as [(rv & Hr & _) Hlen].
      split; [eauto |]. rewrite Hlen. state_simpl. unfold len. cbn [List.length]. lia.
    - intros Hgt. destruct (Hhigh Hgt ltac:(lia)) as (Hr & Hlen & Hcalls).
      split; [exact Hr |]. split.
      + rewrite Hlen. state_simpl. unfold len. cbn [List.length]. lia.
      + rewrite Hcalls. state_simpl. unfold len. cbn [List.length refiner_attempts flat_map app]. lia. }
  inversion Hbody as [x e1 Hgen | g e1 x s2 Hgen Hloop
                      | g e1 fc fr s2 x e3 Hgen Hloop Htag
                      | g e1 fc fr s2 tags e3 Hgen Hloop Htag
                      | g e1 fr s2 Hgen Hloop]; subst.
  - destruct (generates input_data e) as (g & e' & Hg). state_simpl. congruence.
  - exists g, e1, (Raise x), sb. split; [exact Hloop |].
    destruct (Hloop_facts _ _ _ _ Hloop) as [Hlow Hhigh].
    destruct (Z_le_gt_dec (Orchestrator.max_refinements self) 2) as [Hle | Hgt].
    + destruct (Hlow Hle) as [(rv & Hr) _]. discriminate.
    + destruct (Hhigh ltac:(lia)) as (Hr & Hlen & Hcalls). injection Hr as ->.
      right. repeat split; auto. lia.
  - destruct (Hloop_facts _ _ _ _ Hloop) as [Hlow Hhigh].
    destruct (Z_le_gt_dec (Orchestrator.max_refinements self) 2) as [Hle | Hgt].
    + destruct (Hlow Hle) as [(rv & Hr) _]. discriminate.
    + destruct (Hhigh ltac:(lia)) as (Hr & _). discriminate.
  - destruct (Hloop_facts _ _ _ _ Hloop) as [Hlow Hhigh].
    destruct (Z_le_gt_dec (Orchestrator.max_refinements self) 2) as [Hle | Hgt].
    + destruct (Hlow Hle) as [(rv & Hr) _]. discriminate.
    + destruct (Hhigh ltac:(lia)) as (Hr & _). discriminate.
  - exists g, e1, (Ok (None, fr)), s2. split; [exact Hloop |].
    destruct (Hloop_facts _ _ _ _ Hloop) as [Hlow Hhigh].
    destruct (Z_le_gt_dec (Orchestrator.max_refinements self) 2) as [Hle | Hgt].
    + destruct (Hlow Hle) as [(rv & Hr) Hlen]. left. repeat split; eauto.
    + destruct (Hhigh ltac:(lia)) as (Hr & _). discriminate.
Qed.

End NeverPasses.

Lemma string_app_nonempty (s t : string) : s <> "" -> s ++ t <> "".
Proof. destruct s; [congruence | discriminate]. Qed.

(** The reviews of a loop entered at [n]: when as many of them were
    made as the ceiling leaves attempts, [ceiling + 2 - n], and each
    failed, the loop ends with the budget spent, one record appended for
    each of them.  And within a ceiling of at most 2 that many reviews are
    made whenever every call of the loop returns and no review passes. *)
Lemma loop_graph_reviews {E : Type} (self : Orchestrator.t E) (h : host)
  (input_data : GeneratorInput.t) n cur s r s' :
  loop_graph self h input_data n cur s r s' ->
  exists cs,
    Orchestrator.calls s' = (Orchestrator.calls s ++ cs)%list /\
    (1 <= n <= Orchestrator.max_refinements self + 1 ->
     len (reviewer_outcomes cs) = Orchestrator.max_refinements self + 2 - n ->
     forallb review_failed (reviewer_outcomes cs) = true ->
     (exists rv, r = Ok (None, Some rv)) /\
     len (RunArtifact.attempts (Orchestrator.artifact s')) =
       len (RunArtifact.attempts (Orchestrator.artifact s)) +
       (Orchestrator.max_refinements self + 2 - n)) /\
    (1 <= n <= Orchestrator.max_refinements self + 1 ->
     Orchestrator.max_refinements self <= 2 ->
     forallb returned_without_pass cs = true ->
     len (reviewer_outcomes cs) = Orchestrator.max_refinements self + 2 - n /\
     forallb review_failed (reviewer_outcomes cs) = true).
Proof.
  induction 1 as [n cur s Hn | n cur s x e1 Hn Hrev | n cur s rv e1 Hn Hrev Hp
                 | n cur s rv e1 Hn Hrev Hp | n cur s rv e1 Hn Hrev Hp Hv
                 | n cur s rv e1 x e2 Hn Hrev Hp Hv Href
                 | n cur s rv e1 g e2 r s' Hn Hrev Hp Hv Href Hloop IH].
  - exists []. rewrite app_nil_r. split; [reflexivity |]. split; intros; lia.
  - exists [Orchestrator.reviewer_called input_data cur (Raise x)].
    split; [reflexivity |]. split.
    + intros _ _ Hf. discriminate Hf.
    + intros _ _ Hf. discriminate Hf.
  - exists [Orchestrator.reviewer_called input_data cur (Ok rv)].
    split; [reflexivity |]. split.
    + intros _ _ Hf. cbn in Hf. rewrite Hp in Hf. discriminate Hf.
    + intros _ _ Hf. cbn in Hf. rewrite Hp in Hf. discriminate Hf.
  - exists [Orchestrator.reviewer_called input_data cur (Ok rv)].
    split; [reflexivity |]. split.
    + intros _ _ _. split; [now exists rv |]. state_simpl. len_simpl. lia.
    + intros _ _ _. split; [unfold len; cbn; lia | cbn; now rewrite Hp].
  - exists [Orchestrator.reviewer_called input_data cur (Ok rv)].
    split; [reflexivity |]. split.
    + intros _ Hlen _. unfold len in Hlen. cbn in Hlen. lia.
    + intros H1 Hc _. unfold RefinerInput.valid, between in Hv. cbn in Hv.
      apply andb_false_iff in Hv. rewrite Z.leb_gt, Z.leb_gt in Hv. lia.
  - exists [Orchestrator.reviewer_called input_data cur (Ok rv);
            Orchestrator.refiner_called (turn_refiner_input input_data n cur rv) (Raise x)].
    split; [cbn; now rewrite <- app_assoc |]. split.
    + intros _ Hlen _. unfold len in Hlen. cbn in Hlen. lia.
    + intros _ _ Hf. cbn in Hf. rewrite Hp in Hf. discriminate Hf.
  - destruct IH as (cs & Hcalls & IHcount & IHquiet).
    exists (Orchestrator.reviewer_called input_data cur (Ok rv) ::
            Orchestrator.refiner_called (turn_refiner_input input_data n cur rv) (Ok g) :: cs).
    split; [rewrite Hcalls; cbn; now rewrite <- !app_assoc |]. split.
    + intros H1 Hlen Hf.
      assert (Hlen' : len (reviewer_outcomes cs) =
                      Orchestrator.max_refinements self + 2 - (n + 1)).
      { unfold len in *. cbn [reviewer_outcomes flat_map app List.length] in Hlen.
        unfold reviewer_outcomes. lia. }
      assert (Hf' : forallb review_failed (reviewer_outcomes cs) = true).
      { cbn [reviewer_outcomes flat_map app forallb] in Hf.
        apply andb_prop in Hf as [_ Hf]. exact Hf. }
      destruct (IHcount ltac:(lia) Hlen' Hf') as [Hr Hgrow]. split; [exact Hr |].
      rewrite Hgrow. state_simpl. len_simpl. lia.
    + intros H1 Hc Hq. cbn [forallb returned_without_pass] in Hq.
      apply andb_prop in Hq as [Hq1 Hq]. cbn [andb] in Hq.
      destruct (IHquiet ltac:(lia) Hc Hq) as [Hlen Hf]. split.
      * unfold len in *. cbn [reviewer_outcomes flat_map app List.length].
        unfold reviewer_outcomes in Hlen. lia.
      * cbn [reviewer_outcomes flat_map app forallb]. rewrite Hq1. exact Hf.
Qed.

(** C3.  Every run returns its artifact, and under a refinement ceiling
    [>= 0]: (a) when the run reviewed every attempt the ceiling allows,
    [ceiling + 1] of them, and every one of these reviews failed, the
    artifact has exactly [ceiling + 1] attempt records, numbered 1, 2, ...
    without a gap; its final result is rejected, without content or tags,
    and its rejection reason is not empty; (b) under a ceiling of at most 2
    (2 is the configured one), a run in which every call of an agent
    returned and no review passed is such a run. *)
Theorem C3_rejected_after_ceiling {E : Type} (self : Orchestrator.t E) (h : host)
  (input_data : GeneratorInput.t) (user_id : option string) (e : E) :
  0 <= Orchestrator.max_refinements self ->
  exists s : Orchestrator.state E,
    Orchestrator.exec self h input_data user_id e = (Ok tt, s) /\
    Orchestrator.run self h input_data user_id e = Ok (Orchestrator.artifact s) /\
    (len (reviewer_outcomes (Orchestrator.calls s)) = Orchestrator.max_refinements self + 1 ->
     forallb review_failed (reviewer_outcomes (Orchestrator.calls s)) = true ->
     len (RunArtifact.attempts (Orchestrator.artifact s)) =
       Orchestrator.max_refinements self + 1 /\
     map AttemptRecord.attempt (RunArtifact.attempts (Orchestrator.artifact s)) =
       numbered_from 1 (Z.to_nat (Orchestrator.max_refinements self + 1)) /\
     exists reason,
       RunArtifact.final (Orchestrator.artifact s) =
         Some {| FinalResult.status := rejected;
                 FinalResult.content := None;
                 FinalResult.tags := None;
                 FinalResult.rejection_reason := Some reason |} /\
       reason <> "") /\
    (Orchestrator.max_refinements self <= 2 ->
     forallb returned_without_pass (Orchestrator.calls s) = true ->
     len (reviewer_outcomes (Orchestrator.calls s)) = Orchestrator.max_refinements self + 1 /\
     forallb review_failed (reviewer_outcomes (Orchestrator.calls s)) = true).
Proof.
  intros Hc.
  destruct (exec_anatomy self h input_data user_id e) as (rb & sb & _ & Hbody & Hexec).
  exists (closed_out h (handled rb sb)).
  split; [exact Hexec |]. split; [unfold Orchestrator.run; now rewrite Hexec |].
  assert (Hcalls : Orchestrator.calls (closed_out h (handled rb sb)) = Orchestrator.calls sb).
  { destruct rb; reflexivity. }
  rewrite Hcalls.
  inversion Hbody as [x e1 Hgen | g e1 x s2 Hgen Hloop
                      | g e1 fc fr s2 x e3 Hgen Hloop Htag
                      | g e1 fc fr s2 tags e3 Hgen Hloop Htag
                      | g e1 fr s2 Hgen Hloop]; subst;
    try (destruct (loop_graph_reviews _ _ _ _ _ _ _ _ Hloop)
           as (cs & Hcs & Hcount & Hquiet); state_simpl; cbn [app] in Hcs).
  - state_simpl. cbn [app]. split.
    + intros Hlen _. unfold len in Hlen. cbn in Hlen. lia.
    + intros _ Hq. discriminate Hq.
  - rewrite Hcs. cbn [reviewer_outcomes flat_map app forallb returned_without_pass andb].
    fold (reviewer_outcomes cs). split.
    + intros Hlen Hf. destruct (Hcount ltac:(lia) ltac:(rewrite Hlen; lia) Hf)
        as [(rv & Hr) _]. discriminate Hr.
    + intros Hle Hq. destruct (Hquiet ltac:(lia) Hle Hq) as [Hlen Hf].
      split; [rewrite Hlen; lia | exact Hf].
  - rewrite Hcs. unfold reviewer_outcomes.
    rewrite flat_map_app. cbn [flat_map app]. rewrite app_nil_r.
    fold (reviewer_outcomes cs). split.
    + intros Hlen Hf. destruct (Hcount ltac:(lia) ltac:(rewrite Hlen; lia) Hf)
        as [(rv & Hr) _]. discriminate Hr.
    + intros _ Hq. cbn [forallb returned_without_pass andb] in Hq.
      rewrite forallb_app in Hq. apply andb_prop in Hq as [_ Hq]. discriminate Hq.
  - rewrite Hcs. unfold reviewer_outcomes.
    rewrite flat_map_app. cbn [flat_map app]. rewrite app_nil_r.
    fold (reviewer_outcomes cs). split.
    + intros Hlen Hf. destruct (Hcount ltac:(lia) ltac:(rewrite Hlen; lia) Hf)
        as [(rv & Hr) _]. discriminate Hr.
    + intros Hle Hq. cbn [forallb returned_without_pass andb] in Hq.
      rewrite forallb_app in Hq. apply andb_prop in Hq as [Hq _].
      destruct (Hquiet ltac:(lia) Hle Hq) as [Hlen Hf].
      split; [rewrite Hlen; lia | exact Hf].
  - rewrite Hcs. cbn [reviewer_outcomes flat_map app forallb returned_without_pass andb].
    fold (reviewer_outcomes cs). split.
    + intros Hlen Hf. destruct (Hcount ltac:(lia) ltac:(rewrite Hlen; lia) Hf)
        as [(rv & Hr) Hgrow].
      destruct (loop_from_start _ _ _ _ _ _ _ _ _ Hloop)
        as (recs & cs' & Htrail & _ & _ & Hext & _).
      state_simpl. rewrite Hext in *. state_simpl. cbn [app] in *.
      assert (Hrecs : len recs = Orchestrator.max_refinements self + 1).
      { rewrite Hgrow. unfold len. cbn [List.length]. lia. }
      split; [exact Hrecs |]. split.
      * rewrite (trail_numbers _ _ _ _ _ Htrail). f_equal. unfold len in Hrecs. lia.
      * eexists. split; [reflexivity |]. apply string_app_nonempty. discriminate.
    + intros Hle Hq. destruct (Hquiet ltac:(lia) Hle Hq) as [Hlen Hf].
      split; [rewrite Hlen; lia | exact Hf].
Qed.

(** C10.  [RefinerInput] takes no attempt number above 2; so, whatever
    the refinement ceiling of the orchestrator is, no run calls the
    refiner more than twice: its calls carry the attempt numbers 1, 2 at
    most.  Under a ceiling above 2, when generation and every refinement
    return and no review passes, the refiner is called for attempts 1 and 2
    and not for attempt 3: the run ends rejected, with the two records of
    the refined attempts, and its rejection reason is ["Unexpected error: "]
    followed by the text of the validation error for attempt number 3. *)
Theorem C10_schema_caps_refinement {E : Type} (self : Orchestrator.t E) (h : host)
  (input_data : GeneratorInput.t) (user_id : option string) (e : E) :
  (forall refiner_input,
     RefinerInput.valid refiner_input = true ->
     RefinerInput.attempt_number refiner_input <= 2) /\
  exists s : Orchestrator.state E,
    Orchestrator.exec self h input_data user_id e = (Ok tt, s) /\
    Orchestrator.run self h input_data user_id e = Ok (Orchestrator.artifact s) /\
    (exists k, (k <= 2)%nat /\
               refiner_attempts (Orchestrator.calls s) = numbered_from 1 k) /\
    (2 < Orchestrator.max_refinements self ->
     always_generates self -> never_passes self -> always_refines self ->
     refiner_attempts (Orchestrator.calls s) = [1; 2] /\
     len (RunArtifact.attempts (Orchestrator.artifact s)) = 2 /\
     RunArtifact.final (Orchestrator.artifact s) =
       Some {| FinalResult.status := rejected;
               FinalResult.content := None;
               FinalResult.tags := None;
               FinalResult.rejection_reason :=
                 Some ("Unexpected error: " ++ RefinerInput_error 3) |}).
Proof.
  split.
  { intros ri Hv. unfold RefinerInput.valid, between in Hv.
    apply andb_true_iff in Hv. destruct Hv as [_ Hv]. now apply Z.leb_le. }
  destruct (run_anatomy self h input_data user_id e)
    as (s & recs & f & k & Hexec & Hrun & Hout & Hk & Ha).
  exists s. split; [exact Hexec |]. split; [exact Hrun |].
  assert (Hcap : exists k, (k <= 2)%nat /\
                   refiner_attempts (Orchestrator.calls s) = numbered_from 1 k).
  { assert (Hcs : forall cs r, loop_calls r cs ->
              exists k, (k <= 2)%nat /\ refiner_attempts cs = numbered_from 1 k).
    { intros cs r (_ & _ & Hnum & Hle & _).
      exists (List.length (refiner_attempts cs)). split; [| exact Hnum].
      apply numbered_from_cap. now rewrite <- Hnum. }
    destruct Hout as [x | g recs cs x Ht Hl | g recs cs fc fr x Ht Hl
                      | g recs cs fc fr tags Ht Hl | g recs cs fr Ht Hl].
    - exists 0%nat. split; [lia | reflexivity].
    - exact (Hcs _ _ Hl).
    - destruct (Hcs _ _ Hl) as (k' & Hk' & Hn). exists k'. split; [exact Hk' |].
      change (refiner_attempts (Orchestrator.generator_called input_data (Ok g) ::
                cs ++ [Orchestrator.tagger_called input_data fc (Raise x)]))
        with (refiner_attempts (cs ++ [Orchestrator.tagger_called input_data fc (Raise x)])).
      rewrite refiner_attempts_app, Hn. cbn. now rewrite app_nil_r.
    - destruct (Hcs _ _ Hl) as (k' & Hk' & Hn). exists k'. split; [exact Hk' |].
      change (refiner_attempts (Orchestrator.generator_called input_data (Ok g) ::
                cs ++ [Orchestrator.tagger_called input_data fc (Ok tags)]))
        with (refiner_attempts (cs ++ [Orchestrator.tagger_called input_data fc (Ok tags)])).
      rewrite refiner_attempts_app, Hn. cbn. now rewrite app_nil_r.
    - exact (Hcs _ _ Hl). }
  split; [exact Hcap |].
  intros Hgt Hgen Hfail Href.
  destruct (exec_anatomy self h input_data user_id e) as (rb & sb & _ & Hbody & Hexec').
  rewrite Hexec in Hexec'. injection Hexec' as ->.
  destruct (body_never_passes self h input_data user_id e Hgen Hfail Href rb sb Hbody
              ltac:(lia))
    as (g & e1 & r & s2 & Hloop & [(Hle & _) | (_ & -> & -> & -> & Hlen & Hcalls)]);
    [lia |].
  state_simpl. split; [| split; [exact Hlen | reflexivity]].
  destruct Hcap as (k' & Hk' & Hn). state_simpl. rewrite Hn in *.
  unfold len, numbered_from in Hcalls. rewrite length_map, length_seq in Hcalls.
  assert (k' = 2%nat) as -> by lia. reflexivity.
Qed.

(** ** Serialisation and the repository *)

Lemma mapM_map {A B : Type} (f : B -> option A) (g : A -> B) (l : list A) :
  (forall x, In x l -> f (g x) = Some x) -> mapM f (map g l) = Some l.
Proof.
  induction l as [| a l IH]; intros H; [reflexivity |].
  cbn [map mapM]. rewrite (H a (or_introl eq_refl)). cbn [obind].
  rewrite IH; [reflexivity |]. intros x Hx. apply H. now right.
Qed.

Lemma list_of_str (l : list string) : list_of as_str (JList (map JStr l)) = Some l.
Proof. unfold list_of. cbn [as_list obind]. now apply mapM_map. Qed.

(** Simplification of the reading of a dumped document: the lookups of
    literal keys are computed, the readers of the parts are left alone. *)
Ltac read_fields :=
  cbn [as_dict as_int as_str as_bool as_float as_list obind required defaulted optional
       dump_option dump_datetime as_datetime lookup String.eqb Ascii.eqb Bool.eqb guard
       GeneratorInput.grade GeneratorInput.topic Explanation.text Explanation.grade
       MCQ.question MCQ.options MCQ.correct_index
       TeacherNotes.learning_objective TeacherNotes.common_misconceptions
       GeneratorOutput.explanation GeneratorOutput.mcqs GeneratorOutput.teacher_notes
       ReviewScore.age_appropriateness ReviewScore.correctness ReviewScore.clarity
       ReviewScore.coverage
       ReviewFeedback.field ReviewFeedback.issue ReviewFeedback.severity
       ReviewFeedback.suggestion
       ReviewerOutput.scores ReviewerOutput.pass_decision ReviewerOutput.feedback
       ReviewerOutput.summary
       TaggerOutput.subject TaggerOutput.topic TaggerOutput.grade TaggerOutput.difficulty
       TaggerOutput.content_type TaggerOutput.blooms_level TaggerOutput.keywords
       AttemptRecord.attempt AttemptRecord.draft AttemptRecord.review
       AttemptRecord.refined AttemptRecord.timestamp
       FinalResult.status FinalResult.content FinalResult.tags
       FinalResult.rejection_reason
       Timestamps.started_at Timestamps.finished_at Timestamps.duration_seconds
       RunArtifact.run_id RunArtifact.user_id RunArtifact.input RunArtifact.attempts
       RunArtifact.final RunArtifact.timestamps RunArtifact.metadata].

Lemma GeneratorInput_roundtrip (x : GeneratorInput.t) :
  GeneratorInput.valid x = true ->
  GeneratorInput.model_validate (GeneratorInput.model_dump x) = Some x.
Proof.
  intros H. destruct x as [g tp].
  unfold GeneratorInput.model_validate, GeneratorInput.model_dump. read_fields.
  cbn zeta. rewrite H. reflexivity.
Qed.

Lemma Explanation_roundtrip (x : Explanation.t) :
  Explanation.valid x = true ->
  Explanation.model_validate (Explanation.model_dump x) = Some x.
Proof.
  intros H. destruct x as [tx g].
  unfold Explanation.model_validate, Explanation.model_dump. read_fields.
  cbn zeta. rewrite H. reflexivity.
Qed.

Lemma MCQ_roundtrip (x : MCQ.t) :
  MCQ.valid x = true -> MCQ.model_validate (MCQ.model_dump x) = Some x.
Proof.
  intros H. destruct x as [q o c].
  unfold MCQ.model_validate, MCQ.model_dump. read_fields.
  cbn [MCQ.question MCQ.options MCQ.correct_index].
  rewrite list_of_str. read_fields. cbn zeta. rewrite H. reflexivity.
Qed.

Lemma TeacherNotes_roundtrip (x : TeacherNotes.t) :
  TeacherNotes.valid x = true ->
  TeacherNotes.model_validate (TeacherNotes.model_dump x) = Some x.
Proof.
  intros H. destruct x as [lo cm].
  unfold TeacherNotes.model_validate, TeacherNotes.model_dump. read_fields.
  cbn [TeacherNotes.learning_objective TeacherNotes.common_misconceptions].
  rewrite list_of_str. read_fields. cbn zeta. rewrite H. reflexivity.
Qed.

Lemma GeneratorOutput_roundtrip (x : GeneratorOutput.t) :
  GeneratorOutput.valid x = true ->
  GeneratorOutput.model_validate (GeneratorOutput.model_dump x) = Some x.
Proof.
  intros H. destruct x as [ex ms tn].
  pose proof H as H'. unfold GeneratorOutput.valid in H'.
  cbn [GeneratorOutput.explanation GeneratorOutput.mcqs GeneratorOutput.teacher_notes] in H'.
  rewrite !andb_true_iff in H'. destruct H' as [[[Hex _] Hms] Htn].
  unfold GeneratorOutput.model_validate, GeneratorOutput.model_dump. read_fields.
  cbn [GeneratorOutput.explanation GeneratorOutput.mcqs GeneratorOutput.teacher_notes].
  rewrite (Explanation_roundtrip ex Hex). read_fields.
  unfold list_of. read_fields.
  rewrite (mapM_map MCQ.model_validate MCQ.model_dump ms).
  2:{ intros m Hm. apply MCQ_roundtrip. rewrite forallb_forall in Hms. now apply Hms. }
  read_fields. rewrite (TeacherNotes_roundtrip tn Htn). read_fields.
  cbn zeta. rewrite H. reflexivity.
Qed.

Lemma ReviewScore_roundtrip (x : ReviewScore.t) :
  ReviewScore.valid x = true ->
  ReviewScore.model_validate (ReviewScore.model_dump x) = Some x.
Proof.
  intros H. destruct x as [a c cl cv].
  unfold ReviewScore.model_validate, ReviewScore.model_dump. read_fields.
  cbn zeta. rewrite H. reflexivity.
Qed.

Lemma Severity_roundtrip (s : Severity) : Severity_of (Severity_value s) = Some s.
Proof. destruct s; reflexivity. Qed.

Lemma ReviewFeedback_roundtrip (x : ReviewFeedback.t) :
  ReviewFeedback.model_validate (ReviewFeedback.model_dump x) = Some x.
Proof.
  destruct x as [f i s g].
  unfold ReviewFeedback.model_validate, ReviewFeedback.model_dump. read_fields.
  cbn [ReviewFeedback.field ReviewFeedback.issue ReviewFeedback.severity
       ReviewFeedback.suggestion].
  rewrite Severity_roundtrip. read_fields. destruct g; reflexivity.
Qed.

Lemma ReviewerOutput_roundtrip (x : ReviewerOutput.t) :
  ReviewerOutput.valid x = true ->
  ReviewerOutput.model_validate (ReviewerOutput.model_dump x) = Some x.
Proof.
  intros H. destruct x as [sc p fb sm].
  unfold ReviewerOutput.model_validate, ReviewerOutput.model_dump. read_fields.
  cbn [ReviewerOutput.scores ReviewerOutput.pass_decision ReviewerOutput.feedback
       ReviewerOutput.summary].
  rewrite (ReviewScore_roundtrip sc H). read_fields.
  unfold list_of. read_fields.
  rewrite (mapM_map ReviewFeedback.model_validate ReviewFeedback.model_dump fb).
  2:{ intros f _. apply ReviewFeedback_roundtrip. }
  cbn zeta. unfold ReviewerOutput.valid. cbn [ReviewerOutput.scores].
  unfold ReviewerOutput.valid in H. cbn [ReviewerOutput.scores] in H. rewrite H.
  reflexivity.
Qed.

Lemma DifficultyLevel_roundtrip (x : DifficultyLevel) :
  DifficultyLevel_of (DifficultyLevel_value x) = Some x.
Proof. destruct x; reflexivity. Qed.

Lemma BloomsLevel_roundtrip (x : BloomsLevel) :
  BloomsLevel_of (BloomsLevel_value x) = Some x.
Proof. destruct x; reflexivity. Qed.

Lemma ContentType_roundtrip (x : ContentType) :
  ContentType_of (ContentType_value x) = Some x.
Proof. destruct x; reflexivity. Qed.

Lemma Status_roundtrip (x : Status) : Status_of (Status_value x) = Some x.
Proof. destruct x; reflexivity. Qed.

Lemma TaggerOutput_roundtrip (x : TaggerOutput.t) :
  TaggerOutput.valid x = true ->
  TaggerOutput.model_validate (TaggerOutput.model_dump x) = Some x.
Proof.
  intros H. destruct x as [sb tp g df ct bl kw].
  unfold TaggerOutput.model_validate, TaggerOutput.model_dump. read_fields.
  cbn [TaggerOutput.subject TaggerOutput.topic TaggerOutput.grade TaggerOutput.difficulty
       TaggerOutput.content_type TaggerOutput.blooms_level TaggerOutput.keywords].
  rewrite DifficultyLevel_roundtrip. read_fields.
  unfold list_of at 1. read_fields.
  rewrite (mapM_map (fun v => n <~ as_str v ;; ContentType_of n)
             (fun c => JStr (ContentType_value c)) ct).
  2:{ intros c _. read_fields. apply ContentType_roundtrip. }
  read_fields. rewrite BloomsLevel_roundtrip. read_fields.
  rewrite list_of_str. read_fields. cbn zeta. rewrite H. reflexivity.
Qed.

Lemma optional_hit {A : Type} (f : json -> option A) (dump : A -> json) (k : string)
  (d : dict) (o : option A) :
  lookup k d = Some (dump_option dump o) ->
  (forall a, dump a <> JNull) ->
  (forall a, o = Some a -> f (dump a) = Some a) ->
  optional f k d = Some o.
Proof.
  intros Hk Hnot Hf. unfold optional. rewrite Hk. destruct o as [a |]; [| reflexivity].
  cbn [dump_option]. specialize (Hf a eq_refl). specialize (Hnot a).
  destruct (dump a); try congruence; now rewrite Hf.
Qed.

Lemma datetime_roundtrip (rt : runtime) (t : Z) :
  as_datetime rt (dump_datetime rt t) = Some t.
Proof. unfold as_datetime, dump_datetime. cbn [as_str obind]. apply fromisoformat_isoformat. Qed.

Lemma AttemptRecord_roundtrip (rt : runtime) (x : AttemptRecord.t) :
  AttemptRecord.valid x = true ->
  AttemptRecord.model_validate rt (AttemptRecord.model_dump rt x) = Some x.
Proof.
  intros H. destruct x as [a dr rv rf ts].
  pose proof H as H'. unfold AttemptRecord.valid in H'.
  cbn [AttemptRecord.attempt AttemptRecord.draft AttemptRecord.review
       AttemptRecord.refined] in H'.
  rewrite !andb_true_iff in H'. destruct H' as [[[_ Hdr] Hrv] Hrf].
  unfold AttemptRecord.model_validate, AttemptRecord.model_dump.
  cbn [as_dict as_int obind required lookup String.eqb Ascii.eqb Bool.eqb
       AttemptRecord.attempt AttemptRecord.draft AttemptRecord.review
       AttemptRecord.refined AttemptRecord.timestamp].
  rewrite (GeneratorOutput_roundtrip dr Hdr). cbn [obind].
  rewrite (ReviewerOutput_roundtrip rv Hrv). cbn [obind].
  rewrite (optional_hit GeneratorOutput.model_validate GeneratorOutput.model_dump
             "refined" _ rf); [| reflexivity | discriminate |].
  2:{ intros g ->. now apply GeneratorOutput_roundtrip. }
  cbn [obind defaulted lookup String.eqb Ascii.eqb Bool.eqb].
  rewrite datetime_roundtrip. cbn [obind]. cbn zeta. rewrite H. reflexivity.
Qed.

Lemma FinalResult_roundtrip (x : FinalResult.t) :
  FinalResult.valid x = true ->
  FinalResult.model_validate (FinalResult.model_dump x) = Some x.
Proof.
  intros H. destruct x as [st c tg rr].
  unfold FinalResult.valid in H. cbn [FinalResult.content FinalResult.tags] in H.
  rewrite andb_true_iff in H. destruct H as [Hc Htg].
  unfold FinalResult.model_validate, FinalResult.model_dump.
  cbn [as_dict as_str obind required lookup String.eqb Ascii.eqb Bool.eqb
       FinalResult.status FinalResult.content FinalResult.tags
       FinalResult.rejection_reason].
  rewrite Status_roundtrip. cbn [obind].
  rewrite (optional_hit GeneratorOutput.model_validate GeneratorOutput.model_dump
             "content" _ c); [| reflexivity | discriminate |].
  2:{ intros g ->. now apply GeneratorOutput_roundtrip. }
  cbn [obind].
  rewrite (optional_hit TaggerOutput.model_validate TaggerOutput.model_dump
             "tags" _ tg); [| reflexivity | discriminate |].
  2:{ intros g ->. now apply TaggerOutput_roundtrip. }
  cbn [obind].
  rewrite (optional_hit as_str JStr "rejection_reason" _ rr);
    [reflexivity | reflexivity | discriminate | reflexivity].
Qed.

Lemma Timestamps_roundtrip (rt : runtime) (x : Timestamps.t) :
  Timestamps.model_validate rt (Timestamps.model_dump rt x) = Some x.
Proof.
  destruct x as [s f ds].
  unfold Timestamps.model_validate, Timestamps.model_dump.
  cbn [as_dict obind required lookup String.eqb Ascii.eqb Bool.eqb
       Timestamps.started_at Timestamps.finished_at Timestamps.duration_seconds].
  rewrite datetime_roundtrip. cbn [obind].
  rewrite (optional_hit (as_datetime rt) (dump_datetime rt) "finished_at" _ f);
    [| reflexivity | discriminate | intros; apply datetime_roundtrip].
  cbn [obind].
  rewrite (optional_hit as_float JFloat "duration_seconds" _ ds);
    [reflexivity | reflexivity | discriminate | reflexivity].
Qed.

(** Validation reads these keys and no other. *)
Lemma RunArtifact_validate_ext (rt : runtime) (d d' : dict) :
  (forall k, In k RunArtifact_keys -> lookup k d = lookup k d') ->
  RunArtifact.model_validate rt d = RunArtifact.model_validate rt d'.
Proof.
  intros H. unfold RunArtifact.model_validate, required, optional, defaulted.
  rewrite (H "run_id"), (H "user_id"), (H "input"), (H "attempts"), (H "final"),
    (H "timestamps"), (H "metadata"); [reflexivity | | | | | | |];
    unfold RunArtifact_keys; cbn; tauto.
Qed.

Lemma RunArtifact_roundtrip (rt : runtime) (x : RunArtifact.t) :
  RunArtifact.valid x = true ->
  RunArtifact.model_validate rt (RunArtifact.model_dump rt x) = Some x.
Proof.
  intros H. destruct x as [r u i a f ts m].
  pose proof H as H'. unfold RunArtifact.valid in H'.
  cbn [RunArtifact.input RunArtifact.attempts RunArtifact.final] in H'.
  rewrite !andb_true_iff in H'. destruct H' as [[Hi Ha] Hf].
  unfold RunArtifact.model_validate, RunArtifact.model_dump.
  cbn [as_str obind defaulted lookup String.eqb Ascii.eqb Bool.eqb
       RunArtifact.run_id RunArtifact.user_id RunArtifact.input RunArtifact.attempts
       RunArtifact.final RunArtifact.timestamps RunArtifact.metadata].
  rewrite (optional_hit as_str JStr "user_id" _ u);
    [| reflexivity | discriminate | reflexivity].
  cbn [obind required lookup String.eqb Ascii.eqb Bool.eqb].
  rewrite (GeneratorInput_roundtrip i Hi). cbn [obind].
  unfold list_of. cbn [as_list obind].
  rewrite (mapM_map (AttemptRecord.model_validate rt) (AttemptRecord.model_dump rt) a).
  2:{ intros rec Hrec. apply AttemptRecord_roundtrip. rewrite forallb_forall in Ha.
      now apply Ha. }
  cbn [obind].
  rewrite (optional_hit FinalResult.model_validate FinalResult.model_dump "final" _ f);
    [| reflexivity | discriminate |].
  2:{ intros fr ->. now apply FinalResult_roundtrip. }
  cbn [obind]. rewrite Timestamps_roundtrip. cbn [obind as_dict].
  cbn zeta. rewrite H. reflexivity.
Qed.

(** Merging a document with fields: a key of the fields reads as in the
    fields. *)
Lemma lookup_set_key (k k' : string) (v : json) (d : dict) :
  lookup k (set_key k' v d) = if String.eqb k' k then Some v else lookup k d.
Proof.
  induction d as [| [k0 v0] d IH]; cbn [set_key lookup].
  - reflexivity.
  - destruct (String.eqb k0 k') eqn:H0.
    + apply String.eqb_eq in H0. subst k0. cbn [lookup].
      destruct (String.eqb k' k); reflexivity.
    + cbn [lookup]. destruct (String.eqb k0 k) eqn:H1.
      * apply String.eqb_eq in H1. subst k0. rewrite String.eqb_sym in H0.
        now rewrite H0.
      * exact IH.
Qed.

Lemma lookup_dict_update (k : string) (fields : dict) :
  forall d,
    lookup k (dict_update d fields) =
    match lookup k (rev fields) with
    | Some v => Some v
    | None => lookup k d
    end.
Proof.
  unfold dict_update. induction fields as [| [k0 v0] fields IH]; intros d.
  - reflexivity.
  - cbn [fold_left fst snd rev]. rewrite IH.
    assert (Happ : forall l : dict, lookup k (l ++ [(k0, v0)])%list =
              match lookup k l with
              | Some v => Some v
              | None => if String.eqb k0 k then Some v0 else None
              end).
    { induction l as [| [k1 v1] l IHl]; cbn [app lookup]; [reflexivity |].
      destruct (String.eqb k1 k); auto. }
    rewrite Happ, lookup_set_key.
    destruct (lookup k (rev fields)); [reflexivity |].
    destruct (String.eqb k0 k); reflexivity.
Qed.

Lemma dumped_keys (rt : runtime) (x : RunArtifact.t) (d : dict) (k : string) :
  In k RunArtifact_keys ->
  lookup k (dict_update d (RunArtifact.model_dump rt x)) =
  lookup k (RunArtifact.model_dump rt x).
Proof.
  intros Hk. rewrite lookup_dict_update. unfold RunArtifact.model_dump, RunArtifact_keys in *.
  cbn [rev app].
  repeat (destruct Hk as [<- | Hk]; [reflexivity |]). destruct Hk.
Qed.

Lemma run_id_is_dumped (rt : runtime) (x : RunArtifact.t) (d : dict) :
  ArtifactRepository.run_id_is (RunArtifact.run_id x)
    (dict_update d (RunArtifact.model_dump rt x)) = true /\
  ArtifactRepository.run_id_is (RunArtifact.run_id x) (RunArtifact.model_dump rt x) = true.
Proof.
  unfold ArtifactRepository.run_id_is. rewrite dumped_keys by (cbn; tauto).
  cbn [RunArtifact.model_dump lookup String.eqb Ascii.eqb Bool.eqb].
  rewrite String.eqb_refl. auto.
Qed.

(** After [update], the documents that match are the merged ones. *)
Lemma search_update (rt : runtime) (x : RunArtifact.t) (tb : ArtifactRepository.table) :
  ArtifactRepository.search (ArtifactRepository.run_id_is (RunArtifact.run_id x))
    (ArtifactRepository.update (RunArtifact.model_dump rt x)
       (ArtifactRepository.run_id_is (RunArtifact.run_id x)) tb) =
  map (fun doc => dict_update doc (RunArtifact.model_dump rt x))
    (ArtifactRepository.search (ArtifactRepository.run_id_is (RunArtifact.run_id x)) tb).
Proof.
  unfold ArtifactRepository.search, ArtifactRepository.update.
  induction tb as [| doc tb IH]; [reflexivity |].
  cbn [map filter].
  destruct (ArtifactRepository.run_id_is (RunArtifact.run_id x) doc) eqn:Hdoc.
  - rewrite (proj1 (run_id_is_dumped rt x doc)). cbn [map]. now rewrite IH.
  - rewrite Hdoc. exact IH.
Qed.

(** C9.  For every run artifact that satisfies the constraints of its
    model classes (as every artifact built from validated parts does),
    whatever the table holds: [save] returns its [run_id], and [get] of
    that [run_id] from the table [save] left returns an artifact equal to
    the one saved; in particular with the same [run_id], the same final
    status and the same number of attempt records. *)
Theorem C9_save_then_get_roundtrip (rt : runtime) (artifact : RunArtifact.t)
  (tb : ArtifactRepository.table) :
  RunArtifact.valid artifact = true ->
  exists (tb' : ArtifactRepository.table) (loaded : RunArtifact.t),
    ArtifactRepository.save rt artifact tb = (Ok (RunArtifact.run_id artifact), tb') /\
    ArtifactRepository.get rt (RunArtifact.run_id artifact) tb' = (Ok (Some loaded), tb') /\
    loaded = artifact /\
    RunArtifact.run_id loaded = RunArtifact.run_id artifact /\
    option_map FinalResult.status (RunArtifact.final loaded) =
      option_map FinalResult.status (RunArtifact.final artifact) /\
    len (RunArtifact.attempts loaded) = len (RunArtifact.attempts artifact).
Proof.
  intros Hvalid. unfold ArtifactRepository.save.
  destruct (ArtifactRepository.search
              (ArtifactRepository.run_id_is (RunArtifact.run_id artifact)) tb)
    as [| doc0 existing] eqn:Hsearch.
  - exists (ArtifactRepository.insert (RunArtifact.model_dump rt artifact) tb), artifact.
    split; [reflexivity |]. split; [| auto].
    unfold ArtifactRepository.get, ArtifactRepository.insert, ArtifactRepository.search in *.
    rewrite filter_app, Hsearch. cbn [filter app].
    rewrite (proj2 (run_id_is_dumped rt artifact [])).
    now rewrite (RunArtifact_roundtrip rt artifact Hvalid).
  - exists (ArtifactRepository.update (RunArtifact.model_dump rt artifact)
              (ArtifactRepository.run_id_is (RunArtifact.run_id artifact)) tb), artifact.
    split; [reflexivity |]. split; [| auto].
    unfold ArtifactRepository.get. rewrite search_update, Hsearch. cbn [map].
    rewrite (RunArtifact_validate_ext rt _ (RunArtifact.model_dump rt artifact)).
    + now rewrite (RunArtifact_roundtrip rt artifact Hvalid).
    + intros k Hk. now apply dumped_keys.
Qed.
(** ** Exceptions that are no [AgentError] *)

(** An attempt whose reply makes [_parse_and_validate] raise anything
    but the two exceptions it handles (a [TypeError] for a reply that is
    JSON but no object, say) is not retried: the exception leaves [run]
    after that one request, whatever the budget. *)
Theorem uncaught_exception_is_not_retried {I O : Type} (self : BaseAgent.t I O)
  (input_data : I) (prompt text : string) (max_retries : Z) (e : exn) (w : world) :
  0 <= max_retries ->
  BaseAgent._build_user_prompt self input_data = Ok prompt ->
  BaseAgent.client self (llm_calls w) = Content text ->
  BaseAgent.output_schema self text = Uncaught e ->
  is_AgentError e = false ->
  BaseAgent.run self input_data (PyInt max_retries) w =
    (Raise e, {| llm_calls := S (llm_calls w) |}).
Proof.
  intros Hmax Hprompt Hc Hs He. unfold BaseAgent.run. rewrite Hprompt.
  unfold lift_res. unfold bind at 1. unfold range.
  replace (Z.to_nat (max_retries + 1)) with (S (Z.to_nat max_retries)) by lia.
  cbn [seq map BaseAgent.run_loop]. unfold bind, try_, BaseAgent._call_llm, lift_res.
  rewrite Hc. unfold BaseAgent._parse_and_validate. rewrite Hs.
  destruct e; try discriminate; reflexivity.
Qed.

(** ** The artifacts of the pipeline satisfy their model *)

Lemma valid_append_attempt (rec : AttemptRecord.t) (a : RunArtifact.t) :
  RunArtifact.valid a = true ->
  AttemptRecord.valid rec = true ->
  RunArtifact.valid (Orchestrator.append_attempt rec a) = true.
Proof.
  unfold RunArtifact.valid. cbn [Orchestrator.append_attempt RunArtifact.input
    RunArtifact.attempts RunArtifact.final].
  intros Ha Hrec. rewrite forallb_app. cbn [forallb]. rewrite Hrec.
  apply andb_prop in Ha as [Ha Hf]. apply andb_prop in Ha as [Hi Hrecs].
  now rewrite Hi, Hrecs, Hf.
Qed.

Lemma valid_set_final (f : FinalResult.t) (a : RunArtifact.t) :
  RunArtifact.valid a = true ->
  FinalResult.valid f = true ->
  RunArtifact.valid (Orchestrator.set_final f a) = true.
Proof.
  unfold RunArtifact.valid. cbn [Orchestrator.set_final RunArtifact.input
    RunArtifact.attempts RunArtifact.final valid_option].
  intros Ha Hf. apply andb_prop in Ha as [Ha _]. now rewrite Ha, Hf.
Qed.

Lemma valid_set_finished (t : Z) (a : RunArtifact.t) :
  RunArtifact.valid (Orchestrator.set_finished t a) = RunArtifact.valid a.
Proof. reflexivity. Qed.

Lemma valid_handle (x : exn) : FinalResult.valid (Orchestrator.handle x) = true.
Proof. reflexivity. Qed.

Section Validity.

Context {E : Type}.
Variable self : Orchestrator.t E.
Variable h : host.
Variable input_data : GeneratorInput.t.
Hypothesis Hagents : returns_validated self.

Lemma loop_graph_valid n cur s r s' :
  loop_graph self h input_data n cur s r s' ->
  1 <= n ->
  GeneratorOutput.valid cur = true ->
  RunArtifact.valid (Orchestrator.artifact s) = true ->
  RunArtifact.valid (Orchestrator.artifact s') = true /\
  (forall final_content final_review,
     r = Ok (Some final_content, final_review) ->
     GeneratorOutput.valid final_content = true).
Proof.
  destruct Hagents as (_ & Hrev & Href & _).
  induction 1 as [n cur s Hn | n cur s x e1 Hn Hr | n cur s rv e1 Hn Hr Hp
                  | n cur s rv e1 Hn Hr Hp | n cur s rv e1 Hn Hr Hp Hri
                  | n cur s rv e1 x e2 Hn Hr Hp Hri Hf
                  | n cur s rv e1 g e2 r s' Hn Hr Hp Hri Hf Hloop IH];
    intros H1 Hcur Ha.
  - split; [exact Ha |]. intros fc fr Heq. discriminate.
  - split; [exact Ha |]. intros fc fr Heq. discriminate.
  - split.
    + state_simpl. apply valid_append_attempt; [exact Ha |].
      unfold AttemptRecord.valid, turn_record.
      cbn [AttemptRecord.attempt AttemptRecord.draft AttemptRecord.review
           AttemptRecord.refined valid_option].
      rewrite Hcur, (Hrev _ _ _ _ _ Hr).
      replace (1 <=? n) with true by (symmetry; apply Z.leb_le; lia). reflexivity.
    + intros fc fr Heq. injection Heq as <- _. exact Hcur.
  - split.
    + state_simpl. apply valid_append_attempt; [exact Ha |].
      unfold AttemptRecord.valid, turn_record.
      cbn [AttemptRecord.attempt AttemptRecord.draft AttemptRecord.review
           AttemptRecord.refined valid_option].
      rewrite Hcur, (Hrev _ _ _ _ _ Hr).
      replace (1 <=? n) with true by (symmetry; apply Z.leb_le; lia). reflexivity.
    + intros fc fr Heq. discriminate.
  - split; [exact Ha |]. intros fc fr Heq. discriminate.
  - split; [exact Ha |]. intros fc fr Heq. discriminate.
  - apply IH; [lia | exact (Href _ _ _ _ Hf) |].
    state_simpl. apply valid_append_attempt; [exact Ha |].
    unfold AttemptRecord.valid, Orchestrator.set_refined, turn_record.
    cbn [AttemptRecord.attempt AttemptRecord.draft AttemptRecord.review
         AttemptRecord.refined valid_option].
    rewrite Hcur, (Hrev _ _ _ _ _ Hr), (Href _ _ _ _ Hf).
    replace (1 <=? n) with true by (symmetry; apply Z.leb_le; lia). reflexivity.
Qed.

Lemma body_graph_valid s rb sb :
  body_graph self h input_data s rb sb ->
  RunArtifact.valid (Orchestrator.artifact s) = true ->
  RunArtifact.valid (Orchestrator.artifact (handled rb sb)) = true.
Proof.
  destruct Hagents as (Hgen & _ & _ & Htag).
  intros Hbody Ha.
  inversion Hbody as [x e1 Hg | g e1 x s2 Hg Hloop
                      | g e1 fc fr s2 x e3 Hg Hloop Ht
                      | g e1 fc fr s2 tags e3 Hg Hloop Ht
                      | g e1 fr s2 Hg Hloop]; subst.
  - state_simpl. apply valid_set_final; [exact Ha | apply valid_handle].
  - destruct (loop_graph_valid _ _ _ _ _ Hloop ltac:(lia) (Hgen _ _ _ _ Hg) Ha) as [Ha2 _].
    state_simpl. apply valid_set_final; [exact Ha2 | apply valid_handle].
  - destruct (loop_graph_valid _ _ _ _ _ Hloop ltac:(lia) (Hgen _ _ _ _ Hg) Ha) as [Ha2 _].
    state_simpl. apply valid_set_final; [exact Ha2 | apply valid_handle].
  - destruct (loop_graph_valid _ _ _ _ _ Hloop ltac:(lia) (Hgen _ _ _ _ Hg) Ha) as [Ha2 Hfc].
    state_simpl. apply valid_set_final; [exact Ha2 |].
    unfold FinalResult.valid, approved_with.
    cbn [FinalResult.content FinalResult.tags valid_option].
    now rewrite (Hfc _ _ eq_refl), (Htag _ _ _ _ _ Ht).
  - destruct (loop_graph_valid _ _ _ _ _ Hloop ltac:(lia) (Hgen _ _ _ _ Hg) Ha) as [Ha2 _].
    state_simpl. apply valid_set_final; [exact Ha2 | reflexivity].
Qed.

End Validity.

(** Every run on a valid request, by agents whose results satisfy their
    models, returns an artifact that satisfies the constraints of
    [RunArtifact] and is finalized: the artifacts [ArtifactRepository.save]
    is handed are of the kind it reads back unchanged. *)
Theorem run_artifact_is_valid {E : Type} (self : Orchestrator.t E) (h : host)
  (input_data : GeneratorInput.t) (user_id : option string) (e : E) :
  returns_validated self ->
  GeneratorInput.valid input_data = true ->
  exists a : RunArtifact.t,
    Orchestrator.run self h input_data user_id e = Ok a /\
    RunArtifact.valid a = true /\
    RunArtifact.final a <> None /\
    Timestamps.finished_at (RunArtifact.timestamps a) <> None.
Proof.
  intros Hagents Hin.
  destruct (exec_anatomy self h input_data user_id e) as (rb & sb & _ & Hbody & Hexec).
  exists (Orchestrator.artifact (closed_out h (handled rb sb))).
  split; [unfold Orchestrator.run; now rewrite Hexec |].
  assert (Hstart : RunArtifact.valid
                     (Orchestrator.artifact (Orchestrator.start h input_data user_id e)) = true).
  { unfold RunArtifact.valid. cbn [Orchestrator.start Orchestrator.artifact
      RunArtifact.input RunArtifact.attempts RunArtifact.final forallb valid_option].
    now rewrite Hin. }
  pose proof (body_graph_valid self h input_data Hagents _ _ _ Hbody Hstart) as Hvalid.
  split; [| split].
  - unfold closed_out.
    cbn [Orchestrator.artifact Orchestrator.with_artifact Orchestrator.tick].
    rewrite valid_set_finished. exact Hvalid.
  - inversion Hbody; subst; state_simpl; discriminate.
  - state_simpl. discriminate.
Qed.

(** The agents as [Orchestrator()] builds them return validated results
    when the output models accept only what satisfies their constraints. *)
Lemma run_returns_parsed {I O : Type} (self : BaseAgent.t I O) (input_data : I)
  (max_retries : py_value) (w w' : world) (v : O) :
  BaseAgent.run self input_data max_retries w = (Ok v, w') ->
  exists raw, BaseAgent.output_schema self raw = Parsed v.
Proof.
  unfold BaseAgent.run. unfold bind at 1, lift_res.
  destruct (BaseAgent._build_user_prompt self input_data) as [prompt | x]; [| discriminate].
  destruct max_retries as [max_retries | cls]; [| discriminate].
  unfold bind at 1.
  generalize (range (max_retries + 1)) (@None string).
  intros rng. revert w.
  induction rng as [| attempt rest IH]; intros w last.
  - cbn [BaseAgent.run_loop ret]. destruct last; discriminate.
  - rewrite run_loop_cons. unfold bind, BaseAgent._call_llm, lift_res.
    destruct (BaseAgent.client self (llm_calls w)) as [msg | text].
    + destruct (negb true || (max_retries <=? attempt)); [discriminate | apply IH].
    + unfold BaseAgent._parse_and_validate.
      destruct (BaseAgent.output_schema self text) as [msg | msg | x | v0] eqn:Hs.
      * destruct (negb true || (max_retries <=? attempt)); [discriminate | apply IH].
      * destruct (negb true || (max_retries <=? attempt)); [discriminate | apply IH].
      * destruct x as [m a rc | | | |]; try discriminate.
        destruct (negb rc || (max_retries <=? attempt)); [discriminate | apply IH].
      * intros H. injection H as <- _. now exists text.
Qed.

Lemma shipped_returns_validated (client : nat -> completion) (w : wording)
  (schema_G : string -> parsed GeneratorOutput.t)
  (schema_R : string -> parsed ReviewerOutput.t)
  (schema_T : string -> parsed TaggerOutput.t) :
  validates schema_G GeneratorOutput.valid ->
  validates schema_R ReviewerOutput.valid ->
  validates schema_T TaggerOutput.valid ->
  returns_validated (Orchestrator.__init__ client w schema_G schema_R schema_T).
Proof.
  intros HG HR HT. repeat split.
  - intros input_data e g e' Hrun.
    apply run_returns_parsed in Hrun as [raw Hraw]. exact (HG _ _ Hraw).
  - intros input_data content e rv e' Hrun.
    cbn [Orchestrator.__init__ Orchestrator.reviewer_review] in Hrun.
    unfold ReviewerAgent.review in Hrun. unfold bind, lift_res in Hrun.
    destruct (BaseAgent.run _ _ _ e) as [[result | x] e1] eqn:Hbase; [| discriminate].
    apply run_returns_parsed in Hbase as [raw Hraw]. apply HR in Hraw.
    unfold ReviewerAgent._validate_pass_decision in Hrun.
    destruct (ReviewerAgent.check_thresholds _ _ _ _) as [[sp rs] | x]; [| discriminate].
    destruct (Qlt_bool _ _);
      destruct (Bool.eqb _ _); injection Hrun as <- _; exact Hraw.
  - intros refiner_input e g e' Hrun.
    apply run_returns_parsed in Hrun as [raw Hraw]. exact (HG _ _ Hraw).
  - intros input_data content e tags e' Hrun.
    apply run_returns_parsed in Hrun as [raw Hraw]. exact (HT _ _ Hraw).
Qed.
(** ** The requests of an agent and the errors it raises *)

(** Every attempt of the loop of [run] sends one request, so the loop
    sends at most one request for each attempt number it is given, and at
    least one when it is given any. *)
Lemma run_loop_requests {I O : Type} (self : BaseAgent.t I O) (sp up : string)
  (max_retries : Z) :
  forall (rng : list Z) (last : option string) (w w' : world) (r : res (O + option string)),
    BaseAgent.run_loop self sp up max_retries rng last w = (r, w') ->
    (llm_calls w <= llm_calls w' <= llm_calls w + List.length rng)%nat /\
    (rng <> [] -> (llm_calls w < llm_calls w')%nat).
Proof.
  induction rng as [| attempt rest IH]; intros last w w' r H.
  - cbn in H. injection H as <- <-. split; [lia | congruence].
  - rewrite run_loop_cons in H. unfold bind, BaseAgent._call_llm, lift_res in H.
    cbn [List.length].
    assert (Hrest : forall m,
              BaseAgent.run_loop self sp up max_retries rest (Some m)
                {| llm_calls := S (llm_calls w) |} = (r, w') ->
              (llm_calls w <= llm_calls w' <= llm_calls w + S (List.length rest))%nat /\
              (attempt :: rest <> [] -> (llm_calls w < llm_calls w')%nat)).
    { intros m Hm. apply IH in Hm. cbn [llm_calls] in Hm. split; [lia | intros _; lia]. }
    assert (Hstop : forall r0 : res (O + option string),
              (r0, {| llm_calls := S (llm_calls w) |}) = (r, w') ->
              (llm_calls w <= llm_calls w' <= llm_calls w + S (List.length rest))%nat /\
              (attempt :: rest <> [] -> (llm_calls w < llm_calls w')%nat)).
    { intros r0 Hr0. injection Hr0 as _ <-. cbn [llm_calls]. split; [lia | intros _; lia]. }
    destruct (BaseAgent.client self (llm_calls w)) as [msg | text].
    + destruct (negb true || (max_retries <=? attempt)); eauto.
    + destruct (BaseAgent._parse_and_validate self text) as [v | x]; [eauto |].
      destruct x as [m a rc | | | |]; eauto.
      destruct (negb rc || (max_retries <=? attempt)); eauto.
Qed.

(** The loop of [run] lets no [AgentError] through: it catches every one,
    recoverable or not. *)
Lemma run_loop_raises_no_AgentError {I O : Type} (self : BaseAgent.t I O) (sp up : string)
  (max_retries : Z) :
  forall (rng : list Z) (last : option string) (w w' : world) (x : exn),
    BaseAgent.run_loop self sp up max_retries rng last w = (Raise x, w') ->
    is_AgentError x = false.
Proof.
  induction rng as [| attempt rest IH]; intros last w w' x H.
  - discriminate H.
  - rewrite run_loop_cons in H. unfold bind, BaseAgent._call_llm, lift_res in H.
    destruct (BaseAgent.client self (llm_calls w)) as [msg | text].
    + destruct (negb true || (max_retries <=? attempt)); [discriminate H | eauto].
    + destruct (BaseAgent._parse_and_validate self text) as [v | y]; [discriminate H |].
      destruct y as [m a rc | | | |];
        try (injection H as <- _; reflexivity).
      destruct (negb rc || (max_retries <=? attempt)); [discriminate H | eauto].
Qed.

(** However its attempts end, [run] with the retry budget [max_retries]
    sends at most [max_retries + 1] requests; it sends at least one when
    its prompt is built and the budget is not negative, and none when the
    building of its prompt raises. *)
Theorem run_request_budget {I O : Type} (self : BaseAgent.t I O) (input_data : I)
  (max_retries : Z) (w w' : world) (r : res O) :
  BaseAgent.run self input_data (PyInt max_retries) w = (r, w') ->
  (llm_calls w <= llm_calls w')%nat /\
  Z.of_nat (llm_calls w' - llm_calls w) <= Z.max 0 (max_retries + 1) /\
  ((exists prompt, BaseAgent._build_user_prompt self input_data = Ok prompt) ->
   0 <= max_retries -> (llm_calls w < llm_calls w')%nat) /\
  ((exists x, BaseAgent._build_user_prompt self input_data = Raise x) -> w' = w).
Proof.
  unfold BaseAgent.run. unfold bind at 1, lift_res.
  destruct (BaseAgent._build_user_prompt self input_data) as [prompt | x] eqn:Hprompt.
  - unfold bind at 1.
    destruct (BaseAgent.run_loop self _ prompt max_retries (range (max_retries + 1)) None w)
      as [rl wl] eqn:Hloop.
    apply run_loop_requests in Hloop. destruct Hloop as [Hbound Hsome].
    unfold range in Hbound, Hsome. rewrite length_map, length_seq in Hbound.
    intros H.
    assert (Hw : wl = w').
    { destruct rl as [[v | [m |]] | y]; cbn in H; now injection H. }
    subst wl. split; [lia |]. split; [lia |]. split.
    + intros _ Hmax. apply Hsome.
      replace (Z.to_nat (max_retries + 1)) with (S (Z.to_nat max_retries)) by lia.
      discriminate.
    + intros [y Hy]. discriminate Hy.
  - intros H. injection H as _ <-. split; [lia |]. split; [lia |]. split.
    + intros [prompt Hp]. discriminate Hp.
    + reflexivity.
Qed.

(** When the loop of [run] ends on a caught error, every request it sent
    failed on an [AgentError], and the message it ends with is that of the
    failure of the last request it sent (the one it was entered with, when
    it sent none). *)
Lemma run_loop_last_failure {I O : Type} (self : BaseAgent.t I O) (sp up : string)
  (max_retries : Z) :
  forall (rng : list Z) (last : option string) (w w' : world) (m : string),
    BaseAgent.run_loop self sp up max_retries rng last w = (Ok (inr (Some m)), w') ->
    (forall k, (llm_calls w <= k < llm_calls w')%nat -> failure_message self k <> None) /\
    ((w' = w /\ last = Some m) \/
     ((llm_calls w < llm_calls w')%nat /\
      failure_message self (llm_calls w' - 1) = Some m)).
Proof.
  induction rng as [| attempt rest IH]; intros last w w' m H.
  - cbn in H. injection H as -> <-. split; [intros k Hk; lia | now left].
  - rewrite run_loop_cons in H. unfold bind, BaseAgent._call_llm, lift_res in H.
    assert (Hstop : forall m0,
              failure_message self (llm_calls w) = Some m0 ->
              (Ok (inr (Some m0)) : res (O + option string),
               {| llm_calls := S (llm_calls w) |}) = (Ok (inr (Some m)), w') ->
              (forall k, (llm_calls w <= k < llm_calls w')%nat ->
                         failure_message self k <> None) /\
              ((w' = w /\ last = Some m) \/
               ((llm_calls w < llm_calls w')%nat /\
                failure_message self (llm_calls w' - 1) = Some m))).
    { intros m0 Hm0 Heq. injection Heq as <- <-. cbn [llm_calls]. split.
      - intros k Hk. replace k with (llm_calls w) by lia. congruence.
      - right. split; [lia |].
        replace (S (llm_calls w) - 1)%nat with (llm_calls w) by lia. exact Hm0. }
    assert (Hrest : forall m0,
              failure_message self (llm_calls w) = Some m0 ->
              BaseAgent.run_loop self sp up max_retries rest (Some m0)
                {| llm_calls := S (llm_calls w) |} = (Ok (inr (Some m)), w') ->
              (forall k, (llm_calls w <= k < llm_calls w')%nat ->
                         failure_message self k <> None) /\
              ((w' = w /\ last = Some m) \/
               ((llm_calls w < llm_calls w')%nat /\
                failure_message self (llm_calls w' - 1) = Some m))).
    { intros m0 Hm0 Hloop. pose proof (run_loop_requests _ _ _ _ _ _ _ _ _ Hloop) as [Hle _].
      apply IH in Hloop. cbn [llm_calls] in Hloop, Hle. destruct Hloop as [Hall Hlast]. split.
      - intros k Hk. destruct (Nat.eq_dec k (llm_calls w)) as [-> | Hne]; [congruence |].
        apply Hall. lia.
      - right. split; [lia |]. destruct Hlast as [[-> Hm] | [_ Hm]]; [| exact Hm].
        injection Hm as <-. cbn [llm_calls].
        replace (S (llm_calls w) - 1)%nat with (llm_calls w) by lia. exact Hm0. }
    unfold failure_message in Hstop, Hrest.
    destruct (BaseAgent.client self (llm_calls w)) as [msg | text].
    + destruct (negb true || (max_retries <=? attempt)); eauto.
    + destruct (BaseAgent._parse_and_validate self text) as [v | x]; [discriminate H |].
      destruct x as [m0 a rc | | | |]; try discriminate H.
      destruct (negb rc || (max_retries <=? attempt)); eauto.
Qed.

(** An [AgentError] that [run] raises is terminal: it is not recoverable,
    it names the agent, and its message gives [max_retries + 1] as the
    number of attempts, followed by the message of the failure of the last
    request the run sent; every request of such a run failed on an
    [AgentError], and recoverable errors do not leave [run]. *)
Theorem run_raises_only_terminal_errors {I O : Type} (self : BaseAgent.t I O)
  (input_data : I) (prompt : string) (max_retries : Z) (w w' : world)
  (message agent_name : string) (recoverable : bool) :
  BaseAgent._build_user_prompt self input_data = Ok prompt ->
  BaseAgent.run self input_data (PyInt max_retries) w =
    (Raise (AgentError message agent_name recoverable), w') ->
  recoverable = false /\
  agent_name = BaseAgent.name self /\
  0 <= max_retries /\
  (llm_calls w < llm_calls w')%nat /\
  (forall k, (llm_calls w <= k < llm_calls w')%nat -> failure_message self k <> None) /\
  exists last_message,
    failure_message self (llm_calls w' - 1) = Some last_message /\
    message = "Failed after " ++ str_int (max_retries + 1) ++ " attempts. Last error: " ++
              last_message.
Proof.
  intros Hprompt. unfold BaseAgent.run. rewrite Hprompt.
  unfold bind at 1, lift_res. unfold bind at 1.
  destruct (BaseAgent.run_loop self _ prompt max_retries (range (max_retries + 1)) None w)
    as [rl wl] eqn:Hloop.
  destruct rl as [[v | [m |]] | y]; cbn; intros H; try discriminate H.
  - injection H as <- <- <- <-. split; [reflexivity |]. split; [reflexivity |]. split.
    + destruct (Z_lt_le_dec max_retries 0) as [Hneg | Hpos]; [| exact Hpos].
      unfold range in Hloop.
      replace (Z.to_nat (max_retries + 1)) with 0%nat in Hloop by lia.
      discriminate Hloop.
    + apply run_loop_last_failure in Hloop.
      destruct Hloop as [Hall [[_ Hnone] | [Hlt Hlast]]]; [discriminate Hnone |].
      split; [exact Hlt |]. split; [exact Hall |]. now exists m.
  - injection H as -> _. apply run_loop_raises_no_AgentError in Hloop. discriminate Hloop.
Qed.

(** With a negative retry budget the loop of [run] is not entered: no
    request is sent, and the [raise] that follows the loop fails on
    [last_error.message], so that an [AttributeError] leaves [run], not an
    [AgentError]. *)
Theorem run_negative_budget {I O : Type} (self : BaseAgent.t I O) (input_data : I)
  (prompt : string) (max_retries : Z) (w : world) :
  max_retries < 0 ->
  BaseAgent._build_user_prompt self input_data = Ok prompt ->
  BaseAgent.run self input_data (PyInt max_retries) w =
    (Raise (AttributeError "'NoneType' object has no attribute 'message'"), w).
Proof.
  intros Hneg Hprompt. unfold BaseAgent.run. rewrite Hprompt.
  unfold bind at 1, lift_res. unfold range.
  replace (Z.to_nat (max_retries + 1)) with 0%nat by lia. reflexivity.
Qed.

(** ** The reviewer's reconciliation, again *)

(** Reconciling a reconciled result changes nothing. *)
Theorem validate_pass_decision_idempotent (self : ReviewerAgent.t)
  (result r : ReviewerOutput.t) :
  ReviewerAgent._validate_pass_decision self result = Ok r ->
  ReviewerAgent._validate_pass_decision self r = Ok r.
Proof.
  unfold ReviewerAgent._validate_pass_decision. intros H.
  destruct (ReviewerAgent.check_thresholds (ReviewerOutput.scores result)
              (ReviewerAgent.thresholds self) true []) as [[sp rs] | e] eqn:Hc;
    [| discriminate H].
  destruct (Qlt_bool (ReviewerAgent.avg_score (ReviewerOutput.scores result))
              (ReviewerAgent.min_average self)) eqn:Havg.
  - destruct (Bool.eqb (ReviewerOutput.pass_decision result) false) eqn:Heq;
      injection H as <-.
    + now rewrite Hc, Havg, Heq.
    + cbn [ReviewerOutput.scores ReviewerOutput.pass_decision]. now rewrite Hc, Havg.
  - destruct (Bool.eqb (ReviewerOutput.pass_decision result) sp) eqn:Heq;
      injection H as <-.
    + now rewrite Hc, Havg, Heq.
    + cbn [ReviewerOutput.scores ReviewerOutput.pass_decision].
      rewrite Hc, Havg, eqb_reflx. reflexivity.
Qed.

(** With the thresholds and the minimum average of [config.py], scores
    that meet the four thresholds sum to 16 at least, so their mean meets
    the minimum average of 4.0: the decision the shipped reviewer stores
    is true iff the four thresholds are met, whatever the scores and the
    reported decision. *)
Theorem configured_average_never_decides (client : nat -> completion) (w : wording)
  (schema : string -> parsed ReviewerOutput.t) (result : ReviewerOutput.t) :
  exists r : ReviewerOutput.t,
    ReviewerAgent._validate_pass_decision (ReviewerAgent.__init__ client w schema) result =
      Ok r /\
    (ReviewerOutput.pass_decision r = true <->
     4 <= ReviewScore.age_appropriateness (ReviewerOutput.scores result) /\
     5 <= ReviewScore.correctness (ReviewerOutput.scores result) /\
     4 <= ReviewScore.clarity (ReviewerOutput.scores result) /\
     3 <= ReviewScore.coverage (ReviewerOutput.scores result)).
Proof.
  destruct (ReviewerAgent._validate_pass_decision
              (ReviewerAgent.__init__ client w schema) result) as [r | e] eqn:Hv.
  - exists r. split; [reflexivity |].
    apply validate_pass_decision_ok in Hv. destruct Hv as (Hd & _). rewrite Hd.
    unfold recomputed_decision.
    cbn [ReviewerAgent.__init__ ReviewerAgent.thresholds ReviewerAgent.min_average].
    unfold Config.PASS_THRESHOLDS, Config.MIN_AVERAGE_SCORE.
    destruct (ReviewerOutput.scores result) as [a c cl cv].
    unfold violated, score_of, ReviewerAgent.avg_score, Qle_bool.
    cbn -[Z.ltb Z.add Z.leb Z.mul].
    rewrite andb_true_iff, negb_true_iff, !orb_false_iff, !Z.ltb_ge, Z.leb_le. lia.
  - exfalso. unfold ReviewerAgent._validate_pass_decision in Hv.
    cbn in Hv.
    destruct (_ <? 4); destruct (_ <? 5); destruct (_ <? 4); destruct (_ <? 3);
      cbn in Hv; destruct (Qlt_bool _ _); destruct (Bool.eqb _ _); discriminate Hv.
Qed.
(** ** The order of the calls of a run *)

Lemma last_cons {A : Type} (l : list A) :
  forall a d : A, last (a :: l) d = last l a.
Proof.
  induction l as [| b l IH]; intros a d; [reflexivity |].
  change (last (a :: b :: l) d) with (last (b :: l) d). now rewrite !IH.
Qed.

Lemma last_call_cons (prev : option Orchestrator.call) (c : Orchestrator.call)
  (cs : list Orchestrator.call) :
  last_call prev (c :: cs) = last_call (Some c) cs.
Proof. unfold last_call. cbn [map]. apply last_cons. Qed.

Lemma sequenced_app (input_data : GeneratorInput.t) (cs1 cs2 : list Orchestrator.call) :
  forall prev,
    sequenced input_data prev (cs1 ++ cs2) <->
    sequenced input_data prev cs1 /\ sequenced input_data (last_call prev cs1) cs2.
Proof.
  induction cs1 as [| c cs1 IH]; intros prev.
  - cbn. tauto.
  - cbn [app sequenced]. rewrite IH, last_call_cons. tauto.
Qed.

(** The calls of a loop entered with the draft that the call before it
    returned are in order; when the loop is left with a final content, its
    last call is the review of that content, which passed. *)
Lemma loop_graph_sequenced {E : Type} (self : Orchestrator.t E) (h : host)
  (input_data : GeneratorInput.t) n cur s r s' :
  loop_graph self h input_data n cur s r s' ->
  exists cs,
    Orchestrator.calls s' = (Orchestrator.calls s ++ cs)%list /\
    forall prev, delivers prev cur ->
      sequenced input_data prev cs /\
      (forall final_content final_review,
         r = Ok (Some final_content, final_review) ->
         exists i rv,
           last_call prev cs =
             Some (Orchestrator.reviewer_called i final_content (Ok rv)) /\
           ReviewerOutput.pass_decision rv = true).
Proof.
  assert (Hreview : forall prev cur outcome, delivers prev cur ->
            follows input_data prev (Orchestrator.reviewer_called input_data cur outcome)).
  { intros prev cur0 outcome [[i ->] | [ri ->]]; cbn; auto. }
  induction 1 as [n cur s Hn | n cur s x e1 Hn Hrev | n cur s rv e1 Hn Hrev Hp
                 | n cur s rv e1 Hn Hrev Hp | n cur s rv e1 Hn Hrev Hp Hv
                 | n cur s rv e1 x e2 Hn Hrev Hp Hv Href
                 | n cur s rv e1 g e2 r s' Hn Hrev Hp Hv Href Hloop IH].
  - exists []. rewrite app_nil_r. split; [reflexivity |]. intros prev _.
    split; [exact I |]. intros fc fr Heq. discriminate Heq.
  - exists [Orchestrator.reviewer_called input_data cur (Raise x)].
    split; [reflexivity |]. intros prev Hprev. split.
    + cbn [sequenced]. auto.
    + intros fc fr Heq. discriminate Heq.
  - exists [Orchestrator.reviewer_called input_data cur (Ok rv)].
    split; [reflexivity |]. intros prev Hprev. split.
    + cbn [sequenced]. auto.
    + intros fc fr Heq. injection Heq as <- _. exists input_data, rv. auto.
  - exists [Orchestrator.reviewer_called input_data cur (Ok rv)].
    split; [reflexivity |]. intros prev Hprev. split.
    + cbn [sequenced]. auto.
    + intros fc fr Heq. discriminate Heq.
  - exists [Orchestrator.reviewer_called input_data cur (Ok rv)].
    split; [reflexivity |]. intros prev Hprev. split.
    + cbn [sequenced]. auto.
    + intros fc fr Heq. discriminate Heq.
  - exists [Orchestrator.reviewer_called input_data cur (Ok rv);
            Orchestrator.refiner_called (turn_refiner_input input_data n cur rv) (Raise x)].
    split; [cbn; now rewrite <- app_assoc |]. intros prev Hprev. split.
    + cbn [sequenced]. split; [auto |]. split; [| exact I]. cbn. auto.
    + intros fc fr Heq. discriminate Heq.
  - destruct IH as (cs & Hcalls & IH).
    exists (Orchestrator.reviewer_called input_data cur (Ok rv) ::
            Orchestrator.refiner_called (turn_refiner_input input_data n cur rv) (Ok g) :: cs).
    split; [rewrite Hcalls; cbn; now rewrite <- !app_assoc |]. intros prev Hprev.
    destruct (IH (Some (Orchestrator.refiner_called
                          (turn_refiner_input input_data n cur rv) (Ok g))))
      as [Hseq Hlast].
    { right. eexists. reflexivity. }
    split.
    + cbn [sequenced]. split; [auto |]. split; [cbn; auto | exact Hseq].
    + intros fc fr Heq. rewrite !last_call_cons. exact (Hlast fc fr Heq).
Qed.

(** In every run the agents are called in order: the generator first and
    once, with the request; then reviews and refinements in turn, every
    review on the draft the call before it returned, every refinement
    after a failed review, on the reviewed draft with the feedback of
    that review; the tagger last and once at most, after a review that
    passed, on the reviewed draft.  A call that raised is the last call of
    its run. *)
Theorem calls_are_sequenced {E : Type} (self : Orchestrator.t E) (h : host)
  (input_data : GeneratorInput.t) (user_id : option string) (e : E) :
  exists s : Orchestrator.state E,
    Orchestrator.exec self h input_data user_id e = (Ok tt, s) /\
    sequenced input_data None (Orchestrator.calls s) /\
    exists outcome rest,
      Orchestrator.calls s = Orchestrator.generator_called input_data outcome :: rest.
Proof.
  destruct (exec_anatomy self h input_data user_id e) as (rb & sb & _ & Hbody & Hexec).
  exists (closed_out h (handled rb sb)). split; [exact Hexec |].
  assert (Hcalls : Orchestrator.calls (closed_out h (handled rb sb)) = Orchestrator.calls sb).
  { destruct rb; reflexivity. }
  rewrite Hcalls.
  inversion Hbody as [x e1 Hgen | g e1 x s2 Hgen Hloop
                      | g e1 fc fr s2 x e3 Hgen Hloop Htag
                      | g e1 fc fr s2 tags e3 Hgen Hloop Htag
                      | g e1 fr s2 Hgen Hloop]; subst;
    try (destruct (loop_graph_sequenced _ _ _ _ _ _ _ _ Hloop) as (cs & Hcs & Hseq);
         destruct (Hseq (Some (Orchestrator.generator_called input_data (Ok g))))
           as [Hord Hlast]; [left; eexists; reflexivity |];
         state_simpl; cbn [app] in Hcs).
  - state_simpl. cbn [app sequenced follows]. split; [auto |]. eauto.
  - rewrite Hcs. cbn [sequenced follows]. split; [auto |]. eauto.
  - rewrite Hcs. cbn [app]. split; [| eauto].
    cbn [sequenced follows]. split; [reflexivity |].
    apply sequenced_app. split; [exact Hord |].
    destruct (Hlast fc fr eq_refl) as (i & rv & -> & Hp). cbn. auto.
  - rewrite Hcs. cbn [app]. split; [| eauto].
    cbn [sequenced follows]. split; [reflexivity |].
    apply sequenced_app. split; [exact Hord |].
    destruct (Hlast fc fr eq_refl) as (i & rv & -> & Hp). cbn. auto.
  - rewrite Hcs. cbn [sequenced follows]. split; [auto |]. eauto.
Qed.
(** ** How many attempts, and which *)

(** A loop entered at attempt [n] appends at most one record for each
    review it makes, and makes at most as many reviews as the ceiling and
    the bound of [RefinerInput] leave attempts. *)
Lemma loop_graph_bound {E : Type} (self : Orchestrator.t E) (h : host)
  (input_data : GeneratorInput.t) n cur s r s' :
  loop_graph self h input_data n cur s r s' ->
  1 <= n <= 3 ->
  exists cs,
    Orchestrator.calls s' = (Orchestrator.calls s ++ cs)%list /\
    len (RunArtifact.attempts (Orchestrator.artifact s)) <=
      len (RunArtifact.attempts (Orchestrator.artifact s')) /\
    len (RunArtifact.attempts (Orchestrator.artifact s')) -
      len (RunArtifact.attempts (Orchestrator.artifact s)) <= len (reviewer_outcomes cs) /\
    len (reviewer_outcomes cs) <=
      Z.max 0 (Z.min (Orchestrator.max_refinements self + 2 - n) (4 - n)).
Proof.
  induction 1 as [n cur s Hn | n cur s x e1 Hn Hrev | n cur s rv e1 Hn Hrev Hp
                 | n cur s rv e1 Hn Hrev Hp | n cur s rv e1 Hn Hrev Hp Hv
                 | n cur s rv e1 x e2 Hn Hrev Hp Hv Href
                 | n cur s rv e1 g e2 r s' Hn Hrev Hp Hv Href Hloop IH]; intros H1.
  - exists []. rewrite app_nil_r. split; [reflexivity |]. unfold len, reviewer_outcomes. cbn [flat_map app List.length]. lia.
  - exists [Orchestrator.reviewer_called input_data cur (Raise x)].
    split; [reflexivity |]. state_simpl. unfold len, reviewer_outcomes. cbn [flat_map app List.length]. lia.
  - exists [Orchestrator.reviewer_called input_data cur (Ok rv)].
    split; [reflexivity |]. state_simpl. len_simpl. unfold reviewer_outcomes. cbn [flat_map app List.length]. lia.
  - exists [Orchestrator.reviewer_called input_data cur (Ok rv)].
    split; [reflexivity |]. state_simpl. len_simpl. unfold reviewer_outcomes. cbn [flat_map app List.length]. lia.
  - exists [Orchestrator.reviewer_called input_data cur (Ok rv)].
    split; [reflexivity |]. state_simpl. unfold len, reviewer_outcomes. cbn [flat_map app List.length]. lia.
  - exists [Orchestrator.reviewer_called input_data cur (Ok rv);
            Orchestrator.refiner_called (turn_refiner_input input_data n cur rv) (Raise x)].
    split; [cbn; now rewrite <- app_assoc |]. state_simpl. unfold len, reviewer_outcomes. cbn [flat_map app List.length]. lia.
  - unfold RefinerInput.valid, between in Hv. cbn in Hv.
    apply andb_true_iff in Hv. rewrite Z.leb_le, Z.leb_le in Hv.
    destruct (IH ltac:(lia)) as (cs & Hcalls & Hle & Hgrow & Hrevs).
    exists (Orchestrator.reviewer_called input_data cur (Ok rv) ::
            Orchestrator.refiner_called (turn_refiner_input input_data n cur rv) (Ok g) :: cs).
    split; [rewrite Hcalls; cbn; now rewrite <- !app_assoc |].
    revert Hle Hgrow Hrevs. state_simpl. unfold reviewer_outcomes.
    cbn [flat_map app]. len_simpl. lia.
Qed.

(** In every run the attempt numbers of the records are 1, 2, ... without
    a gap; there is at most one record for each review made; and at most
    [ceiling + 1] reviews are made, and never more than three, whatever
    the ceiling. *)
Theorem attempts_are_numbered_and_bounded {E : Type} (self : Orchestrator.t E) (h : host)
  (input_data : GeneratorInput.t) (user_id : option string) (e : E) :
  exists s : Orchestrator.state E,
    Orchestrator.exec self h input_data user_id e = (Ok tt, s) /\
    map AttemptRecord.attempt (RunArtifact.attempts (Orchestrator.artifact s)) =
      numbered_from 1 (List.length (RunArtifact.attempts (Orchestrator.artifact s))) /\
    len (RunArtifact.attempts (Orchestrator.artifact s)) <=
      len (reviewer_outcomes (Orchestrator.calls s)) /\
    len (reviewer_outcomes (Orchestrator.calls s)) <=
      Z.max 0 (Orchestrator.max_refinements self + 1) /\
    len (reviewer_outcomes (Orchestrator.calls s)) <= 3.
Proof.
  destruct (exec_anatomy self h input_data user_id e) as (rb & sb & _ & Hbody & Hexec).
  exists (closed_out h (handled rb sb)). split; [exact Hexec |].
  assert (Hcalls : Orchestrator.calls (closed_out h (handled rb sb)) = Orchestrator.calls sb).
  { destruct rb; reflexivity. }
  assert (Hatt : RunArtifact.attempts (Orchestrator.artifact (closed_out h (handled rb sb))) =
                 RunArtifact.attempts (Orchestrator.artifact sb)).
  { destruct rb; reflexivity. }
  rewrite Hcalls, Hatt.
  inversion Hbody as [x e1 Hgen | g e1 x s2 Hgen Hloop
                      | g e1 fc fr s2 x e3 Hgen Hloop Htag
                      | g e1 fc fr s2 tags e3 Hgen Hloop Htag
                      | g e1 fr s2 Hgen Hloop]; subst;
    try (destruct (loop_graph_bound _ _ _ _ _ _ _ _ Hloop ltac:(lia))
           as (cs & Hcs & _ & Hgrow & Hrevs);
         destruct (loop_from_start _ _ _ _ _ _ _ _ _ Hloop)
           as (recs & cs' & Htrail & _ & _ & Hext & _);
         apply trail_numbers in Htrail;
         revert Hgrow; state_simpl; rewrite Hext; state_simpl; cbn [app] in *;
         intros Hgrow; rewrite Hcs).
  - state_simpl. unfold len, reviewer_outcomes, numbered_from.
    cbn [flat_map app List.length map seq]. split; [reflexivity | lia].
  - split; [exact Htrail |]. revert Hgrow Hrevs. unfold reviewer_outcomes, len.
    cbn [flat_map app List.length]. lia.
  - split; [exact Htrail |]. revert Hgrow Hrevs. unfold reviewer_outcomes, len.
    rewrite flat_map_app. cbn [flat_map app List.length]. rewrite app_nil_r. lia.
  - split; [exact Htrail |]. revert Hgrow Hrevs. unfold reviewer_outcomes, len.
    rewrite flat_map_app. cbn [flat_map app List.length]. rewrite app_nil_r. lia.
  - split; [exact Htrail |]. revert Hgrow Hrevs. unfold reviewer_outcomes, len.
    cbn [flat_map app List.length]. lia.
Qed.
(** ** The final result *)

Lemma prefix_app (p s : string) : String.prefix p (p ++ s) = true.
Proof.
  induction p as [| c p IH]; cbn.
  - now destruct s.
  - destruct (Ascii.ascii_dec c c) as [_ | Hne]; [exact IH | now elim Hne].
Qed.

Lemma tagger_calls_generator input_data outcome (cs : list Orchestrator.call) :
  tagger_calls (Orchestrator.generator_called input_data outcome :: cs) = tagger_calls cs.
Proof. reflexivity. Qed.

(** In the records of a loop every review but the last failed. *)
Lemma trail_all_but_last_failed ceiling n cur recs r :
  trail ceiling n cur recs r ->
  forall i rec,
    nth_error recs i = Some rec -> (S i < List.length recs)%nat ->
    ReviewerOutput.pass_decision (AttemptRecord.review rec) = false.
Proof.
  induction 1 as [ | | n cur rec0 Hn Ha Hd Hrf Hp | n cur rec0 Hn Ha Hd Hrf Hp
                 | n cur rec0 g recs r Hn Ha Hd Hrf Hp Ht IH]; intros i rec Hi Hlt.
  - cbn in Hlt. lia.
  - cbn in Hlt. lia.
  - cbn in Hlt. lia.
  - cbn in Hlt. lia.
  - destruct i as [| i].
    + cbn in Hi. injection Hi as <-. exact Hp.
    + cbn in Hi, Hlt. apply (IH i rec Hi). lia.
Qed.

(** In every artifact only the review of the last attempt record can have
    passed.  And the run is approved iff the review of its last record
    passed and the one call of the tagger returned tags; the final result
    is then that record's draft with those tags. *)
Theorem only_the_last_review_passes {E : Type} (self : Orchestrator.t E) (h : host)
  (input_data : GeneratorInput.t) (user_id : option string) (e : E) :
  exists (s : Orchestrator.state E) (f : FinalResult.t),
    Orchestrator.exec self h input_data user_id e = (Ok tt, s) /\
    RunArtifact.final (Orchestrator.artifact s) = Some f /\
    (forall i rec,
       nth_error (RunArtifact.attempts (Orchestrator.artifact s)) i = Some rec ->
       (S i < List.length (RunArtifact.attempts (Orchestrator.artifact s)))%nat ->
       ReviewerOutput.pass_decision (AttemptRecord.review rec) = false) /\
    (FinalResult.status f = approved <->
     exists init rec tags,
       RunArtifact.attempts (Orchestrator.artifact s) = (init ++ [rec])%list /\
       ReviewerOutput.pass_decision (AttemptRecord.review rec) = true /\
       tagger_calls (Orchestrator.calls s) = [(AttemptRecord.draft rec, Ok tags)] /\
       f = {| FinalResult.status := approved;
              FinalResult.content := Some (AttemptRecord.draft rec);
              FinalResult.tags := Some tags;
              FinalResult.rejection_reason := None |}).
Proof.
  destruct (run_anatomy self h input_data user_id e)
    as (s & recs & f & k & Hexec & _ & Hout & _ & Hart).
  exists s, f. split; [exact Hexec |]. rewrite Hart. state_simpl.
  split; [reflexivity |].
  destruct Hout as [x | g recs cs x Ht (Htag & _) | g recs cs fc fr x Ht (Htag & _)
                    | g recs cs fc fr tags Ht (Htag & _) | g recs cs fr Ht (Htag & _)].
  - split; [intros i rec Hi; destruct i; discriminate Hi |].
    split; [discriminate |]. intros (init & rec & tags & Hrecs & _).
    now destruct init.
  - split; [exact (trail_all_but_last_failed _ _ _ _ _ Ht) |].
    split; [discriminate |]. intros (init & rec & tags & _ & _ & Hcalls & _).
    rewrite tagger_calls_generator, Htag in Hcalls. discriminate Hcalls.
  - split; [exact (trail_all_but_last_failed _ _ _ _ _ Ht) |].
    split; [discriminate |]. intros (init & rec & tags & _ & _ & Hcalls & _).
    rewrite tagger_calls_generator, tagger_calls_app, Htag in Hcalls.
    discriminate Hcalls.
  - split; [exact (trail_all_but_last_failed _ _ _ _ _ Ht) |].
    split; [| reflexivity]. intros _.
    destruct (trail_passed _ _ _ _ _ _ Ht) as (init & rec & -> & <- & _ & Hp & _).
    exists init, rec, tags. split; [reflexivity |]. split; [exact Hp |].
    split; [| reflexivity].
    rewrite tagger_calls_generator, tagger_calls_app, Htag. reflexivity.
  - split; [exact (trail_all_but_last_failed _ _ _ _ _ Ht) |].
    split; [discriminate |]. intros (init & rec & tags & _ & _ & Hcalls & _).
    rewrite tagger_calls_generator, Htag in Hcalls. discriminate Hcalls.
Qed.

(** The final result of every run is of one of two kinds: approved, with
    content and tags and no rejection reason; or rejected, without content
    or tags and with a rejection reason, which opens with
    ["Failed review after "], ["Pipeline error: "] or
    ["Unexpected error: "]. *)
Theorem final_result_is_consistent {E : Type} (self : Orchestrator.t E) (h : host)
  (input_data : GeneratorInput.t) (user_id : option string) (e : E) :
  exists (a : RunArtifact.t) (f : FinalResult.t),
    Orchestrator.run self h input_data user_id e = Ok a /\
    RunArtifact.final a = Some f /\
    ((FinalResult.status f = approved /\
      FinalResult.content f <> None /\
      FinalResult.tags f <> None /\
      FinalResult.rejection_reason f = None)
     \/
     (FinalResult.status f = rejected /\
      FinalResult.content f = None /\
      FinalResult.tags f = None /\
      exists reason opening,
        FinalResult.rejection_reason f = Some reason /\
        In opening rejection_prefixes /\
        String.prefix opening reason = true)).
Proof.
  destruct (run_anatomy self h input_data user_id e)
    as (s & recs & f & k & _ & Hrun & Hout & _ & Hart).
  exists (Orchestrator.artifact s), f. split; [exact Hrun |]. rewrite Hart. state_simpl.
  split; [reflexivity |].
  assert (Hhandle : forall x,
    FinalResult.status (Orchestrator.handle x) = rejected /\
    FinalResult.content (Orchestrator.handle x) = None /\
    FinalResult.tags (Orchestrator.handle x) = None /\
    exists reason opening,
      FinalResult.rejection_reason (Orchestrator.handle x) = Some reason /\
      In opening rejection_prefixes /\ String.prefix opening reason = true).
  { intros x. repeat split. unfold Orchestrator.handle. cbn [FinalResult.rejection_reason].
    destruct (is_AgentError x); eexists; eexists;
      (split; [reflexivity |]); (split; [| apply prefix_app]); cbn; auto. }
  destruct Hout as [x | g recs cs x _ _ | g recs cs fc fr x _ _
                    | g recs cs fc fr tags _ _ | g recs cs fr _ _].
  - right. apply Hhandle.
  - right. apply Hhandle.
  - right. apply Hhandle.
  - left. repeat split; discriminate.
  - right. repeat split. unfold rejected_after. cbn [FinalResult.rejection_reason].
    eexists. eexists. split; [reflexivity |]. split; [| apply prefix_app]. cbn. auto.
Qed.

(** The artifact of every run records the request as it was made: the
    identifier drawn for the run, the user, the input unchanged, and no
    metadata; no step of the run changes them. *)
Theorem artifact_records_the_request {E : Type} (self : Orchestrator.t E) (h : host)
  (input_data : GeneratorInput.t) (user_id : option string) (e : E) :
  exists a : RunArtifact.t,
    Orchestrator.run self h input_data user_id e = Ok a /\
    RunArtifact.run_id a = uuid4 h /\
    RunArtifact.user_id a = user_id /\
    RunArtifact.input a = input_data /\
    RunArtifact.metadata a = [].
Proof.
  destruct (run_anatomy self h input_data user_id e)
    as (s & recs & f & k & _ & Hrun & _ & _ & Hart).
  exists (Orchestrator.artifact s). split; [exact Hrun |]. rewrite Hart. auto.
Qed.
(** ** The timestamps of the audit trail *)

(** The record of a turn is stamped with the reading of the clock taken
    when it is built: the records a loop appends carry consecutive
    readings, and the loop takes no fewer readings than it appends
    records. *)
Lemma loop_graph_timestamps {E : Type} (self : Orchestrator.t E) (h : host)
  (input_data : GeneratorInput.t) n cur s r s' :
  loop_graph self h input_data n cur s r s' ->
  exists recs,
    extends (Orchestrator.artifact s) (Orchestrator.artifact s') recs /\
    map AttemptRecord.timestamp recs =
      map (utcnow h) (seq (Orchestrator.clock_reads s) (List.length recs)) /\
    (Orchestrator.clock_reads s + List.length recs <= Orchestrator.clock_reads s')%nat.
Proof.
  induction 1 as [n cur s Hn | n cur s x e1 Hn Hrev | n cur s rv e1 Hn Hrev Hp
                 | n cur s rv e1 Hn Hrev Hp | n cur s rv e1 Hn Hrev Hp Hv
                 | n cur s rv e1 x e2 Hn Hrev Hp Hv Href
                 | n cur s rv e1 g e2 r s' Hn Hrev Hp Hv Href Hloop IH].
  - exists []. split; [apply extends_nil |]. cbn. split; [reflexivity | lia].
  - exists []. split; [apply extends_nil |]. cbn. split; [reflexivity | lia].
  - exists [turn_record h n cur rv s]. split; [apply extends_one |].
    cbn. split; [reflexivity | lia].
  - exists [turn_record h n cur rv s]. split; [apply extends_one |].
    cbn. split; [reflexivity | lia].
  - exists []. split; [apply extends_nil |]. cbn. split; [reflexivity | lia].
  - exists []. split; [apply extends_nil |]. cbn. split; [reflexivity | lia].
  - destruct IH as (recs & Hext & Hstamps & Hclock).
    exists (Orchestrator.set_refined (turn_record h n cur rv s) g :: recs).
    split; [now apply extends_cons |].
    revert Hstamps Hclock. state_simpl. intros Hstamps Hclock.
    cbn [map List.length seq]. rewrite Hstamps. split; [reflexivity | lia].
Qed.

(** In every artifact [started_at] is the first reading of the clock, the
    timestamp of the [i]-th attempt record is the reading number [i] after
    it, and [finished_at] is a later reading still.  So when the clock
    does not run backwards, the timestamps of the records do not decrease
    and lie between [started_at] and [finished_at]. *)
Theorem attempt_timestamps_are_ordered {E : Type} (self : Orchestrator.t E) (h : host)
  (input_data : GeneratorInput.t) (user_id : option string) (e : E) :
  exists (a : RunArtifact.t) (k : nat),
    Orchestrator.run self h input_data user_id e = Ok a /\
    Timestamps.started_at (RunArtifact.timestamps a) = utcnow h 0 /\
    map AttemptRecord.timestamp (RunArtifact.attempts a) =
      map (utcnow h) (seq 1 (List.length (RunArtifact.attempts a))) /\
    Timestamps.finished_at (RunArtifact.timestamps a) = Some (utcnow h k) /\
    (List.length (RunArtifact.attempts a) < k)%nat /\
    ((forall i j, (i <= j)%nat -> utcnow h i <= utcnow h j) ->
     (forall rec, In rec (RunArtifact.attempts a) ->
        utcnow h 0 <= AttemptRecord.timestamp rec <= utcnow h k) /\
     (forall i j rec rec',
        (i <= j)%nat ->
        nth_error (RunArtifact.attempts a) i = Some rec ->
        nth_error (RunArtifact.attempts a) j = Some rec' ->
        AttemptRecord.timestamp rec <= AttemptRecord.timestamp rec')).
Proof.
  destruct (exec_anatomy self h input_data user_id e) as (rb & sb & _ & Hbody & Hexec).
  assert (Hshape : exists recs,
            extends (Orchestrator.artifact (Orchestrator.start h input_data user_id e))
                    (Orchestrator.artifact
                       (Orchestrator.with_artifact
                          (fun a => {| RunArtifact.run_id := RunArtifact.run_id a;
                                       RunArtifact.user_id := RunArtifact.user_id a;
                                       RunArtifact.input := RunArtifact.input a;
                                       RunArtifact.attempts := RunArtifact.attempts a;
                                       RunArtifact.final := None;
                                       RunArtifact.timestamps := RunArtifact.timestamps a;
                                       RunArtifact.metadata := RunArtifact.metadata a |})
                          (handled rb sb))) recs /\
            map AttemptRecord.timestamp recs = map (utcnow h) (seq 1 (List.length recs)) /\
            (1 + List.length recs <= Orchestrator.clock_reads (handled rb sb))%nat).
  { inversion Hbody as [x e1 Hgen | g e1 x s2 Hgen Hloop
                        | g e1 fc fr s2 x e3 Hgen Hloop Htag
                        | g e1 fc fr s2 tags e3 Hgen Hloop Htag
                        | g e1 fr s2 Hgen Hloop]; subst;
      try (destruct (loop_graph_timestamps _ _ _ _ _ _ _ _ Hloop)
             as (recs & Hext & Hstamps & Hclock);
           revert Hstamps Hclock; state_simpl; intros Hstamps Hclock;
           exists recs; rewrite Hext; state_simpl; cbn [app];
           split; [reflexivity |]; split; [exact Hstamps | exact Hclock]).
    exists []. state_simpl. split; [reflexivity |]. cbn. split; [reflexivity | lia]. }
  destruct Hshape as (recs & Hext & Hstamps & Hclock).
  exists (Orchestrator.artifact (closed_out h (handled rb sb))),
         (Orchestrator.clock_reads (handled rb sb)).
  split; [unfold Orchestrator.run; now rewrite Hexec |].
  assert (Hatt : RunArtifact.attempts (Orchestrator.artifact (closed_out h (handled rb sb))) =
                 recs).
  { apply (f_equal RunArtifact.attempts) in Hext. revert Hext. state_simpl.
    cbn [app]. auto. }
  assert (Hstart : Timestamps.started_at
                     (RunArtifact.timestamps
                        (Orchestrator.artifact (closed_out h (handled rb sb)))) =
                   utcnow h 0).
  { apply (f_equal (fun a => Timestamps.started_at (RunArtifact.timestamps a))) in Hext.
    revert Hext. state_simpl. auto. }
  rewrite Hatt, Hstart. split; [reflexivity |]. split; [exact Hstamps |].
  split; [reflexivity |]. split; [lia |].
  intros Hmono.
  assert (Hnth : forall i rec, nth_error recs i = Some rec ->
                   AttemptRecord.timestamp rec = utcnow h (1 + i) /\
                   (i < List.length recs)%nat).
  { intros i rec Hi.
    assert (Hlt : (i < List.length recs)%nat) by (apply nth_error_Some; congruence).
    split; [| exact Hlt].
    apply (map_nth_error AttemptRecord.timestamp) in Hi. rewrite Hstamps in Hi.
    rewrite (map_nth_error (utcnow h) i (seq 1 (List.length recs)) (d := (1 + i)%nat)) in Hi.
    - now injection Hi.
    - rewrite nth_error_nth' with (d := O) by (rewrite length_seq; exact Hlt).
      now rewrite seq_nth. }
  split.
  - intros rec Hin. apply In_nth_error in Hin. destruct Hin as [i Hi].
    destruct (Hnth i rec Hi) as [-> Hlt]. split; apply Hmono; lia.
  - intros i j rec rec' Hij Hi Hj.
    destruct (Hnth i rec Hi) as [-> _]. destruct (Hnth j rec' Hj) as [-> _].
    apply Hmono. lia.
Qed.
(** ** The requests of a run *)

Section Requests.

Variable self : Orchestrator.t world.
Variable h : host.
Variable input_data : GeneratorInput.t.
Variable b : Z.

Hypothesis b_nonneg : 0 <= b.
Hypothesis review_requests : forall i c w r w',
  Orchestrator.reviewer_review self i c w = (r, w') ->
  Z.of_nat (llm_calls w) <= Z.of_nat (llm_calls w') <= Z.of_nat (llm_calls w) + b.
Hypothesis refine_requests : forall ri w r w',
  Orchestrator.refiner_run self ri w = (r, w') ->
  Z.of_nat (llm_calls w) <= Z.of_nat (llm_calls w') <= Z.of_nat (llm_calls w) + b.

(** A loop entered at attempt [n] makes at most [4 - n] reviews and
    [3 - n] refinements. *)
Lemma loop_graph_requests n cur s r s' :
  loop_graph self h input_data n cur s r s' ->
  1 <= n <= 3 ->
  Z.of_nat (llm_calls (Orchestrator.env s)) <= Z.of_nat (llm_calls (Orchestrator.env s')) <=
    Z.of_nat (llm_calls (Orchestrator.env s)) + b * ((4 - n) + (3 - n)).
Proof.
  induction 1 as [n cur s Hn | n cur s x e1 Hn Hrev | n cur s rv e1 Hn Hrev Hp
                 | n cur s rv e1 Hn Hrev Hp | n cur s rv e1 Hn Hrev Hp Hv
                 | n cur s rv e1 x e2 Hn Hrev Hp Hv Href
                 | n cur s rv e1 g e2 r s' Hn Hrev Hp Hv Href Hloop IH]; intros H1;
    try (apply review_requests in Hrev);
    try (apply refine_requests in Href);
    try (unfold RefinerInput.valid, between in Hv; cbn in Hv;
         first [ apply andb_true_iff in Hv; rewrite Z.leb_le, Z.leb_le in Hv
               | apply andb_false_iff in Hv; rewrite Z.leb_gt, Z.leb_gt in Hv ]);
    try (specialize (IH ltac:(lia)); revert IH);
    state_simpl; nia.
Qed.

End Requests.

(** One call of [run] with the retry budget 1 sends at most two requests. *)
Lemma run_twice_at_most {I O : Type} (self : BaseAgent.t I O) (input_data : I)
  (w w' : world) (r : res O) :
  BaseAgent.run self input_data (PyInt 1) w = (r, w') ->
  Z.of_nat (llm_calls w) <= Z.of_nat (llm_calls w') <= Z.of_nat (llm_calls w) + 2.
Proof.
  unfold BaseAgent.run. unfold bind at 1, lift_res.
  destruct (BaseAgent._build_user_prompt self input_data) as [prompt | x].
  - unfold bind at 1.
    destruct (BaseAgent.run_loop self _ prompt 1 (range (1 + 1)) None w)
      as [rl wl] eqn:Hloop.
    apply run_loop_requests in Hloop. destruct Hloop as [Hbound _].
    unfold range in Hbound. rewrite length_map, length_seq in Hbound.
    change (Z.to_nat (1 + 1)) with 2%nat in Hbound. intros H.
    assert (Hw : wl = w').
    { destruct rl as [[v | [m |]] | y]; cbn in H; now injection H. }
    subst wl. lia.
  - intros H. injection H as _ <-. lia.
Qed.

(** A run of the orchestrator as [Orchestrator()] builds it sends at
    most 12 requests to the language model: two for the generation, two
    for each of three reviews at most, two for each of two refinements at
    most, and none for the tagging. *)
Theorem shipped_run_sends_at_most_12_requests (client : nat -> completion) (w : wording)
  (schema_G : string -> parsed GeneratorOutput.t)
  (schema_R : string -> parsed ReviewerOutput.t)
  (schema_T : string -> parsed TaggerOutput.t)
  (h : host) (input_data : GeneratorInput.t) (user_id : option string) (wd : world) :
  exists s : Orchestrator.state world,
    Orchestrator.exec (Orchestrator.__init__ client w schema_G schema_R schema_T)
      h input_data user_id wd = (Ok tt, s) /\
    (llm_calls wd <= llm_calls (Orchestrator.env s) <= llm_calls wd + 12)%nat.
Proof.
  set (self := Orchestrator.__init__ client w schema_G schema_R schema_T).
  assert (Hreview : forall i c w0 r w', Orchestrator.reviewer_review self i c w0 = (r, w') ->
            Z.of_nat (llm_calls w0) <= Z.of_nat (llm_calls w') <= Z.of_nat (llm_calls w0) + 2).
  { intros i c w0 r w' H. cbn [self Orchestrator.__init__ Orchestrator.reviewer_review] in H.
    unfold ReviewerAgent.review in H. unfold bind, lift_res in H.
    destruct (BaseAgent.run _ _ _ w0) as [[result | x] w1] eqn:Hrun;
      apply run_twice_at_most in Hrun; injection H as _ <-; exact Hrun. }
  assert (Hrefine : forall ri w0 r w', Orchestrator.refiner_run self ri w0 = (r, w') ->
            Z.of_nat (llm_calls w0) <= Z.of_nat (llm_calls w') <= Z.of_nat (llm_calls w0) + 2).
  { intros ri w0 r w' H. exact (run_twice_at_most _ _ _ _ _ H). }
  assert (Htagger : forall i c w0,
            Orchestrator.tagger_run self i c w0 =
            (Raise (TypeError "'GeneratorInput' object is not subscriptable"), w0))
    by reflexivity.
  destruct (exec_anatomy self h input_data user_id wd) as (rb & sb & _ & Hbody & Hexec).
  exists (closed_out h (handled rb sb)). split; [exact Hexec |].
  assert (Henv : Orchestrator.env (closed_out h (handled rb sb)) = Orchestrator.env sb).
  { destruct rb; reflexivity. }
  rewrite Henv.
  inversion Hbody as [x e1 Hgen | g e1 x s2 Hgen Hloop
                      | g e1 fc fr s2 x e3 Hgen Hloop Htag
                      | g e1 fc fr s2 tags e3 Hgen Hloop Htag
                      | g e1 fr s2 Hgen Hloop]; subst;
    apply run_twice_at_most in Hgen;
    try (apply (loop_graph_requests self h input_data 2 ltac:(lia) Hreview Hrefine) in Hloop;
           [| lia];
         revert Hloop);
    try (rewrite Htagger in Htag; first [discriminate Htag | injection Htag as _ <-]);
    state_simpl; lia.
Qed.
(** ** The repository: reading, writing, and what is left alone *)

Lemma run_id_is_model_dump (rt : runtime) (run_id : string) (a : RunArtifact.t) :
  ArtifactRepository.run_id_is run_id (RunArtifact.model_dump rt a) = holds_id run_id a.
Proof. reflexivity. Qed.

(** A document merged with the document of an artifact answers to the
    [run_id] of that artifact only. *)
Lemma run_id_is_merged (rt : runtime) (run_id : string) (a : RunArtifact.t) (doc : dict) :
  ArtifactRepository.run_id_is run_id (dict_update doc (RunArtifact.model_dump rt a)) =
  holds_id run_id a.
Proof.
  unfold ArtifactRepository.run_id_is. rewrite dumped_keys by (cbn; tauto). reflexivity.
Qed.

(** [save] leaves the documents of every other [run_id] as they are. *)
Lemma search_after_save (rt : runtime) (artifact : RunArtifact.t) (run_id : string)
  (tb tb' : ArtifactRepository.table) (r : res string) :
  run_id <> RunArtifact.run_id artifact ->
  ArtifactRepository.save rt artifact tb = (r, tb') ->
  ArtifactRepository.search (ArtifactRepository.run_id_is run_id) tb' =
  ArtifactRepository.search (ArtifactRepository.run_id_is run_id) tb.
Proof.
  intros Hne. unfold ArtifactRepository.save.
  assert (Hother : holds_id run_id artifact = false).
  { unfold holds_id. apply String.eqb_neq. congruence. }
  destruct (ArtifactRepository.search _ tb) as [| doc0 existing] eqn:Hsearch;
    intros H; injection H as _ <-.
  - unfold ArtifactRepository.insert, ArtifactRepository.search. rewrite filter_app.
    cbn [filter]. rewrite run_id_is_model_dump, Hother. apply app_nil_r.
  - clear Hsearch. unfold ArtifactRepository.update, ArtifactRepository.search.
    induction tb as [| doc tb IH]; [reflexivity |]. cbn [map filter].
    destruct (ArtifactRepository.run_id_is (RunArtifact.run_id artifact) doc) eqn:Hdoc.
    + rewrite run_id_is_merged, Hother.
      assert (Hdoc' : ArtifactRepository.run_id_is run_id doc = false).
      { unfold ArtifactRepository.run_id_is in *.
        destruct (lookup "run_id" doc) as [[| | | | s | |] |]; try discriminate Hdoc.
        apply String.eqb_eq in Hdoc. subst s. apply String.eqb_neq. congruence. }
      rewrite Hdoc'. exact IH.
    + rewrite IH. reflexivity.
Qed.

(** [save] of an artifact changes nothing for the other runs: [get] of
    any other [run_id] returns after the [save] what it returned before. *)
Theorem save_leaves_other_runs (rt : runtime) (artifact : RunArtifact.t) (run_id : string)
  (tb : ArtifactRepository.table) :
  run_id <> RunArtifact.run_id artifact ->
  fst (ArtifactRepository.get rt run_id (snd (ArtifactRepository.save rt artifact tb))) =
  fst (ArtifactRepository.get rt run_id tb).
Proof.
  intros Hne. unfold ArtifactRepository.get.
  rewrite (search_after_save rt artifact run_id tb
             (snd (ArtifactRepository.save rt artifact tb))
             (fst (ArtifactRepository.save rt artifact tb)) Hne)
    by apply surjective_pairing.
  destruct (ArtifactRepository.search (ArtifactRepository.run_id_is run_id) tb)
    as [| doc results]; [reflexivity |].
  destruct (RunArtifact.model_validate rt doc); reflexivity.
Qed.

(** [save] adds one document when the table has none for the run and
    none otherwise; afterwards the table has a document for the run; and
    a table with one document per run at most stays such a table. *)
Theorem save_keeps_one_document_per_run (rt : runtime) (artifact : RunArtifact.t)
  (tb : ArtifactRepository.table) :
  exists tb' : ArtifactRepository.table,
    ArtifactRepository.save rt artifact tb = (Ok (RunArtifact.run_id artifact), tb') /\
    List.length tb' =
      (List.length tb +
       match ArtifactRepository.search
               (ArtifactRepository.run_id_is (RunArtifact.run_id artifact)) tb with
       | [] => 1
       | _ :: _ => 0
       end)%nat /\
    ArtifactRepository.search
      (ArtifactRepository.run_id_is (RunArtifact.run_id artifact)) tb' <> [] /\
    (one_document_per_run tb -> one_document_per_run tb').
Proof.
  exists (snd (ArtifactRepository.save rt artifact tb)).
  assert (Hsave : ArtifactRepository.save rt artifact tb =
                  (Ok (RunArtifact.run_id artifact),
                   snd (ArtifactRepository.save rt artifact tb))).
  { unfold ArtifactRepository.save.
    destruct (ArtifactRepository.search _ tb); reflexivity. }
  split; [exact Hsave |].
  assert (Hsame : ArtifactRepository.search
                    (ArtifactRepository.run_id_is (RunArtifact.run_id artifact))
                    (snd (ArtifactRepository.save rt artifact tb)) =
                  match ArtifactRepository.search
                          (ArtifactRepository.run_id_is (RunArtifact.run_id artifact)) tb with
                  | [] => [RunArtifact.model_dump rt artifact]
                  | existing =>
                      map (fun doc => dict_update doc (RunArtifact.model_dump rt artifact))
                        existing
                  end).
  { unfold ArtifactRepository.save.
    destruct (ArtifactRepository.search _ tb) as [| doc0 existing] eqn:Hsearch;
      cbn [snd].
    - unfold ArtifactRepository.insert, ArtifactRepository.search in *.
      rewrite filter_app, Hsearch. cbn [filter app].
      rewrite run_id_is_model_dump. unfold holds_id. now rewrite String.eqb_refl.
    - now rewrite search_update, Hsearch. }
  split; [| split].
  - unfold ArtifactRepository.save.
    destruct (ArtifactRepository.search _ tb) as [| doc0 existing]; cbn [snd].
    + unfold ArtifactRepository.insert. rewrite length_app. reflexivity.
    + unfold ArtifactRepository.update. rewrite length_map. lia.
  - rewrite Hsame. destruct (ArtifactRepository.search _ tb); discriminate.
  - intros Hone run_id.
    destruct (String.eqb run_id (RunArtifact.run_id artifact)) eqn:Hid.
    + apply String.eqb_eq in Hid. subst run_id. rewrite Hsame.
      specialize (Hone (RunArtifact.run_id artifact)).
      destruct (ArtifactRepository.search _ tb) as [| doc0 existing]; [cbn; lia |].
      rewrite length_map. exact Hone.
    + apply String.eqb_neq in Hid.
      rewrite (search_after_save rt artifact run_id tb _ _ Hid Hsave). apply Hone.
Qed.
(** ** Tables of saved artifacts *)

Lemma merged_dump (rt : runtime) (a0 a : RunArtifact.t) :
  dict_update (RunArtifact.model_dump rt a0) (RunArtifact.model_dump rt a) =
  RunArtifact.model_dump rt a.
Proof. reflexivity. Qed.

Lemma search_stored (rt : runtime) (run_id : string) (arts : list RunArtifact.t) :
  ArtifactRepository.search (ArtifactRepository.run_id_is run_id) (stored rt arts) =
  stored rt (filter (holds_id run_id) arts).
Proof.
  unfold ArtifactRepository.search, stored.
  induction arts as [| a arts IH]; [reflexivity |]. cbn [map filter].
  rewrite run_id_is_model_dump. destruct (holds_id run_id a); cbn [map]; now rewrite IH.
Qed.

(** [save] is an insert-or-replace by [run_id]: on the table of the
    artifacts [arts] it leaves the table of [upsert artifact arts], the
    new artifact in the place of the stored one with its [run_id], or in
    the last place when there is none. *)
Theorem save_is_upsert (rt : runtime) (artifact : RunArtifact.t)
  (arts : list RunArtifact.t) :
  ArtifactRepository.save rt artifact (stored rt arts) =
  (Ok (RunArtifact.run_id artifact), stored rt (upsert artifact arts)).
Proof.
  unfold ArtifactRepository.save, upsert. rewrite search_stored.
  destruct (existsb (holds_id (RunArtifact.run_id artifact)) arts) eqn:Hex.
  - destruct (filter (holds_id (RunArtifact.run_id artifact)) arts) as [| a0 found] eqn:Hf.
    + exfalso. apply existsb_exists in Hex. destruct Hex as (a & Hin & Ha).
      assert (Hin' : In a (filter (holds_id (RunArtifact.run_id artifact)) arts))
        by (apply filter_In; auto).
      rewrite Hf in Hin'. destruct Hin'.
    + cbn [stored map]. f_equal. unfold ArtifactRepository.update, stored.
      rewrite !map_map. apply map_ext. intros a.
      rewrite run_id_is_model_dump. destruct (holds_id _ a); [apply merged_dump | reflexivity].
  - destruct (filter (holds_id (RunArtifact.run_id artifact)) arts) as [| a0 found] eqn:Hf.
    + cbn [stored map]. f_equal. unfold ArtifactRepository.insert, stored.
      now rewrite map_app.
    + exfalso. assert (Hin : In a0 (filter (holds_id (RunArtifact.run_id artifact)) arts))
        by (rewrite Hf; left; reflexivity).
      apply filter_In in Hin. destruct Hin as [Hin Ha].
      assert (Hex' : existsb (holds_id (RunArtifact.run_id artifact)) arts = true)
        by (apply existsb_exists; eauto).
      congruence.
Qed.

(** *** Statistics *)

Lemma final_status_is_dumped (rt : runtime) (status : Status) (a : RunArtifact.t) :
  ArtifactRepository.final_status_is (Status_value status) (RunArtifact.model_dump rt a) =
  match RunArtifact.final a with
  | Some _ => Ok (has_status status a)
  | None => Raise (no_get JNull)
  end.
Proof.
  unfold has_status. destruct (RunArtifact.final a) as [f |] eqn:Hf.
  - unfold ArtifactRepository.final_status_is, RunArtifact.model_dump.
    cbn [lookup String.eqb Ascii.eqb Bool.eqb]. rewrite Hf. reflexivity.
  - unfold ArtifactRepository.final_status_is, RunArtifact.model_dump.
    cbn [lookup String.eqb Ascii.eqb Bool.eqb]. rewrite Hf. reflexivity.
Qed.

Lemma count_status_finalized (rt : runtime) (status : Status) (arts : list RunArtifact.t) :
  (forall a, In a arts -> RunArtifact.final a <> None) ->
  ArtifactRepository.count_status (Status_value status) (stored rt arts) =
  Ok (len (filter (has_status status) arts)).
Proof.
  induction arts as [| a arts IH]; intros Hfin; [reflexivity |].
  cbn [stored map ArtifactRepository.count_status]. rewrite final_status_is_dumped.
  destruct (RunArtifact.final a) eqn:Hf; [| now elim (Hfin a (or_introl eq_refl))].
  fold (stored rt arts). rewrite IH by (intros a' Ha'; apply Hfin; now right).
  cbn [filter]. destruct (has_status status a); f_equal; unfold len; cbn [List.length]; lia.
Qed.

Lemma approved_or_rejected (arts : list RunArtifact.t) :
  (forall a, In a arts -> RunArtifact.final a <> None) ->
  len (filter (has_status approved) arts) + len (filter (has_status rejected) arts) =
  len arts.
Proof.
  induction arts as [| a arts IH]; intros Hfin; [reflexivity |].
  specialize (IH (fun a' Ha' => Hfin a' (or_intror Ha'))).
  pose proof (Hfin a (or_introl eq_refl)) as Ha.
  assert (Hone : has_status approved a = negb (has_status rejected a)).
  { unfold has_status. destruct (RunArtifact.final a) as [f |]; [| congruence].
    now destruct (FinalResult.status f). }
  cbn [filter]. rewrite Hone.
  destruct (has_status rejected a); cbn [negb];
    revert IH; unfold len; cbn [List.length]; lia.
Qed.

(** On a table of finalized artifacts [get_stats] returns the number of
    artifacts, of approved ones and of rejected ones, which add up to the
    total, and the share of the approved ones: the [float] nearest to the
    quotient of the two counts, between 0 and 1; on the empty table the
    share is the integer 0 and nothing is divided. *)
Theorem get_stats_counts_finalized_runs (rt : runtime) (arts : list RunArtifact.t) :
  (forall a, In a arts -> RunArtifact.final a <> None) ->
  exists rate : json,
    ArtifactRepository.get_stats (stored rt arts) =
      (Ok [("total_runs", JInt (len arts));
           ("approved", JInt (len (filter (has_status approved) arts)));
           ("rejected", JInt (len (filter (has_status rejected) arts)));
           ("approval_rate", rate)],
       stored rt arts) /\
    len (filter (has_status approved) arts) + len (filter (has_status rejected) arts) =
      len arts /\
    match arts with
    | [] => rate = JInt 0
    | _ :: _ =>
        exists q : Q,
          rate = JFloat q /\
          q = true_div (len (filter (has_status approved) arts)) (len arts) /\
          Qle (Qmake 0 1) q /\ Qle q (Qmake 1 1)
    end.
Proof.
  intros Hfin. pose proof (approved_or_rejected arts Hfin) as Hsum.
  unfold ArtifactRepository.get_stats.
  change "approved" with (Status_value approved).
  change "rejected" with (Status_value rejected).
  rewrite !count_status_finalized by exact Hfin.
  assert (Hlen : len (stored rt arts) = len arts).
  { unfold len, stored. now rewrite length_map. }
  rewrite Hlen. eexists. split; [reflexivity |]. split; [exact Hsum |].
  destruct arts as [| a arts]; [reflexivity |].
  cbn [stored map]. eexists. split; [reflexivity |]. split; [reflexivity |].
  assert (Hpos : 0 < len (a :: arts)) by (unfold len; cbn [List.length]; lia).
  assert (H0 : 0 <= len (filter (has_status approved) (a :: arts))) by (unfold len; lia).
  assert (H1 : 0 <= len (filter (has_status rejected) (a :: arts))) by (unfold len; lia).
  split; [apply true_div_nonneg; lia | apply true_div_le_1; lia].
Qed.

(** The document of an artifact whose [final] is unset holds the key
    ["final"] with the value [null], for which the default of
    [a.get('final', {})] does not apply: on a table that holds such an
    artifact [get_stats] raises an [AttributeError]. *)
Theorem get_stats_raises_on_unfinalized_run (rt : runtime) (arts : list RunArtifact.t)
  (a : RunArtifact.t) :
  In a arts ->
  RunArtifact.final a = None ->
  ArtifactRepository.get_stats (stored rt arts) =
    (Raise (AttributeError "'NoneType' object has no attribute 'get'"), stored rt arts).
Proof.
  intros Hin Hnone. unfold ArtifactRepository.get_stats.
  assert (Hcount : ArtifactRepository.count_status "approved" (stored rt arts) =
                   Raise (AttributeError "'NoneType' object has no attribute 'get'")).
  { change "approved" with (Status_value approved).
    induction arts as [| a0 arts IH]; [destruct Hin |].
    cbn [stored map ArtifactRepository.count_status]. rewrite final_status_is_dumped.
    destruct Hin as [-> | Hin].
    - rewrite Hnone. reflexivity.
    - destruct (RunArtifact.final a0); [| reflexivity].
      fold (stored rt arts). now rewrite (IH Hin). }
  now rewrite Hcount.
Qed.
(** *** The order of [str] and the descending sort *)

Lemma string_leb_trans (s t u : string) :
  String.leb s t = true -> String.leb t u = true -> String.leb s u = true.
Proof.
  unfold String.leb. revert t u.
  induction s as [| a s IH]; intros [| b t] [| c u]; cbn; try congruence.
  unfold Ascii.compare.
  destruct (N.compare_spec (N_of_ascii a) (N_of_ascii b)) as [Hab | Hab | Hab];
    destruct (N.compare_spec (N_of_ascii b) (N_of_ascii c)) as [Hbc | Hbc | Hbc];
    destruct (N.compare_spec (N_of_ascii a) (N_of_ascii c)) as [Hac | Hac | Hac];
    try congruence; try lia; intros; eauto.
Qed.

Section SortDesc.

Context {A : Type}.
Variable key : A -> string.

Let not_below (a b : A) : Prop := String.leb (key b) (key a) = true.

Lemma insert_desc_perm (x : A) (l : list A) : Permutation (insert_desc key x l) (x :: l).
Proof.
  induction l as [| y l IH]; cbn [insert_desc]; [reflexivity |].
  destruct (String.leb (key y) (key x)); [reflexivity |].
  rewrite IH. apply perm_swap.
Qed.

Lemma sort_desc_perm (l : list A) : Permutation (sort_desc key l) l.
Proof.
  induction l as [| x l IH]; cbn; [reflexivity |].
  fold (sort_desc key l). rewrite insert_desc_perm. now constructor.
Qed.

Lemma insert_desc_sorted (x : A) (l : list A) :
  StronglySorted not_below l -> StronglySorted not_below (insert_desc key x l).
Proof.
  induction 1 as [| y l Hs IH Hy]; cbn [insert_desc].
  - constructor; constructor.
  - destruct (String.leb (key y) (key x)) eqn:Hle.
    + constructor; [now constructor |]. constructor; [exact Hle |].
      eapply Forall_impl; [| exact Hy]. intros z Hz. unfold not_below in *.
      eapply string_leb_trans; eauto.
    + constructor; [exact IH |].
      assert (Hxy : not_below y x).
      { unfold not_below. destruct (String.leb_total (key x) (key y)); congruence. }
      assert (Hall : Forall (not_below y) (x :: l)) by now constructor.
      apply Forall_forall. intros z Hz. rewrite Forall_forall in Hall. apply Hall.
      apply (Permutation_in z (insert_desc_perm x l) Hz).
Qed.

Lemma sort_desc_sorted (l : list A) : StronglySorted not_below (sort_desc key l).
Proof.
  induction l as [| x l IH]; cbn; [constructor |]. now apply insert_desc_sorted.
Qed.

End SortDesc.

Lemma insert_desc_map {A B : Type} (f : A -> B) (keyA : A -> string) (keyB : B -> string)
  (x : A) (l : list A) :
  (forall a, keyB (f a) = keyA a) ->
  insert_desc keyB (f x) (map f l) = map f (insert_desc keyA x l).
Proof.
  intros Hkey. induction l as [| y l IH]; cbn [map insert_desc]; [reflexivity |].
  rewrite !Hkey. destruct (String.leb (keyA y) (keyA x)); cbn [map]; [reflexivity |].
  now rewrite IH.
Qed.

Lemma sort_desc_map {A B : Type} (f : A -> B) (keyA : A -> string) (keyB : B -> string)
  (l : list A) :
  (forall a, keyB (f a) = keyA a) ->
  sort_desc keyB (map f l) = map f (sort_desc keyA l).
Proof.
  intros Hkey. induction l as [| x l IH]; [reflexivity |].
  cbn [map sort_desc fold_right]. fold (sort_desc keyB (map f l)). fold (sort_desc keyA l).
  rewrite IH. now apply insert_desc_map.
Qed.

Lemma slice_to_map {A B : Type} (f : A -> B) (n : Z) (l : list A) :
  slice_to n (map f l) = map f (slice_to n l).
Proof.
  unfold slice_to, len. rewrite length_map.
  destruct (0 <=? n); now rewrite firstn_map.
Qed.

Lemma slice_to_split {A : Type} (n : Z) (l : list A) :
  exists rest,
    l = (slice_to n l ++ rest)%list /\
    (0 <= n -> len (slice_to n l) = Z.min n (len l)) /\
    (n < 0 -> len (slice_to n l) = Z.max 0 (len l + n)).
Proof.
  unfold slice_to, len. destruct (0 <=? n) eqn:Hn.
  - apply Z.leb_le in Hn. exists (skipn (Z.to_nat n) l).
    split; [now rewrite firstn_skipn |]. rewrite length_firstn. split; lia.
  - apply Z.leb_gt in Hn. exists (skipn (Z.to_nat (Z.of_nat (List.length l) + n)) l).
    split; [now rewrite firstn_skipn |]. rewrite length_firstn. split; lia.
Qed.

(** *** Listing the stored artifacts *)

Lemma with_keys_stored (rt : runtime) (arts : list RunArtifact.t) :
  ArtifactRepository.with_keys (stored rt arts) =
  Ok (map (fun a => (JStr (started_text rt a), RunArtifact.model_dump rt a)) arts).
Proof.
  induction arts as [| a arts IH]; [reflexivity |].
  cbn [stored map ArtifactRepository.with_keys]. fold (stored rt arts). rewrite IH.
  reflexivity.
Qed.

Lemma sort_newest_first_stored (rt : runtime) (py : python) (arts : list RunArtifact.t) :
  ArtifactRepository.sort_newest_first py (stored rt arts) =
  Ok (stored rt (sort_desc (started_text rt) arts)).
Proof.
  unfold ArtifactRepository.sort_newest_first. rewrite with_keys_stored.
  rewrite sort_reverse_str.
  - f_equal. rewrite (sort_desc_map _ (started_text rt) key_text) by reflexivity.
    unfold stored. rewrite map_map. reflexivity.
  - apply Forall_forall. intros kd Hin. apply in_map_iff in Hin.
    destruct Hin as (a & <- & _). eexists. reflexivity.
Qed.

Lemma load_all_stored (rt : runtime) (arts : list RunArtifact.t) :
  forallb RunArtifact.valid arts = true ->
  ArtifactRepository.load_all rt (stored rt arts) = Ok arts.
Proof.
  induction arts as [| a arts IH]; intros Hvalid; [reflexivity |].
  cbn [forallb] in Hvalid. apply andb_prop in Hvalid as [Ha Harts].
  cbn [stored map ArtifactRepository.load_all]. rewrite (RunArtifact_roundtrip rt a Ha).
  fold (stored rt arts). now rewrite (IH Harts).
Qed.

Lemma forallb_incl {A : Type} (f : A -> bool) (l l' : list A) :
  incl l l' -> forallb f l' = true -> forallb f l = true.
Proof.
  intros Hincl Hall. apply forallb_forall. intros x Hx.
  rewrite forallb_forall in Hall. apply Hall, Hincl, Hx.
Qed.

(** What the two listings return on the table of the valid artifacts
    [arts], when [chosen] are the artifacts the query selects. *)
Lemma listing_stored (rt : runtime) (py : python) (limit : Z)
  (arts chosen : list RunArtifact.t) :
  forallb RunArtifact.valid arts = true ->
  incl chosen arts ->
  exists result rest : list RunArtifact.t,
    (match ArtifactRepository.sort_newest_first py (stored rt chosen) with
     | Raise e => Raise e
     | Ok results => ArtifactRepository.load_all rt (slice_to limit results)
     end) = Ok result /\
    Permutation (result ++ rest) chosen /\
    StronglySorted (not_older rt) (result ++ rest) /\
    (0 <= limit -> len result = Z.min limit (len chosen)) /\
    (limit < 0 -> len result = Z.max 0 (len chosen + limit)).
Proof.
  intros Hvalid Hincl. rewrite sort_newest_first_stored.
  destruct (slice_to_split limit (sort_desc (started_text rt) chosen))
    as (rest & Hsplit & Hpos & Hneg).
  exists (slice_to limit (sort_desc (started_text rt) chosen)), rest.
  assert (Hlen : len (sort_desc (started_text rt) chosen) = len chosen).
  { unfold len. f_equal. apply Permutation_length, sort_desc_perm. }
  rewrite Hlen in Hpos, Hneg.
  split; [| split; [| split; [| split]]]; auto.
  - unfold stored. rewrite slice_to_map. apply load_all_stored.
    apply (forallb_incl _ _ arts); [| exact Hvalid].
    intros a Ha. apply Hincl.
    apply (Permutation_in (l := sort_desc (started_text rt) chosen));
      [apply sort_desc_perm |].
    rewrite Hsplit. apply in_or_app. now left.
  - rewrite <- Hsplit. apply sort_desc_perm.
  - rewrite <- Hsplit. apply (sort_desc_sorted (started_text rt)).
Qed.

(** [get_all] on a table of valid artifacts returns the first [limit] of
    them in the descending order of the text of [started_at]: what it
    returns, followed by what it leaves out, is the stored artifacts
    sorted.  A negative [limit] does not return nothing: it leaves out
    the last [- limit] artifacts of that order. *)
Theorem get_all_returns_the_newest (rt : runtime) (py : python) (limit : Z)
  (arts : list RunArtifact.t) :
  forallb RunArtifact.valid arts = true ->
  exists result rest : list RunArtifact.t,
    ArtifactRepository.get_all rt py limit (stored rt arts) = (Ok result, stored rt arts) /\
    Permutation (result ++ rest) arts /\
    StronglySorted (not_older rt) (result ++ rest) /\
    (0 <= limit -> len result = Z.min limit (len arts)) /\
    (limit < 0 -> len result = Z.max 0 (len arts + limit)).
Proof.
  intros Hvalid.
  destruct (listing_stored rt py limit arts arts Hvalid (incl_refl arts))
    as (result & rest & Hres & Hperm & Hsorted & Hpos & Hneg).
  exists result, rest. split; [| auto].
  unfold ArtifactRepository.get_all.
  destruct (ArtifactRepository.sort_newest_first py (stored rt arts)) as [results | e];
    [now rewrite Hres | discriminate Hres].
Qed.

Lemma search_user_stored (rt : runtime) (user_id : string) (arts : list RunArtifact.t) :
  ArtifactRepository.search (ArtifactRepository.user_id_is user_id) (stored rt arts) =
  stored rt (filter (of_user user_id) arts).
Proof.
  unfold ArtifactRepository.search, stored.
  induction arts as [| a arts IH]; [reflexivity |]. cbn [map filter].
  assert (Hq : ArtifactRepository.user_id_is user_id (RunArtifact.model_dump rt a) =
               of_user user_id a).
  { unfold ArtifactRepository.user_id_is, of_user, RunArtifact.model_dump.
    cbn [lookup String.eqb Ascii.eqb Bool.eqb]. now destruct (RunArtifact.user_id a). }
  rewrite Hq. destruct (of_user user_id a); cbn [map]; now rewrite IH.
Qed.

(** [get_by_user] on a table of valid artifacts returns artifacts of that
    user only, none of them twice: the first [limit] of the user's
    artifacts in the descending order of the text of [started_at].
    Artifacts stored without a user are in no user's listing. *)
Theorem get_by_user_returns_the_users_runs (rt : runtime) (py : python) (user_id : string)
  (limit : Z) (arts : list RunArtifact.t) :
  forallb RunArtifact.valid arts = true ->
  exists result rest : list RunArtifact.t,
    ArtifactRepository.get_by_user rt py user_id limit (stored rt arts) =
      (Ok result, stored rt arts) /\
    Permutation (result ++ rest) (filter (of_user user_id) arts) /\
    (forall a, In a result -> RunArtifact.user_id a = Some user_id /\ In a arts) /\
    StronglySorted (not_older rt) (result ++ rest) /\
    (0 <= limit -> len result = Z.min limit (len (filter (of_user user_id) arts))).
Proof.
  intros Hvalid.
  destruct (listing_stored rt py limit arts (filter (of_user user_id) arts) Hvalid
              (incl_filter _ arts))
    as (result & rest & Hres & Hperm & Hsorted & Hpos & _).
  exists result, rest. split; [| split; [exact Hperm | split; [| auto]]].
  - unfold ArtifactRepository.get_by_user. rewrite search_user_stored.
    destruct (ArtifactRepository.sort_newest_first py _) as [results | e];
      [now rewrite Hres | discriminate Hres].
  - intros a Ha.
    assert (Hin : In a (filter (of_user user_id) arts)).
    { apply (Permutation_in (l := (result ++ rest)%list)); [exact Hperm |].
      apply in_or_app. now left. }
    apply filter_In in Hin. destruct Hin as [Hin Hu]. split; [| exact Hin].
    unfold of_user in Hu. destruct (RunArtifact.user_id a) as [u |]; [| discriminate Hu].
    apply String.eqb_eq in Hu. now subst u.
Qed.

(** ** The handlers of app.py *)

(** What [get] returns right after [save], for a valid artifact. *)
Lemma get_after_save (rt : runtime) (artifact : RunArtifact.t)
  (tb : ArtifactRepository.table) :
  RunArtifact.valid artifact = true ->
  ArtifactRepository.get rt (RunArtifact.run_id artifact)
    (snd (ArtifactRepository.save rt artifact tb)) =
  (Ok (Some artifact), snd (ArtifactRepository.save rt artifact tb)).
Proof.
  intros Hvalid. unfold ArtifactRepository.save.
  destruct (ArtifactRepository.search
              (ArtifactRepository.run_id_is (RunArtifact.run_id artifact)) tb)
    as [| doc0 existing] eqn:Hsearch; cbn [snd].
  - unfold ArtifactRepository.get, ArtifactRepository.insert, ArtifactRepository.search in *.
    rewrite filter_app, Hsearch. cbn [filter app].
    rewrite (proj2 (run_id_is_dumped rt artifact [])).
    now rewrite (RunArtifact_roundtrip rt artifact Hvalid).
  - unfold ArtifactRepository.get. rewrite search_update, Hsearch. cbn [map].
    rewrite (RunArtifact_validate_ext rt _ (RunArtifact.model_dump rt artifact)).
    + now rewrite (RunArtifact_roundtrip rt artifact Hvalid).
    + intros k Hk. now apply dumped_keys.
Qed.

(** The state a run ends in holds a finalized artifact, which is valid
    when the request is and the agents return validated results. *)
Lemma exec_finalizes {E : Type} (self : Orchestrator.t E) (h : host)
  (input_data : GeneratorInput.t) (user_id : option string) (e : E) :
  exists s : Orchestrator.state E,
    Orchestrator.exec self h input_data user_id e = (Ok tt, s) /\
    RunArtifact.final (Orchestrator.artifact s) <> None /\
    RunArtifact.run_id (Orchestrator.artifact s) = uuid4 h /\
    (returns_validated self -> GeneratorInput.valid input_data = true ->
     RunArtifact.valid (Orchestrator.artifact s) = true).
Proof.
  destruct (exec_anatomy self h input_data user_id e) as (rb & sb & _ & Hbody & Hexec).
  exists (closed_out h (handled rb sb)). split; [exact Hexec |]. split; [| split].
  - inversion Hbody; subst; state_simpl; discriminate.
  - destruct (run_anatomy self h input_data user_id e)
      as (s & recs & f & k & Hexec' & _ & _ & _ & Hart).
    rewrite Hexec in Hexec'. injection Hexec' as <-. now rewrite Hart.
  - intros Hagents Hin.
    assert (Hstart : RunArtifact.valid
                       (Orchestrator.artifact (Orchestrator.start h input_data user_id e)) =
                     true).
    { unfold RunArtifact.valid. cbn [Orchestrator.start Orchestrator.artifact
        RunArtifact.input RunArtifact.attempts RunArtifact.final forallb valid_option].
      now rewrite Hin. }
    pose proof (body_graph_valid self h input_data Hagents _ _ _ Hbody Hstart) as Hvalid.
    unfold closed_out.
    cbn [Orchestrator.artifact Orchestrator.with_artifact Orchestrator.tick].
    rewrite valid_set_finished. exact Hvalid.
Qed.

(** [generate_content] never answers with an error: whatever the agents
    do it returns the artifact of the run, and has stored it.  For a valid
    request and agents whose results are validated, [get_artifact] with
    the [run_id] of the returned artifact then returns that artifact. *)
Theorem generate_then_get_artifact {E : Type} (orchestrator : Orchestrator.t E) (h : host)
  (rt : runtime) (request : GeneratorInput.t) (user_id : option string) (st : App.state E) :
  exists (a : RunArtifact.t) (st' : App.state E),
    App.generate_content orchestrator h rt request user_id st = (App.Returned a, st') /\
    Orchestrator.run orchestrator h request user_id (App.agents st) = Ok a /\
    App.artifacts st' = snd (ArtifactRepository.save rt a (App.artifacts st)) /\
    (returns_validated orchestrator -> GeneratorInput.valid request = true ->
     App.get_artifact rt (RunArtifact.run_id a) (App.artifacts st') =
       (App.Returned a, App.artifacts st')).
Proof.
  destruct (exec_finalizes orchestrator h request user_id (App.agents st))
    as (s & Hexec & Hfinal & _ & Hvalid).
  unfold App.generate_content, Orchestrator.run. rewrite Hexec.
  assert (Hsave : ArtifactRepository.save rt (Orchestrator.artifact s) (App.artifacts st) =
                  (Ok (RunArtifact.run_id (Orchestrator.artifact s)),
                   snd (ArtifactRepository.save rt (Orchestrator.artifact s)
                          (App.artifacts st)))).
  { unfold ArtifactRepository.save.
    destruct (ArtifactRepository.search _ (App.artifacts st)); reflexivity. }
  rewrite Hsave. destruct (RunArtifact.final (Orchestrator.artifact s)) eqn:Hf;
    [| congruence].
  eexists. eexists. split; [reflexivity |]. split; [reflexivity |].
  split; [reflexivity |]. intros Hagents Hin. cbn [App.artifacts].
  unfold App.get_artifact. now rewrite (get_after_save rt _ _ (Hvalid Hagents Hin)).
Qed.

Lemma find_is_first_match {A : Type} (f : A -> bool) (l : list A) :
  find f l = hd_error (filter f l).
Proof.
  induction l as [| a l IH]; [reflexivity |]. cbn [find filter].
  destruct (f a); [reflexivity | exact IH].
Qed.

(** What [get_artifact] answers on a table of valid artifacts: the first
    stored artifact with the [run_id], or status 404 with the [run_id] in
    the detail when there is none. *)
Theorem get_artifact_finds_or_404 (rt : runtime) (run_id : string)
  (arts : list RunArtifact.t) :
  forallb RunArtifact.valid arts = true ->
  App.get_artifact rt run_id (stored rt arts) =
  (match find (holds_id run_id) arts with
   | Some a => App.Returned a
   | None => App.HTTPException 404 ("Artifact " ++ run_id ++ " not found")
   end, stored rt arts).
Proof.
  intros Hvalid. unfold App.get_artifact, ArtifactRepository.get.
  rewrite search_stored, find_is_first_match.
  destruct (filter (holds_id run_id) arts) as [| a0 found] eqn:Hf; [reflexivity |].
  assert (Hin : In a0 arts).
  { assert (Hin : In a0 (filter (holds_id run_id) arts)) by (rewrite Hf; now left).
    now apply filter_In in Hin. }
  rewrite forallb_forall in Hvalid.
  cbn [stored map hd_error]. now rewrite (RunArtifact_roundtrip rt a0 (Hvalid a0 Hin)).
Qed.

(** ** The tagger's own entry point *)

(** [TaggerAgent.tag], which the orchestrator does not call, builds the
    [dict] its prompt reads: it always reaches the language model, with one
    request or two, and returns the tags of the first reply when that
    reply fits the schema. *)
Theorem tag_reaches_the_model (client : nat -> completion) (w : wording)
  (schema : string -> parsed TaggerOutput.t) (original_input : GeneratorInput.t)
  (content : GeneratorOutput.t) (wd wd' : world) (r : res TaggerOutput.t) :
  TaggerAgent.tag (TaggerAgent.__init__ client w schema) original_input content wd =
    (r, wd') ->
  (llm_calls wd < llm_calls wd' <= llm_calls wd + 2)%nat /\
  (forall text tags,
     client (llm_calls wd) = Content text -> schema text = Parsed tags ->
     r = Ok tags /\ llm_calls wd' = S (llm_calls wd)).
Proof.
  unfold TaggerAgent.tag, BaseAgent.run.
  cbn [TaggerAgent.__init__ BaseAgent._build_user_prompt BaseAgent._build_system_prompt
       subscript]. unfold bind at 1, lift_res. unfold bind at 1.
  destruct (BaseAgent.run_loop _ _ _ 1 (range (1 + 1)) None wd) as [rl wl] eqn:Hloop.
  intros H.
  assert (Hw : wl = wd').
  { destruct rl as [[v | [m |]] | y]; cbn in H; now injection H. }
  subst wl. split.
  - apply run_loop_requests in Hloop. destruct Hloop as [Hbound Hsome].
    unfold range in Hbound, Hsome. rewrite length_map, length_seq in Hbound.
    change (Z.to_nat (1 + 1)) with 2%nat in Hbound, Hsome.
    specialize (Hsome ltac:(discriminate)). lia.
  - intros text tags Hc Hs. unfold range in Hloop.
    change (Z.to_nat (1 + 1)) with 2%nat in Hloop. cbn [seq map] in Hloop.
    rewrite run_loop_cons in Hloop. unfold bind, BaseAgent._call_llm, lift_res in Hloop.
    cbn [TaggerAgent.__init__ BaseAgent.client] in Hloop. rewrite Hc in Hloop.
    unfold BaseAgent._parse_and_validate in Hloop.
    cbn [TaggerAgent.__init__ BaseAgent.output_schema] in Hloop. rewrite Hs in Hloop.
    injection Hloop as <- <-. cbn in H. injection H as <-. auto.
Qed.
(** ** The reviews of the audit trail *)

Section RecordedReviews.

Context {E : Type}.
Variable self : Orchestrator.t E.
Variable h : host.
Variable input_data : GeneratorInput.t.
Variable P : ReviewerOutput.t -> Prop.

Hypothesis reviews_satisfy : forall i c e rv e',
  Orchestrator.reviewer_review self i c e = (Ok rv, e') -> P rv.

(** The review of every record the loop appends is one the reviewer
    returned. *)
Lemma loop_graph_recorded_reviews n cur s r s' :
  loop_graph self h input_data n cur s r s' ->
  Forall (fun rec => P (AttemptRecord.review rec))
    (RunArtifact.attempts (Orchestrator.artifact s)) ->
  Forall (fun rec => P (AttemptRecord.review rec))
    (RunArtifact.attempts (Orchestrator.artifact s')).
Proof.
  induction 1 as [n cur s Hn | n cur s x e1 Hn Hrev | n cur s rv e1 Hn Hrev Hp
                 | n cur s rv e1 Hn Hrev Hp | n cur s rv e1 Hn Hrev Hp Hv
                 | n cur s rv e1 x e2 Hn Hrev Hp Hv Href
                 | n cur s rv e1 g e2 r s' Hn Hrev Hp Hv Href Hloop IH];
    intros Hall; try exact Hall.
  - state_simpl. apply Forall_app. split; [exact Hall |].
    constructor; [exact (reviews_satisfy _ _ _ _ _ Hrev) | constructor].
  - state_simpl. apply Forall_app. split; [exact Hall |].
    constructor; [exact (reviews_satisfy _ _ _ _ _ Hrev) | constructor].
  - apply IH. state_simpl. apply Forall_app. split; [exact Hall |].
    constructor; [exact (reviews_satisfy _ _ _ _ _ Hrev) | constructor].
Qed.

Lemma run_recorded_reviews (user_id : option string) (e : E) :
  exists a : RunArtifact.t,
    Orchestrator.run self h input_data user_id e = Ok a /\
    forall rec, In rec (RunArtifact.attempts a) -> P (AttemptRecord.review rec).
Proof.
  destruct (exec_anatomy self h input_data user_id e) as (rb & sb & _ & Hbody & Hexec).
  exists (Orchestrator.artifact (closed_out h (handled rb sb))).
  split; [unfold Orchestrator.run; now rewrite Hexec |].
  assert (Hatt : RunArtifact.attempts (Orchestrator.artifact (closed_out h (handled rb sb))) =
                 RunArtifact.attempts (Orchestrator.artifact sb)).
  { destruct rb; reflexivity. }
  rewrite Hatt. apply Forall_forall.
  inversion Hbody as [x e1 Hgen | g e1 x s2 Hgen Hloop
                      | g e1 fc fr s2 x e3 Hgen Hloop Htag
                      | g e1 fc fr s2 tags e3 Hgen Hloop Htag
                      | g e1 fr s2 Hgen Hloop]; subst;
    try (apply loop_graph_recorded_reviews in Hloop; [| constructor]);
    state_simpl; first [exact Hloop | constructor].
Qed.

End RecordedReviews.

Lemma configured_decision (client : nat -> completion) (w : wording)
  (schema : string -> parsed ReviewerOutput.t) (scores : ReviewScore.t) :
  recomputed_decision (ReviewerAgent.__init__ client w schema) scores = true <->
  4 <= ReviewScore.age_appropriateness scores /\
  5 <= ReviewScore.correctness scores /\
  4 <= ReviewScore.clarity scores /\
  3 <= ReviewScore.coverage scores.
Proof.
  unfold recomputed_decision.
  cbn [ReviewerAgent.__init__ ReviewerAgent.thresholds ReviewerAgent.min_average].
  unfold Config.PASS_THRESHOLDS, Config.MIN_AVERAGE_SCORE.
  destruct scores as [a c cl cv].
  unfold violated, score_of, ReviewerAgent.avg_score, Qle_bool.
  cbn -[Z.ltb Z.add Z.leb Z.mul].
  rewrite andb_true_iff, negb_true_iff, !orb_false_iff, !Z.ltb_ge, Z.leb_le. lia.
Qed.

(** The decisions in the audit trail of the orchestrator as shipped are
    the recomputed ones: in every artifact, the review of every attempt
    record has [pass_decision] true iff its scores meet the four
    configured thresholds, whatever decision the model reported. *)
Theorem shipped_recorded_decisions_are_recomputed (client : nat -> completion) (w : wording)
  (schema_G : string -> parsed GeneratorOutput.t)
  (schema_R : string -> parsed ReviewerOutput.t)
  (schema_T : string -> parsed TaggerOutput.t)
  (h : host) (input_data : GeneratorInput.t) (user_id : option string) (wd : world) :
  exists a : RunArtifact.t,
    Orchestrator.run (Orchestrator.__init__ client w schema_G schema_R schema_T)
      h input_data user_id wd = Ok a /\
    forall rec, In rec (RunArtifact.attempts a) ->
      (ReviewerOutput.pass_decision (AttemptRecord.review rec) = true <->
       4 <= ReviewScore.age_appropriateness (ReviewerOutput.scores (AttemptRecord.review rec)) /\
       5 <= ReviewScore.correctness (ReviewerOutput.scores (AttemptRecord.review rec)) /\
       4 <= ReviewScore.clarity (ReviewerOutput.scores (AttemptRecord.review rec)) /\
       3 <= ReviewScore.coverage (ReviewerOutput.scores (AttemptRecord.review rec))).
Proof.
  apply (run_recorded_reviews
           (Orchestrator.__init__ client w schema_G schema_R schema_T) h input_data
           (fun rv =>
              ReviewerOutput.pass_decision rv = true <->
              4 <= ReviewScore.age_appropriateness (ReviewerOutput.scores rv) /\
              5 <= ReviewScore.correctness (ReviewerOutput.scores rv) /\
              4 <= ReviewScore.clarity (ReviewerOutput.scores rv) /\
              3 <= ReviewScore.coverage (ReviewerOutput.scores rv))).
  intros i c e rv e' H.
  cbn [Orchestrator.__init__ Orchestrator.reviewer_review] in H.
  unfold ReviewerAgent.review in H. unfold bind, lift_res in H.
  destruct (BaseAgent.run _ _ _ e) as [[result | x] e1]; [| discriminate H].
  destruct (ReviewerAgent._validate_pass_decision _ result) as [r |] eqn:Hv;
    [| discriminate H].
  injection H as -> _.
  apply validate_pass_decision_ok in Hv. destruct Hv as (Hd & Hs & _).
  rewrite Hd, Hs. apply configured_decision.
Qed.

(** ** The orchestrator as shipped *)

(** [self.tagger.run(input_data, content)] reaches [BaseAgent.run] with a
    [GeneratorInput] where [_build_user_prompt] subscripts a [dict]: the
    call raises a [TypeError] before any request is made. *)
Lemma shipped_tagger_raises (client : nat -> completion) (w : wording)
  (schema_G : string -> parsed GeneratorOutput.t)
  (schema_R : string -> parsed ReviewerOutput.t)
  (schema_T : string -> parsed TaggerOutput.t)
  (input_data : GeneratorInput.t) (content : GeneratorOutput.t) (wd : world) :
  Orchestrator.tagger_run (Orchestrator.__init__ client w schema_G schema_R schema_T)
    input_data content wd =
  (Raise (TypeError "'GeneratorInput' object is not subscriptable"), wd).
Proof. reflexivity. Qed.

(** Hence no run of the orchestrator as shipped is approved: a draft
    that passes review is rejected with the [TypeError] as its reason. *)
Theorem shipped_orchestrator_never_approves (client : nat -> completion) (w : wording)
  (schema_G : string -> parsed GeneratorOutput.t)
  (schema_R : string -> parsed ReviewerOutput.t)
  (schema_T : string -> parsed TaggerOutput.t)
  (h : host) (input_data : GeneratorInput.t) (user_id : option string) (wd : world) :
  exists (a : RunArtifact.t) (f : FinalResult.t),
    Orchestrator.run (Orchestrator.__init__ client w schema_G schema_R schema_T)
      h input_data user_id wd = Ok a /\
    RunArtifact.final a = Some f /\
    FinalResult.status f = rejected /\
    (forall rec,
       In rec (RunArtifact.attempts a) ->
       ReviewerOutput.pass_decision (AttemptRecord.review rec) = true ->
       FinalResult.rejection_reason f =
         Some "Unexpected error: 'GeneratorInput' object is not subscriptable").
Proof.
  set (self := Orchestrator.__init__ client w schema_G schema_R schema_T).
  destruct (exec_anatomy self h input_data user_id wd) as (rb & sb & _ & Hbody & Hexec).
  exists (Orchestrator.artifact (closed_out h (handled rb sb))).
  assert (Hrun : Orchestrator.run self h input_data user_id wd =
                 Ok (Orchestrator.artifact (closed_out h (handled rb sb)))).
  { unfold Orchestrator.run. now rewrite Hexec. }
  inversion Hbody as [x e1 Hgen | g e1 x s2 Hgen Hloop
                      | g e1 fc fr s2 x e3 Hgen Hloop Htag
                      | g e1 fc fr s2 tags e3 Hgen Hloop Htag
                      | g e1 fr s2 Hgen Hloop]; subst.
  - exists (Orchestrator.handle x). repeat split; auto. intros rec [].
  - exists (Orchestrator.handle x). repeat split; auto.
    destruct (loop_from_start _ _ _ _ _ _ _ _ _ Hloop)
      as (recs & cs & Htrail & _ & _ & Hext & _).
    state_simpl. rewrite Hext. state_simpl. cbn [app]. intros rec Hin Hpass.
    pose proof (trail_pass_is_final _ _ _ _ _ _ Htrail Hin Hpass). discriminate.
  - unfold self in Htag. rewrite shipped_tagger_raises in Htag. injection Htag as <- <-.
    exists (Orchestrator.handle (TypeError "'GeneratorInput' object is not subscriptable")).
    repeat split; auto.
  - unfold self in Htag. rewrite shipped_tagger_raises in Htag. discriminate.
  - eexists. split; [exact Hrun |]. split; [reflexivity |]. split; [reflexivity |].
    destruct (loop_from_start _ _ _ _ _ _ _ _ _ Hloop)
      as (recs & cs & Htrail & _ & _ & Hext & _).
    state_simpl. rewrite Hext. state_simpl. cbn [app]. intros rec Hin Hpass.
    pose proof (trail_pass_is_final _ _ _ _ _ _ Htrail Hin Hpass). discriminate.
Qed.

(** ** The properties at the sample data of the tests *)

(** C4 at a generator whose first reply does not fit the schema and
    whose second does, and at one whose two replies both fail. *)
Lemma C4_retry_contract_witness :
  BaseAgent.run
    (GeneratorAgent.__init__ (Fixtures.scripted [Content "{}"; Content "{draft}"])
       Fixtures.plain_wording Fixtures.schema_G)
    Fixtures.sample_generator_input (PyInt 1) {| llm_calls := 0 |} =
    (Ok Fixtures.sample_valid_generator_output, {| llm_calls := 2 |})
  /\
  BaseAgent.run
    (GeneratorAgent.__init__ (Fixtures.scripted [ApiFailure "timeout"; Content "oops"])
       Fixtures.plain_wording Fixtures.schema_G)
    Fixtures.sample_generator_input (PyInt 1) {| llm_calls := 0 |} =
    (Raise (AgentError
              ("Failed after 2 attempts. Last error: " ++
               "Invalid JSON response: Expecting value: line 1 column 1 (char 0)")
              "GeneratorAgent" false),
     {| llm_calls := 2 |}).
Proof.
  split.
  - destruct (C4_retry_contract
                (GeneratorAgent.__init__
                   (Fixtures.scripted [Content "{}"; Content "{draft}"])
                   Fixtures.plain_wording Fixtures.schema_G)
                Fixtures.sample_generator_input 1 _ {| llm_calls := 0 |}
                ltac:(lia) eq_refl) as [Hsuccess _].
    apply (Hsuccess 1%nat Fixtures.sample_valid_generator_output).
    + lia.
    + intros i Hi. assert (i = 0%nat) as -> by lia.
      eexists. eapply schema_failure; reflexivity.
    + exists "{draft}". split; reflexivity.
  - destruct (C4_retry_contract
                (GeneratorAgent.__init__
                   (Fixtures.scripted [ApiFailure "timeout"; Content "oops"])
                   Fixtures.plain_wording Fixtures.schema_G)
                Fixtures.sample_generator_input 1 _ {| llm_calls := 0 |}
                ltac:(lia) eq_refl) as [_ Hexhausted].
    apply (Hexhausted
             "Invalid JSON response: Expecting value: line 1 column 1 (char 0)").
    + intros i Hi. assert (i = 0%nat) as -> by (cbn in Hi; lia).
      eexists. eapply transport_failure; reflexivity.
    + eapply parse_failure; reflexivity.
Defined.


(** C1 at the doubles of [test_pass_on_first_attempt]: the tagger is
    called once and the run is approved with its tags; and at the doubles
    of the rejection test: the tagger is not called. *)
Lemma C1_tagging_follows_passing_review_witness :
  (exists a f,
     Orchestrator.run Fixtures.passing_first Fixtures.test_host
       Fixtures.sample_generator_input None 0%nat = Ok a /\
     RunArtifact.final a = Some f /\
     f = {| FinalResult.status := approved;
            FinalResult.content := Some Fixtures.sample_valid_generator_output;
            FinalResult.tags := Some Fixtures.sample_tags;
            FinalResult.rejection_reason := None |})
  /\
  (exists s f,
     Orchestrator.exec (Fixtures.always_failing 2) Fixtures.test_host
       Fixtures.sample_generator_input None 0%nat = (Ok tt, s) /\
     RunArtifact.final (Orchestrator.artifact s) = Some f /\
     tagger_calls (Orchestrator.calls s) = [] /\
     FinalResult.status f = rejected).
Proof.
  split.
  - destruct (C1_tagging_follows_passing_review Fixtures.passing_first Fixtures.test_host
                Fixtures.sample_generator_input None 0%nat)
      as (s & f & Hexec & Hrun & Hfinal & Hpass & _).
    exists (Orchestrator.artifact s), f. split; [exact Hrun |]. split; [exact Hfinal |].
    vm_compute in Hexec. injection Hexec as <-.
    destruct (Hpass _ (or_introl eq_refl) eq_refl) as (outcome & Hcalls & Hout).
    vm_compute in Hcalls. injection Hcalls as <-. exact Hout.
  - destruct (C1_tagging_follows_passing_review (Fixtures.always_failing 2)
                Fixtures.test_host Fixtures.sample_generator_input None 0%nat)
      as (s & f & Hexec & Hrun & Hfinal & _ & Hnone).
    exists s, f. split; [exact Hexec |]. split; [exact Hfinal |].
    vm_compute in Hexec. injection Hexec as <-.
    cbn [Orchestrator.artifact RunArtifact.attempts] in Hnone.
    assert (Hall : forall rec,
              In rec [Fixtures.turn_1; Fixtures.turn_2; Fixtures.turn_3] ->
              ReviewerOutput.pass_decision (AttemptRecord.review rec) = false).
    { intros rec [<- | [<- | [<- | []]]]; reflexivity. }
    pose proof (Hnone Hall) as (Hcalls & Hstatus & _).
    split; [exact Hcalls | exact Hstatus].
Defined.

(** C1 as it was stated fails on the code.  With a tagger that has used
    up its retries, the review passes, the tagger is called, and the run
    ends rejected without tags.  The orchestrator as shipped comes to the
    same end over a model whose every reply is valid. *)
Lemma C1_counterexample :
  (exists s rec f,
     Orchestrator.exec Fixtures.tagger_down Fixtures.test_host
       Fixtures.sample_generator_input None 0%nat = (Ok tt, s) /\
     In rec (RunArtifact.attempts (Orchestrator.artifact s)) /\
     ReviewerOutput.pass_decision (AttemptRecord.review rec) = true /\
     RunArtifact.final (Orchestrator.artifact s) = Some f /\
     FinalResult.status f = rejected /\
     FinalResult.content f = None /\
     FinalResult.tags f = None /\
     tagger_calls (Orchestrator.calls s) =
       [(AttemptRecord.draft rec, Raise Fixtures.tagger_error)])
  /\
  (exists s rec f,
     Orchestrator.exec
       (Fixtures.shipped [Content "{draft}"; Content "{pass}"; Content "{tags}"])
       Fixtures.test_host Fixtures.sample_generator_input None {| llm_calls := 0 |} =
       (Ok tt, s) /\
     In rec (RunArtifact.attempts (Orchestrator.artifact s)) /\
     ReviewerOutput.pass_decision (AttemptRecord.review rec) = true /\
     RunArtifact.final (Orchestrator.artifact s) = Some f /\
     FinalResult.status f = rejected /\
     FinalResult.tags f = None /\
     FinalResult.rejection_reason f =
       Some "Unexpected error: 'GeneratorInput' object is not subscriptable" /\
     tagger_calls (Orchestrator.calls s) <> []).
Proof.
  split.
  - eexists. eexists. eexists. split; [vm_compute; reflexivity |].
    split; [left; reflexivity |]. repeat split; reflexivity.
  - eexists. eexists. eexists. split; [vm_compute; reflexivity |].
    split; [left; reflexivity |]. repeat split; try reflexivity. discriminate.
Qed.

(** C3 at the doubles of the rejection test, ceiling 2: every call
    returns and no review passes, so three reviews are made and fail;
    three attempts. *)
Lemma C3_rejected_after_ceiling_witness :
  exists a reason,
    Orchestrator.run (Fixtures.always_failing 2) Fixtures.test_host
      Fixtures.sample_generator_input (Some "test-user") 0%nat = Ok a /\
    len (RunArtifact.attempts a) = 3 /\
    map AttemptRecord.attempt (RunArtifact.attempts a) = [1; 2; 3] /\
    RunArtifact.final a =
      Some {| FinalResult.status := rejected;
              FinalResult.content := None;
              FinalResult.tags := None;
              FinalResult.rejection_reason := Some reason |} /\
    reason <> "".
Proof.
  destruct (C3_rejected_after_ceiling (Fixtures.always_failing 2) Fixtures.test_host
              Fixtures.sample_generator_input (Some "test-user") 0%nat)
    as (s & Hexec & Hrun & Hcount & Hquiet).
  - cbn. lia.
  - assert (Hq : forallb returned_without_pass (Orchestrator.calls s) = true).
    { replace s with (snd (Orchestrator.exec (Fixtures.always_failing 2) Fixtures.test_host
                             Fixtures.sample_generator_input (Some "test-user") 0%nat))
        by (now rewrite Hexec).
      vm_compute. reflexivity. }
    assert (Hle : Orchestrator.max_refinements (Fixtures.always_failing 2) <= 2)
      by (cbn; lia).
    destruct (Hquiet Hle Hq) as [Hlen Hf].
    destruct (Hcount Hlen Hf) as (Hrecs & Hnum & reason & Hfinal & Hne).
    exists (Orchestrator.artifact s), reason.
    split; [exact Hrun |]. split; [exact Hrecs |]. split; [exact Hnum |].
    split; [exact Hfinal | exact Hne].
Defined.

(** C5 at a generator that has used up its retries and at a refiner
    input the schema refuses. *)
Lemma C5_run_never_raises_witness :
  (exists a,
     Orchestrator.run
       (Fixtures.patched (Raise (AgentError "Failed after 2 attempts. Last error: timeout"
                                   "GeneratorAgent" false))
          (fun _ => Ok Fixtures.sample_failing_review)
          (Ok Fixtures.sample_valid_generator_output) (Ok Fixtures.sample_tags) 2)
       Fixtures.test_host Fixtures.sample_generator_input None 0%nat = Ok a /\
     option_map FinalResult.rejection_reason (RunArtifact.final a) =
       Some (Some ("Pipeline error: [GeneratorAgent] " ++
                   "Failed after 2 attempts. Last error: timeout")))
  /\
  (exists a,
     Orchestrator.run (Fixtures.always_failing 3) Fixtures.test_host
       Fixtures.sample_generator_input None 0%nat = Ok a /\
     option_map FinalResult.rejection_reason (RunArtifact.final a) =
       Some (Some ("Unexpected error: " ++ RefinerInput_error 3))).
Proof.
  split.
  - destruct (C5_run_never_raises
                (Fixtures.patched
                   (Raise (AgentError "Failed after 2 attempts. Last error: timeout"
                             "GeneratorAgent" false))
                   (fun _ => Ok Fixtures.sample_failing_review)
                   (Ok Fixtures.sample_valid_generator_output) (Ok Fixtures.sample_tags) 2)
                Fixtures.test_host Fixtures.sample_generator_input None 0%nat)
      as (s & f & Hexec & Hrun & Hfinal & _ & Hcall & _).
    exists (Orchestrator.artifact s). split; [exact Hrun |]. rewrite Hfinal.
    vm_compute in Hexec. injection Hexec as <-.
    rewrite (Hcall _ _ (or_introl eq_refl) eq_refl). reflexivity.
  - destruct (C5_run_never_raises (Fixtures.always_failing 3) Fixtures.test_host
                Fixtures.sample_generator_input None 0%nat)
      as (s & f & Hexec & Hrun & Hfinal & _ & _ & Hbody).
    exists (Orchestrator.artifact s). split; [exact Hrun |]. rewrite Hfinal.
    rewrite (Hbody (ValidationError (RefinerInput_error 3))
               (snd (Orchestrator.run_body (Fixtures.always_failing 3)
                       Fixtures.test_host Fixtures.sample_generator_input
                       (Orchestrator.start Fixtures.test_host
                          Fixtures.sample_generator_input None 0%nat))));
      [reflexivity | vm_compute; reflexivity].
Defined.

(** C6 at the test clock, which does not run backwards, on a run that
    ends on a caught error. *)
Lemma C6_timestamps_closed_out_witness :
  exists a k,
    Orchestrator.run (Fixtures.always_failing 3) Fixtures.test_host
      Fixtures.sample_generator_input None 0%nat = Ok a /\
    (1 <= k)%nat /\
    Timestamps.finished_at (RunArtifact.timestamps a) =
      Some (utcnow Fixtures.test_host k) /\
    Timestamps.duration_seconds (RunArtifact.timestamps a) =
      Some (total_seconds (utcnow Fixtures.test_host k - utcnow Fixtures.test_host 0)) /\
    Qle (Qmake 0 1)
        (total_seconds (utcnow Fixtures.test_host k - utcnow Fixtures.test_host 0)).
Proof.
  destruct (C6_timestamps_closed_out (Fixtures.always_failing 3) Fixtures.test_host
              Fixtures.sample_generator_input None 0%nat)
    as (a & k & Hrun & Hk & _ & Hfin & Hdur & Hsign).
  exists a, k. split; [exact Hrun |]. split; [exact Hk |]. split; [exact Hfin |].
  split; [exact Hdur |].
  apply Hsign. cbn [utcnow Fixtures.test_host]. lia.
Defined.

(** C6 as the spec words it does not hold: at a clock that is set back by
    a millisecond between any two readings, the run of
    [test_pass_on_first_attempt] is approved with a duration of
    [-0.002] seconds. *)
Lemma C6_counterexample :
  exists a q,
    Orchestrator.run Fixtures.passing_first Fixtures.backward_host
      Fixtures.sample_generator_input None 0%nat = Ok a /\
    Timestamps.started_at (RunArtifact.timestamps a) = 1700000000000000 /\
    Timestamps.finished_at (RunArtifact.timestamps a) = Some 1699999999998000 /\
    Timestamps.duration_seconds (RunArtifact.timestamps a) = Some q /\
    q = total_seconds (-2000) /\
    ~ Qle (Qmake 0 1) q.
Proof.
  eexists. eexists. split; [vm_compute; reflexivity |].
  split; [reflexivity |]. split; [reflexivity |]. split; [reflexivity |].
  split; [vm_compute; reflexivity |].
  intros Hle. vm_compute in Hle. apply Hle. reflexivity.
Qed.

(** C7 at the doubles of [test_pass_on_first_attempt] (one record, no
    refined draft) and at doubles that refine once, with a refiner that
    returns another draft than the one it is given: the first record
    holds the draft the refiner returned for the sample draft and the
    feedback of the failing review, and the second record reviews it. *)
Lemma C7_refined_iff_failed_within_budget_witness :
  (exists a ts,
     Orchestrator.run Fixtures.passing_first Fixtures.test_host
       Fixtures.sample_generator_input None 0%nat = Ok a /\
     RunArtifact.attempts a =
       [ {| AttemptRecord.attempt := 1;
            AttemptRecord.draft := Fixtures.sample_valid_generator_output;
            AttemptRecord.review := Fixtures.sample_passing_review;
            AttemptRecord.refined := None;
            AttemptRecord.timestamp := ts |} ])
  /\
  (exists s rec rec',
     Orchestrator.exec Fixtures.refining_once Fixtures.test_host
       Fixtures.sample_generator_input None 0%nat = (Ok tt, s) /\
     RunArtifact.attempts (Orchestrator.artifact s) = [rec; rec'] /\
     AttemptRecord.draft rec = Fixtures.sample_valid_generator_output /\
     AttemptRecord.review rec = Fixtures.sample_failing_review /\
     AttemptRecord.refined rec = Some Fixtures.sample_refined_output /\
     AttemptRecord.draft rec' = Fixtures.sample_refined_output /\
     AttemptRecord.refined rec' = None /\
     returned_refinements (Orchestrator.calls s) =
       [ ({| RefinerInput.original_input := Fixtures.sample_generator_input;
             RefinerInput.current_content := Fixtures.sample_valid_generator_output;
             RefinerInput.feedback :=
               ReviewerOutput.feedback Fixtures.sample_failing_review;
             RefinerInput.attempt_number := 1 |},
          Fixtures.sample_refined_output) ] /\
     In (Orchestrator.reviewer_called Fixtures.sample_generator_input
           Fixtures.sample_refined_output (Ok Fixtures.sample_passing_review))
        (Orchestrator.calls s)).
Proof.
  split.
  - destruct (C7_refined_iff_failed_within_budget Fixtures.passing_first
                Fixtures.test_host Fixtures.sample_generator_input None 0%nat)
      as (s & Hexec & Hrun & _ & _ & _ & _ & _ & Hfirst).
    exists (Orchestrator.artifact s). eexists. split; [exact Hrun |].
    apply (Hfirst Fixtures.sample_valid_generator_output 0%nat
             Fixtures.sample_passing_review 1%nat);
      [cbn; lia | reflexivity | reflexivity | reflexivity].
  - destruct (C7_refined_iff_failed_within_budget Fixtures.refining_once
                Fixtures.test_host Fixtures.sample_generator_input None 0%nat)
      as (s & Hexec & Hrun & Hiff & Hchain & _ & Hfrom & Hsame & _).
    exists s. vm_compute in Hexec. injection Hexec as <-.
    eexists. eexists. split; [vm_compute; reflexivity |]. split; [reflexivity |].
    split; [reflexivity |]. split; [reflexivity |].
    split; [exact (Hchain 0%nat _ _ eq_refl eq_refl) |].
    split; [reflexivity |]. split; [reflexivity |].
    split; [rewrite <- Hsame; reflexivity |].
    exact (proj1 (proj1 (Hfrom _ (or_intror (or_introl eq_refl))))).
Defined.

(** C8 at the doubles of the rejection test: the reason counts three
    attempts and gives the one critical item of the last review. *)
Lemma C8_rejection_reason_summary_witness :
  Orchestrator._summarize_feedback (Some Fixtures.sample_failing_review) =
    "explanation.text: Vocabulary too complex for Grade 5" /\
  Orchestrator._summarize_feedback (Some Fixtures.sample_passing_review) =
    "explanation.text: Could include more visual examples" /\
  exists a f,
    Orchestrator.run (Fixtures.always_failing 2) Fixtures.test_host
      Fixtures.sample_generator_input None 0%nat = Ok a /\
    RunArtifact.final a = Some f /\
    FinalResult.rejection_reason f =
      Some ("Failed review after 3 attempts. Final issues: " ++
            "explanation.text: Vocabulary too complex for Grade 5").
Proof.
  destruct (C8_rejection_reason_summary (Fixtures.always_failing 2) Fixtures.test_host
              Fixtures.sample_generator_input None 0%nat)
    as (_ & Hsummary & _ & s & Hexec & Hreason).
  split; [| split].
  - destruct (Hsummary Fixtures.sample_failing_review) as (_ & Hcritical & _).
    rewrite Hcritical; [reflexivity | discriminate].
  - destruct (Hsummary Fixtures.sample_passing_review) as (_ & _ & Hany).
    rewrite Hany; [reflexivity | discriminate | reflexivity].
  - exists (Orchestrator.artifact s). eexists.
    split; [unfold Orchestrator.run; rewrite Hexec; reflexivity |].
    vm_compute in Hexec. injection Hexec as <-.
    split; [reflexivity |].
    rewrite (Hreason
               (snd (Orchestrator.run_body (Fixtures.always_failing 2) Fixtures.test_host
                       Fixtures.sample_generator_input
                       (Orchestrator.start Fixtures.test_host
                          Fixtures.sample_generator_input None 0%nat)))
               _ ltac:(vm_compute; reflexivity) eq_refl eq_refl).
    reflexivity.
Defined.

(** C9 at the artifact of the rejection test, saved to an empty table
    and to a table that holds an older document of the same run. *)
Lemma C9_save_then_get_roundtrip_witness :
  (exists tb' loaded,
     ArtifactRepository.save Fixtures.test_runtime Fixtures.rejected_artifact [] =
       (Ok "run-0001", tb') /\
     ArtifactRepository.get Fixtures.test_runtime "run-0001" tb' = (Ok (Some loaded), tb') /\
     RunArtifact.run_id loaded = "run-0001" /\
     option_map FinalResult.status (RunArtifact.final loaded) = Some rejected /\
     len (RunArtifact.attempts loaded) = 3)
  /\
  (exists tb' loaded,
     ArtifactRepository.save Fixtures.test_runtime Fixtures.rejected_artifact
       [[("run_id", JStr "run-0001"); ("final", JNull); ("note", JStr "stale")]] =
       (Ok "run-0001", tb') /\
     ArtifactRepository.get Fixtures.test_runtime "run-0001" tb' = (Ok (Some loaded), tb') /\
     loaded = Fixtures.rejected_artifact).
Proof.
  split.
  - destruct (C9_save_then_get_roundtrip Fixtures.test_runtime Fixtures.rejected_artifact []
                ltac:(vm_compute; reflexivity))
      as (tb' & loaded & Hsave & Hget & -> & _).
    exists tb', Fixtures.rejected_artifact. repeat split; assumption || reflexivity.
  - destruct (C9_save_then_get_roundtrip Fixtures.test_runtime Fixtures.rejected_artifact
                [[("run_id", JStr "run-0001"); ("final", JNull); ("note", JStr "stale")]]
                ltac:(vm_compute; reflexivity))
      as (tb' & loaded & Hsave & Hget & -> & _).
    exists tb', Fixtures.rejected_artifact. repeat split; assumption.
Defined.

(** C10 at the doubles of the rejection test under a ceiling of 3. *)
Lemma C10_schema_caps_refinement_witness :
  exists s,
    Orchestrator.exec (Fixtures.always_failing 3) Fixtures.test_host
      Fixtures.sample_generator_input None 0%nat = (Ok tt, s) /\
    refiner_attempts (Orchestrator.calls s) = [1; 2] /\
    len (RunArtifact.attempts (Orchestrator.artifact s)) = 2 /\
    option_map FinalResult.rejection_reason (RunArtifact.final (Orchestrator.artifact s)) =
      Some (Some ("Unexpected error: " ++ RefinerInput_error 3)).
Proof.
  destruct (C10_schema_caps_refinement (Fixtures.always_failing 3) Fixtures.test_host
              Fixtures.sample_generator_input None 0%nat)
    as (_ & s & Hexec & _ & _ & Hcap).
  exists s. split; [exact Hexec |].
  destruct Hcap as (Hcalls & Hlen & Hfinal).
  - cbn. lia.
  - intros i k. eexists. eexists. reflexivity.
  - intros i c k. eexists. eexists. split; reflexivity.
  - intros ri k. eexists. eexists. reflexivity.
  - split; [exact Hcalls |]. split; [exact Hlen |]. now rewrite Hfinal.
Defined.

(** A reply that is a JSON list ends the generator's [run] after one
    request although a retry was left. *)
Lemma uncaught_exception_is_not_retried_witness :
  BaseAgent.run
    (GeneratorAgent.__init__ (Fixtures.scripted [Content "[]"; Content "{draft}"])
       Fixtures.plain_wording Fixtures.schema_G)
    Fixtures.sample_generator_input (PyInt 1) {| llm_calls := 0 |} =
  (Raise (TypeError "argument after ** must be a mapping, not list"), {| llm_calls := 1 |}).
Proof.
  apply (uncaught_exception_is_not_retried
           (GeneratorAgent.__init__ (Fixtures.scripted [Content "[]"; Content "{draft}"])
              Fixtures.plain_wording Fixtures.schema_G)
           Fixtures.sample_generator_input
           (user_text Fixtures.plain_wording "GeneratorAgent"
              [str_int 5; "Fractions as parts of a whole"])
           "[]" 1 (TypeError "argument after ** must be a mapping, not list")
           {| llm_calls := 0 |});
    [lia | reflexivity | reflexivity | reflexivity | reflexivity].
Defined.

(** The artifact of [test_fail_refine_pass] satisfies its model. *)
Lemma run_artifact_is_valid_witness :
  exists a : RunArtifact.t,
    Orchestrator.run Fixtures.passing_second Fixtures.test_host
      Fixtures.sample_generator_input None 0%nat = Ok a /\
    RunArtifact.valid a = true /\
    RunArtifact.final a <> None /\
    Timestamps.finished_at (RunArtifact.timestamps a) <> None.
Proof.
  apply (run_artifact_is_valid Fixtures.passing_second Fixtures.test_host
           Fixtures.sample_generator_input None 0%nat).
  - repeat split.
    + intros input_data e g e' H. injection H as <- _. reflexivity.
    + intros input_data content e rv e' H. cbn in H.
      destruct e; injection H as <- _; reflexivity.
    + intros refiner_input e g e' H. injection H as <- _. reflexivity.
    + intros input_data content e tags e' H. injection H as <- _. reflexivity.
  - reflexivity.
Defined.

(** ** The further properties at the sample data *)

(** A generator whose two attempts fail has sent two requests, within its
    budget of one retry. *)
Lemma run_request_budget_witness :
  BaseAgent.run
    (GeneratorAgent.__init__ (Fixtures.scripted [ApiFailure "timeout"; Content "oops"])
       Fixtures.plain_wording Fixtures.schema_G)
    Fixtures.sample_generator_input (PyInt 1) {| llm_calls := 0 |} =
    (Raise (AgentError
              ("Failed after 2 attempts. Last error: " ++
               "Invalid JSON response: Expecting value: line 1 column 1 (char 0)")
              "GeneratorAgent" false),
     {| llm_calls := 2 |}) /\
  Z.of_nat (2 - 0) <= Z.max 0 (1 + 1).
Proof.
  assert (Hrun : BaseAgent.run
            (GeneratorAgent.__init__ (Fixtures.scripted [ApiFailure "timeout"; Content "oops"])
               Fixtures.plain_wording Fixtures.schema_G)
            Fixtures.sample_generator_input (PyInt 1) {| llm_calls := 0 |} =
            (Raise (AgentError
                      ("Failed after 2 attempts. Last error: " ++
                       "Invalid JSON response: Expecting value: line 1 column 1 (char 0)")
                      "GeneratorAgent" false),
             {| llm_calls := 2 |})) by (vm_compute; reflexivity).
  split; [exact Hrun |].
  exact (proj1 (proj2 (run_request_budget _ _ _ _ _ _ Hrun))).
Defined.

(** The error of that generator is terminal and names it; the message
    ends with the failure of its second request, a reply that is no JSON,
    not with that of the first, which timed out. *)
Lemma run_raises_only_terminal_errors_witness :
  false = false /\
  "GeneratorAgent" =
    BaseAgent.name
      (GeneratorAgent.__init__ (Fixtures.scripted [ApiFailure "timeout"; Content "oops"])
         Fixtures.plain_wording Fixtures.schema_G) /\
  0 <= 1 /\
  (0 < 2)%nat /\
  (forall k, (0 <= k < 2)%nat ->
     failure_message
       (GeneratorAgent.__init__ (Fixtures.scripted [ApiFailure "timeout"; Content "oops"])
          Fixtures.plain_wording Fixtures.schema_G) k <> None) /\
  exists last_message,
    failure_message
      (GeneratorAgent.__init__ (Fixtures.scripted [ApiFailure "timeout"; Content "oops"])
         Fixtures.plain_wording Fixtures.schema_G) 1 = Some last_message /\
    "Failed after 2 attempts. Last error: " ++
    "Invalid JSON response: Expecting value: line 1 column 1 (char 0)" =
    "Failed after " ++ str_int (1 + 1) ++ " attempts. Last error: " ++ last_message.
Proof.
  eapply (run_raises_only_terminal_errors
            (GeneratorAgent.__init__ (Fixtures.scripted [ApiFailure "timeout"; Content "oops"])
               Fixtures.plain_wording Fixtures.schema_G)
            Fixtures.sample_generator_input _ 1 {| llm_calls := 0 |} {| llm_calls := 2 |});
    [reflexivity | vm_compute; reflexivity].
Defined.

(** With the budget -1 the generator sends nothing and raises an
    [AttributeError]. *)
Lemma run_negative_budget_witness :
  BaseAgent.run
    (GeneratorAgent.__init__ (Fixtures.scripted [Content "{draft}"])
       Fixtures.plain_wording Fixtures.schema_G)
    Fixtures.sample_generator_input (PyInt (-1)) {| llm_calls := 0 |} =
  (Raise (AttributeError "'NoneType' object has no attribute 'message'"),
   {| llm_calls := 0 |}).
Proof.
  eapply (run_negative_budget
            (GeneratorAgent.__init__ (Fixtures.scripted [Content "{draft}"])
               Fixtures.plain_wording Fixtures.schema_G)
            Fixtures.sample_generator_input _ (-1) {| llm_calls := 0 |});
    [lia | reflexivity].
Defined.

(** The overrated review, once corrected, is left as it is. *)
Lemma validate_pass_decision_idempotent_witness :
  exists r : ReviewerOutput.t,
    ReviewerAgent._validate_pass_decision
      (ReviewerAgent.__init__ (Fixtures.scripted []) Fixtures.plain_wording Fixtures.schema_R)
      Fixtures.overrated_review = Ok r /\
    ReviewerOutput.pass_decision r = false /\
    ReviewerAgent._validate_pass_decision
      (ReviewerAgent.__init__ (Fixtures.scripted []) Fixtures.plain_wording Fixtures.schema_R)
      r = Ok r.
Proof.
  eexists. split; [vm_compute; reflexivity |]. split; [reflexivity |].
  apply (validate_pass_decision_idempotent
           (ReviewerAgent.__init__ (Fixtures.scripted []) Fixtures.plain_wording
              Fixtures.schema_R)
           Fixtures.overrated_review).
  vm_compute. reflexivity.
Defined.

(** Saving the approved run leaves the rejected one to be read as
    before. *)
Lemma save_leaves_other_runs_witness :
  fst (ArtifactRepository.get Fixtures.test_runtime "run-0001"
         (snd (ArtifactRepository.save Fixtures.test_runtime Fixtures.approved_artifact
                 (stored Fixtures.test_runtime [Fixtures.rejected_artifact])))) =
  fst (ArtifactRepository.get Fixtures.test_runtime "run-0001"
         (stored Fixtures.test_runtime [Fixtures.rejected_artifact])).
Proof.
  apply (save_leaves_other_runs Fixtures.test_runtime Fixtures.approved_artifact "run-0001"
           (stored Fixtures.test_runtime [Fixtures.rejected_artifact])).
  discriminate.
Defined.

(** One approved run of three: the share is the [float] Python prints as
    [0.3333333333333333]. *)
Lemma get_stats_counts_finalized_runs_witness :
  exists rate : json,
    ArtifactRepository.get_stats
      (stored Fixtures.test_runtime
         [Fixtures.rejected_artifact; Fixtures.approved_artifact; Fixtures.rejected_artifact]) =
      (Ok [("total_runs", JInt 3); ("approved", JInt 1); ("rejected", JInt 2);
           ("approval_rate", rate)],
       stored Fixtures.test_runtime
         [Fixtures.rejected_artifact; Fixtures.approved_artifact; Fixtures.rejected_artifact]) /\
    1 + 2 = 3 /\
    exists q : Q,
      rate = JFloat q /\ q = Qmake 6004799503160661 18014398509481984 /\
      Qle (Qmake 0 1) q /\ Qle q (Qmake 1 1).
Proof.
  apply (get_stats_counts_finalized_runs Fixtures.test_runtime
           [Fixtures.rejected_artifact; Fixtures.approved_artifact; Fixtures.rejected_artifact]).
  intros a [<- | [<- | [<- | []]]]; discriminate.
Defined.

(** With an artifact whose [final] is unset in the table, the statistics
    raise. *)
Lemma get_stats_raises_on_unfinalized_run_witness :
  ArtifactRepository.get_stats
    (stored Fixtures.test_runtime [Fixtures.rejected_artifact; Fixtures.unfinalized_artifact]) =
  (Raise (AttributeError "'NoneType' object has no attribute 'get'"),
   stored Fixtures.test_runtime [Fixtures.rejected_artifact; Fixtures.unfinalized_artifact]).
Proof.
  apply (get_stats_raises_on_unfinalized_run Fixtures.test_runtime
           [Fixtures.rejected_artifact; Fixtures.unfinalized_artifact]
           Fixtures.unfinalized_artifact).
  - right. left. reflexivity.
  - reflexivity.
Defined.

(** Of the two stored runs, the listing with limit 1 returns the later
    one. *)
Lemma get_all_returns_the_newest_witness :
  (exists result rest : list RunArtifact.t,
     ArtifactRepository.get_all Fixtures.test_runtime Fixtures.test_python 1
       (stored Fixtures.test_runtime [Fixtures.rejected_artifact; Fixtures.approved_artifact]) =
       (Ok result,
        stored Fixtures.test_runtime [Fixtures.rejected_artifact; Fixtures.approved_artifact]) /\
     Permutation (result ++ rest) [Fixtures.rejected_artifact; Fixtures.approved_artifact] /\
     StronglySorted (not_older Fixtures.test_runtime) (result ++ rest) /\
     (0 <= 1 -> len result = Z.min 1 2) /\
     (1 < 0 -> len result = Z.max 0 (2 + 1)))
  /\
  fst (ArtifactRepository.get_all Fixtures.test_runtime Fixtures.test_python 1
         (stored Fixtures.test_runtime
            [Fixtures.rejected_artifact; Fixtures.approved_artifact])) =
    Ok [Fixtures.approved_artifact].
Proof.
  split.
  - apply (get_all_returns_the_newest Fixtures.test_runtime Fixtures.test_python 1
             [Fixtures.rejected_artifact; Fixtures.approved_artifact]).
    vm_compute. reflexivity.
  - vm_compute. reflexivity.
Defined.

(** The listing of ["test-user"] holds the rejected run only. *)
Lemma get_by_user_returns_the_users_runs_witness :
  (exists result rest : list RunArtifact.t,
     ArtifactRepository.get_by_user Fixtures.test_runtime Fixtures.test_python "test-user" 50
       (stored Fixtures.test_runtime [Fixtures.rejected_artifact; Fixtures.approved_artifact]) =
       (Ok result,
        stored Fixtures.test_runtime [Fixtures.rejected_artifact; Fixtures.approved_artifact]) /\
     Permutation (result ++ rest)
       (filter (of_user "test-user")
          [Fixtures.rejected_artifact; Fixtures.approved_artifact]) /\
     (forall a, In a result ->
        RunArtifact.user_id a = Some "test-user" /\
        In a [Fixtures.rejected_artifact; Fixtures.approved_artifact]) /\
     StronglySorted (not_older Fixtures.test_runtime) (result ++ rest) /\
     (0 <= 50 ->
      len result =
        Z.min 50 (len (filter (of_user "test-user")
                         [Fixtures.rejected_artifact; Fixtures.approved_artifact]))))
  /\
  fst (ArtifactRepository.get_by_user Fixtures.test_runtime Fixtures.test_python
         "test-user" 50
         (stored Fixtures.test_runtime
            [Fixtures.rejected_artifact; Fixtures.approved_artifact])) =
    Ok [Fixtures.rejected_artifact].
Proof.
  split.
  - apply (get_by_user_returns_the_users_runs Fixtures.test_runtime Fixtures.test_python
             "test-user" 50 [Fixtures.rejected_artifact; Fixtures.approved_artifact]).
    vm_compute. reflexivity.
  - vm_compute. reflexivity.
Defined.

(** A [run_id] that was never stored: status 404. *)
Lemma get_artifact_finds_or_404_witness :
  App.get_artifact Fixtures.test_runtime "run-9999"
    (stored Fixtures.test_runtime [Fixtures.rejected_artifact; Fixtures.approved_artifact]) =
  (App.HTTPException 404 "Artifact run-9999 not found",
   stored Fixtures.test_runtime [Fixtures.rejected_artifact; Fixtures.approved_artifact]).
Proof.
  apply (get_artifact_finds_or_404 Fixtures.test_runtime "run-9999"
           [Fixtures.rejected_artifact; Fixtures.approved_artifact]).
  vm_compute. reflexivity.
Defined.


(** [tag] over a model that answers with valid tags: one request. *)
Lemma tag_reaches_the_model_witness :
  TaggerAgent.tag
    (TaggerAgent.__init__ (Fixtures.scripted [Content "{tags}"]) Fixtures.plain_wording
       Fixtures.schema_T)
    Fixtures.sample_generator_input Fixtures.sample_valid_generator_output
    {| llm_calls := 0 |} = (Ok Fixtures.sample_tags, {| llm_calls := 1 |}) /\
  (llm_calls {| llm_calls := 0 |} < llm_calls {| llm_calls := 1 |} <=
   llm_calls {| llm_calls := 0 |} + 2)%nat.
Proof.
  assert (Htag : TaggerAgent.tag
            (TaggerAgent.__init__ (Fixtures.scripted [Content "{tags}"])
               Fixtures.plain_wording Fixtures.schema_T)
            Fixtures.sample_generator_input Fixtures.sample_valid_generator_output
            {| llm_calls := 0 |} = (Ok Fixtures.sample_tags, {| llm_calls := 1 |}))
    by (vm_compute; reflexivity).
  split; [exact Htag |].
  exact (proj1 (tag_reaches_the_model _ _ _ _ _ _ _ _ Htag)).
Defined.
